(** * setup-task: a shallow embedding of the install pipeline

    The development follows the TypeScript sources of the action:
    [src/constants.ts], [src/utils.ts], [src/cache.ts], [src/installer.ts]
    and [src/main.ts].  Every function of the action that decides one of
    the properties below is transcribed as a computation in a small
    state-and-exception monad; the collaborators the action calls (the
    file system, the HTTP client, the tool cache, the cache backend, the
    process runner, the path library) are fields of a [Host] record and are
    never given a fixed behaviour.  The statements that [installer.ts]
    runs when it is loaded (the defaults of [RUNNER_TEMP] and
    [RUNNER_TOOL_CACHE]) belong to no function and are left out. *)

From Stdlib Require Import String Ascii List Bool Lia.
From stdpp Require Import base strings gmap pretty.
Import ListNotations.
Local Open Scope string_scope.

(** ** JavaScript strings

    A JavaScript string is modelled by a [string]; each character stands
    for one code unit below 256.  The operations are the ones the action
    uses: truthiness, [startsWith], [endsWith], [substring(1)] and
    [trim]. *)
Module JS.

(** [if (s)] on a string: every string but the empty one is truthy. *)
Definition truthy (s : string) : bool := negb (String.eqb s "").

(** [if (o)] on a [string | undefined] or a [string | null]. *)
Definition truthy_opt (o : option string) : bool :=
  match o with
  | Some s => truthy s
  | None => false
  end.

(** [s.startsWith(p)] *)
Fixpoint startsWith (s p : string) : bool :=
  match p, s with
  | EmptyString, _ => true
  | String c p', String d s' => Ascii.eqb c d && startsWith s' p'
  | String _ _, EmptyString => false
  end.

(** [s.endsWith(p)] *)
Fixpoint endsWith (s p : string) : bool :=
  String.eqb s p
  || match s with
     | EmptyString => false
     | String _ s' => endsWith s' p
     end.

(** [s.substring(1)] *)
Definition substring1 (s : string) : string :=
  match s with
  | EmptyString => EmptyString
  | String _ s' => s'
  end.

(** White space and line terminators removed by [trim], among the code
    units below 256: TAB, LF, VT, FF, CR, SPACE and NBSP. *)
Definition isWhiteSpace (c : ascii) : bool :=
  let n := nat_of_ascii c in
  (Nat.leb 9 n && Nat.leb n 13) || Nat.eqb n 32 || Nat.eqb n 160.

Fixpoint trimStart (s : string) : string :=
  match s with
  | EmptyString => EmptyString
  | String c s' => if isWhiteSpace c then trimStart s' else s
  end.

Fixpoint trimEnd (s : string) : string :=
  match s with
  | EmptyString => EmptyString
  | String c s' =>
      match trimEnd s' with
      | EmptyString => if isWhiteSpace c then EmptyString else String c EmptyString
      | t => String c t
      end
  end.

(** [s.trim()] *)
Definition trim (s : string) : string := trimEnd (trimStart s).

(** [s.includes(p)] *)
Fixpoint includes (s p : string) : bool :=
  startsWith s p
  || match s with
     | EmptyString => false
     | String _ s' => includes s' p
     end.

End JS.

(** ** Exceptions, events and the host *)

(** The outcome of a call: a value, or a thrown [Error] carrying its
    message (the action only ever inspects [error.message]). *)
Inductive Result (A : Type) : Type :=
| Ok (a : A)
| Throw (msg : string).
Arguments Ok {A} a.
Arguments Throw {A} msg.

Inductive Level := LDebug | LInfo | LWarning | LError.

(** Every call that leaves the action is recorded, in order. *)
Inductive Event :=
| CoreLog (lvl : Level) (msg : string)
| CoreSetFailed (msg : string)
| CoreSetOutput (name value : string)
| CoreAddPath (dir : string)
| ExportVars (input : string)
| FsExistsSync (p : string)
| FsReaddirSync (p : string)
| FsStatSync (p : string)
| FsReadFileSync (p : string)
| FsChmodSync (p mode : string)
| FsMkdirSync (p : string)
| FsCopyFileSync (src dest : string)
| HttpFetch (url : string) (headers : list (string * string))
| DownloadTool (url : string)
| ExtractZip (file : string)
| ExtractTar (file : string)
| CacheRestore (paths : list string) (key : string)
| CacheSave (paths : list string) (key : string)
| ExecExec (cmd : string) (args : list string)
| ExecGetOutput (cmd : string) (args : list string).

(** The events that reach the network: the release index, the archive
    download and the cache backend. *)
Definition is_network (e : Event) : bool :=
  match e with
  | HttpFetch _ _ | DownloadTool _ | CacheRestore _ _ | CacheSave _ _ => true
  | _ => false
  end.

(** The body of the release-index answer, typed as the action types it:
    [{ tag_name?: string }], or a falsy value ([None]). *)
Record ReleaseData := { tag_name : option string }.

Record Response := {
  resp_ok : bool;
  resp_status : N;
  resp_text : Result string;
  resp_json : Result (option ReleaseData)
}.

(** The collaborators.  [St] is the state of the machine the action runs
    on; reads take it, writes return the next one. *)
Record Host (St : Type) := {
  process_platform : string;
  process_arch : string;
  process_env : list (string * string);
  os_tmpdir : string;
  core_getInput : string -> string;
  path_join : string -> string -> string;
  path_dirname : string -> string;
  fs_existsSync : St -> string -> bool;
  fs_readdirSync : St -> string -> Result (list string);
  fs_statSync_isDirectory : St -> string -> Result bool;
  fs_readFileSync : St -> string -> Result string;
  fs_chmodSync : St -> string -> string -> Result unit * St;
  fs_mkdirSync : St -> string -> Result unit * St;
  fs_copyFileSync : St -> string -> string -> Result unit * St;
  http_fetch : St -> string -> list (string * string) -> Result Response * St;
  toolCache_downloadTool : St -> string -> Result string * St;
  toolCache_extractZip : St -> string -> Result string * St;
  toolCache_extractTar : St -> string -> Result string * St;
  cache_restoreCache : St -> list string -> string -> Result (option string) * St;
  cache_saveCache : St -> list string -> string -> Result unit * St;
  exec_run : St -> string -> list string -> Result string * St;
  core_addPath_st : St -> string -> St;
  exportVars_st : St -> string -> St
}.
Arguments process_platform {St} _.
Arguments process_arch {St} _.
Arguments process_env {St} _.
Arguments os_tmpdir {St} _.
Arguments core_getInput {St} _ _.
Arguments path_join {St} _ _ _.
Arguments path_dirname {St} _ _.
Arguments fs_existsSync {St} _ _ _.
Arguments fs_readdirSync {St} _ _ _.
Arguments fs_statSync_isDirectory {St} _ _ _.
Arguments fs_readFileSync {St} _ _ _.
Arguments fs_chmodSync {St} _ _ _ _.
Arguments fs_mkdirSync {St} _ _ _.
Arguments fs_copyFileSync {St} _ _ _ _.
Arguments http_fetch {St} _ _ _ _.
Arguments toolCache_downloadTool {St} _ _ _.
Arguments toolCache_extractZip {St} _ _ _.
Arguments toolCache_extractTar {St} _ _ _.
Arguments cache_restoreCache {St} _ _ _ _.
Arguments cache_saveCache {St} _ _ _ _.
Arguments exec_run {St} _ _ _ _.
Arguments core_addPath_st {St} _ _ _.
Arguments exportVars_st {St} _ _ _.

(** ** The monad of the action

    A computation takes the machine state and the events recorded so far,
    and returns a value or a thrown error together with the new state and
    the extended record.  State changes made before a [throw] persist, as
    they do in JavaScript. *)
Definition M (St A : Type) : Type :=
  St * list Event -> Result A * (St * list Event).

Definition ret {St A} (a : A) : M St A := fun st => (Ok a, st).

Definition throw {St A} (msg : string) : M St A := fun st => (Throw msg, st).

Definition bind {St A B} (c : M St A) (k : A -> M St B) : M St B :=
  fun st =>
    match c st with
    | (Ok a, st') => k a st'
    | (Throw msg, st') => (Throw msg, st')
    end.

(** [try { c } catch (error) { h error.message }] *)
Definition try_catch {St A} (c : M St A) (h : string -> M St A) : M St A :=
  fun st =>
    match c st with
    | (Ok a, st') => (Ok a, st')
    | (Throw msg, st') => h msg st'
    end.

Declare Scope js_scope.
Delimit Scope js_scope with js.
Notation "x <- c ;; k" := (bind c (fun x => k))
  (at level 100, c at next level, right associativity) : js_scope.
Notation "c ;; k" := (bind c (fun _ => k))
  (at level 100, right associativity) : js_scope.
Local Open Scope js_scope.

(** Record an event that has no answer. *)
Definition emit {St} (e : Event) : M St unit :=
  fun st => (Ok tt, (fst st, (snd st ++ [e])%list)).

(** A call that reads the machine state. *)
Definition ask {St A} (e : Event) (f : St -> A) : M St A :=
  fun st => (Ok (f (fst st)), (fst st, (snd st ++ [e])%list)).

(** A call that reads the machine state and may throw. *)
Definition ask_result {St A} (e : Event) (f : St -> Result A) : M St A :=
  fun st => (f (fst st), (fst st, (snd st ++ [e])%list)).

(** A call that changes the machine state and may throw. *)
Definition call {St A} (e : Event) (f : St -> Result A * St) : M St A :=
  fun st => let r := f (fst st) in (fst r, (snd r, (snd st ++ [e])%list)).

(** A call that changes the machine state and cannot throw. *)
Definition update {St} (e : Event) (f : St -> St) : M St unit :=
  fun st => (Ok tt, (f (fst st), (snd st ++ [e])%list)).

(** The value, the final machine state and the events of a run. *)
Definition result_of {St A} (r : Result A * (St * list Event)) : Result A := fst r.
Definition state_of {St A} (r : Result A * (St * list Event)) : St := fst (snd r).
Definition events_of {St A} (r : Result A * (St * list Event)) : list Event := snd (snd r).

(** ** [src/constants.ts] *)

Definition RELEASES_API_URL : string :=
  "https://api.github.com/repos/go-task/task/releases".

Definition OS_MAPPING : gmap string string :=
  <["win32" := "windows"]> (<["darwin" := "darwin"]> (<["linux" := "linux"]> ∅)).

Definition ARCH_MAPPING : gmap string string :=
  <["x64" := "amd64"]> (<["arm64" := "arm64"]> (<["arm" := "arm"]> ∅)).

Definition CACHE_DIR : string := "task-runner".

Definition RELEASES_URL : string :=
  "https://github.com/go-task/task/releases/download".

(** [src/types.ts]: the options of an installation. *)
Record TaskOptions := {
  version : string;
  skipCache : bool;
  githubToken : string
}.

Section Action.

Context {St : Type} (host : Host St).

Definition EXE_EXTENSION : string :=
  if String.eqb (process_platform host) "win32" then ".exe" else "".

(** *** [@actions/core], [fs], [@actions/tool-cache], [@actions/cache],
    [@actions/exec] and [fetch], as calls to the host *)

Definition core_debug (msg : string) : M St unit := emit (CoreLog LDebug msg).
Definition core_info (msg : string) : M St unit := emit (CoreLog LInfo msg).
Definition core_warning (msg : string) : M St unit := emit (CoreLog LWarning msg).
Definition core_error (msg : string) : M St unit := emit (CoreLog LError msg).
Definition core_setFailed (msg : string) : M St unit := emit (CoreSetFailed msg).
Definition core_setOutput (name value : string) : M St unit :=
  emit (CoreSetOutput name value).
Definition core_addPath (dir : string) : M St unit :=
  update (CoreAddPath dir) (fun s => core_addPath_st host s dir).

Definition existsSync (p : string) : M St bool :=
  ask (FsExistsSync p) (fun s => fs_existsSync host s p).
Definition readdirSync (p : string) : M St (list string) :=
  ask_result (FsReaddirSync p) (fun s => fs_readdirSync host s p).
Definition statSync_isDirectory (p : string) : M St bool :=
  ask_result (FsStatSync p) (fun s => fs_statSync_isDirectory host s p).
Definition readFileSync (p : string) : M St string :=
  ask_result (FsReadFileSync p) (fun s => fs_readFileSync host s p).
Definition chmodSync (p mode : string) : M St unit :=
  call (FsChmodSync p mode) (fun s => fs_chmodSync host s p mode).
Definition mkdirSync (p : string) : M St unit :=
  call (FsMkdirSync p) (fun s => fs_mkdirSync host s p).
Definition copyFileSync (src dest : string) : M St unit :=
  call (FsCopyFileSync src dest) (fun s => fs_copyFileSync host s src dest).

Definition fetch (url : string) (headers : list (string * string)) : M St Response :=
  call (HttpFetch url headers) (fun s => http_fetch host s url headers).
Definition downloadTool (url : string) : M St string :=
  call (DownloadTool url) (fun s => toolCache_downloadTool host s url).
Definition extractZip (file : string) : M St string :=
  call (ExtractZip file) (fun s => toolCache_extractZip host s file).
Definition extractTar (file : string) : M St string :=
  call (ExtractTar file) (fun s => toolCache_extractTar host s file).
Definition cache_restore (paths : list string) (key : string) : M St (option string) :=
  call (CacheRestore paths key) (fun s => cache_restoreCache host s paths key).
Definition cache_save (paths : list string) (key : string) : M St unit :=
  call (CacheSave paths key) (fun s => cache_saveCache host s paths key).

(** [exec.exec] resolves once the process has exited with code 0 and
    rejects otherwise; the text it hands to the [stdout] listener is the
    value here.  [exec.getExecOutput] resolves to the same text. *)
Definition exec_exec (cmd : string) (args : list string) : M St string :=
  call (ExecExec cmd args) (fun s => exec_run host s cmd args).
Definition exec_getExecOutput (cmd : string) (args : list string) : M St string :=
  call (ExecGetOutput cmd args) (fun s => exec_run host s cmd args).

(** Lift an already computed outcome ([await response.text()]). *)
Definition await {A} (r : Result A) : M St A := fun st => (r, st).

(** *** [src/utils.ts] *)

Definition getCacheDirectory : string :=
  path_join host (os_tmpdir host) CACHE_DIR.

Definition cleanVersionFromTag (tagName : string) : string :=
  if JS.startsWith tagName "v" then JS.substring1 tagName else tagName.

Definition fetchLatestRelease (githubToken : string) : M St string :=
  try_catch
    (let endpoint := RELEASES_API_URL +:+ "/latest" in
     let headers :=
       if JS.truthy githubToken
       then [("Authorization", "Bearer " +:+ githubToken)]
       else [] in
     response <- fetch endpoint headers ;;
     (if negb (resp_ok response)
      then errorBody <- await (resp_text response) ;;
           throw ("HTTP Error: " +:+ pretty (resp_status response)
                  +:+ " - " +:+ errorBody)
      else ret tt) ;;
     data <- await (resp_json response) ;;
     match data with
     | Some d =>
         if JS.truthy_opt (tag_name d)
         then ret (cleanVersionFromTag (default "" (tag_name d)))
         else throw "Invalid response format or no releases found"
     | None => throw "Invalid response format or no releases found"
     end)
    (fun msg =>
       throw ("Failed to fetch release information from "
              +:+ RELEASES_API_URL +:+ ": " +:+ msg)).

Definition logAndFail {A} (message : string) : M St A :=
  core_setFailed message ;;
  throw message.

(** *** [src/installer.ts] *)

Definition getPlatform : M St string :=
  let platform := process_platform host in
  let mappedPlatform := OS_MAPPING !! platform in
  if negb (JS.truthy_opt mappedPlatform)
  then logAndFail ("Unsupported platform: " +:+ platform)
  else ret (default "" mappedPlatform).

Definition getArchitecture : M St string :=
  let arch := process_arch host in
  let mappedArch := ARCH_MAPPING !! arch in
  if negb (JS.truthy_opt mappedArch)
  then logAndFail ("Unsupported architecture: " +:+ arch)
  else ret (default "" mappedArch).

Definition getDownloadUrl (version : string) : M St string :=
  platform <- getPlatform ;;
  arch <- getArchitecture ;;
  let extension :=
    if String.eqb (process_platform host) "win32" then "zip" else "tar.gz" in
  ret (RELEASES_URL +:+ "/v" +:+ version +:+ "/task_" +:+ platform
       +:+ "_" +:+ arch +:+ "." +:+ extension).

(** The closure [checkDirectory] of [findExecutable]. *)
Definition checkDirectory (executableName dirPath : string) : M St (option string) :=
  let execPath := path_join host dirPath executableName in
  found <- existsSync execPath ;;
  if found
  then core_debug ("Executable located at: " +:+ execPath) ;; ret (Some execPath)
  else ret None.

(** The [for (const entry of entries)] loop of [findExecutable]:
    [Some p] when the loop leaves the function with [return p], [None]
    when it runs to its end. *)
Fixpoint scanEntries (executableName extractedPath : string)
    (entries : list string) : M St (option string) :=
  match entries with
  | [] => ret None
  | entry :: rest =>
      let entryPath := path_join host extractedPath entry in
      isDir <- statSync_isDirectory entryPath ;;
      if isDir
      then execPath <- checkDirectory executableName entryPath ;;
           if JS.truthy_opt execPath
           then ret execPath
           else scanEntries executableName extractedPath rest
      else scanEntries executableName extractedPath rest
  end.

(** The [try]/[catch] statement of [findExecutable]: the walk over the
    entries of the extraction root, an error ending it with a warning. *)
Definition searchChildren (executableName extractedPath : string)
    : M St (option string) :=
  try_catch
    (entries <- readdirSync extractedPath ;;
     core_debug ("Directory entries found: " +:+ pretty (length entries)
                 +:+ " in " +:+ extractedPath) ;;
     scanEntries executableName extractedPath entries)
    (fun errorMessage =>
       core_warning ("Error encountered while searching for executable. Error: "
                     +:+ errorMessage) ;;
       ret None).

Definition findExecutable (extractedPath : string) : M St string :=
  let executableName := "task" +:+ EXE_EXTENSION in
  core_debug ("Searching for executable: " +:+ executableName
              +:+ " in directory: " +:+ extractedPath) ;;
  directPath <- checkDirectory executableName extractedPath ;;
  if JS.truthy_opt directPath then ret (default "" directPath) else
  found <- searchChildren executableName extractedPath ;;
  match found with
  | Some execPath => ret execPath
  | None =>
      core_warning ("Executable not found: " +:+ executableName
                    +:+ " in directory: " +:+ extractedPath) ;;
      ret ""
  end.

(** The conditional expression bound to [version] in [installTask]:
    the release index is asked only for the request ["latest"]. *)
Definition resolveVersion (options : TaskOptions) : M St string :=
  let requestedVersion := version options in
  if String.eqb requestedVersion "latest"
  then
    core_info "Retrieving latest version of Task..." ;;
    try_catch
      (latestVersion <- fetchLatestRelease (githubToken options) ;;
       core_info ("Retrieved the latest version: " +:+ latestVersion) ;;
       ret latestVersion)
      (fun errorMessage =>
         core_error ("Failed to retrieve the latest version: " +:+ errorMessage) ;;
         throw "Unable to retrieve the latest version. Please specify a specific version instead of 'latest'.")
  else ret requestedVersion.

(** The expression bound to [extractedPath] in [installTask]. *)
Definition extractArchive (downloadUrl downloadedPath : string) : M St string :=
  try_catch
    (if JS.endsWith downloadUrl ".zip" then extractZip downloadedPath
     else if JS.endsWith downloadUrl ".tar.gz" then extractTar downloadedPath
     else throw ("Unsupported archive format encountered: " +:+ downloadUrl))
    (fun errorMessage => throw ("Extraction failed. Error: " +:+ errorMessage)).

(** The call of [findExecutable] in [installTask] and the test of its
    result. *)
Definition locateExecutable (extractedPath : string) : M St string :=
  taskPath <- findExecutable extractedPath ;;
  if negb (JS.truthy taskPath)
  then throw ("Executable not found in extracted directory: " +:+ extractedPath)
  else ret taskPath.

(** The [try] block of [installTask]. *)
Definition installBody (options : TaskOptions) : M St string :=
  version <- resolveVersion options ;;
  downloadUrl <- getDownloadUrl version ;;
  core_info ("Preparing to download Task from URL: " +:+ downloadUrl) ;;
  downloadedPath <- downloadTool downloadUrl ;;
  core_debug ("Task downloaded successfully to: " +:+ downloadedPath) ;;
  extractedPath <- extractArchive downloadUrl downloadedPath ;;
  core_debug ("Task archive extracted to: " +:+ extractedPath) ;;
  taskPath <- locateExecutable extractedPath ;;
  (if negb (String.eqb (process_platform host) "win32")
   then chmodSync taskPath "755" ;;
        core_debug ("Set executable permissions for Task at: " +:+ taskPath)
   else ret tt) ;;
  core_info ("Task successfully installed at default location: " +:+ taskPath) ;;
  ret taskPath.

Definition installTask (options : TaskOptions) : M St string :=
  core_info "Starting Task installation process..." ;;
  try_catch (installBody options)
    (fun errorMessage =>
       core_error ("Task installation failed. Error: " +:+ errorMessage) ;;
       logAndFail ("Installation process terminated. Error: " +:+ errorMessage)).

(** *** [src/cache.ts] *)

Definition getCacheKey (version : string) : string :=
  let platform := process_platform host in
  let arch := process_arch host in
  "task-runner-" +:+ version +:+ "-" +:+ platform +:+ "-" +:+ arch.

Definition getTaskExecutableName : string :=
  let exeExt := if String.eqb (process_platform host) "win32" then ".exe" else "" in
  "task" +:+ exeExt.

Definition restoreCache (version : string) : M St string :=
  let cacheDir := getCacheDirectory in
  let cacheKey := getCacheKey version in
  let executableName := getTaskExecutableName in
  try_catch
    (core_debug ("Looking for Task " +:+ version +:+ " in cache with key " +:+ cacheKey) ;;
     hitKey <- cache_restore [cacheDir] cacheKey ;;
     if negb (JS.truthy_opt hitKey)
     then core_debug ("Task " +:+ version +:+ " not found in cache") ;; ret ""
     else
       core_info ("Task " +:+ version +:+ " found in cache") ;;
       let taskPath := path_join host cacheDir executableName in
       found <- existsSync taskPath ;;
       if negb found
       then core_warning ("Cache was hit but Task was not found at " +:+ taskPath) ;;
            ret ""
       else
         core_debug ("Verified Task exists at " +:+ taskPath) ;;
         (if negb (String.eqb (process_platform host) "win32")
          then chmodSync taskPath "755"
          else ret tt) ;;
         ret taskPath)
    (fun errorMessage =>
       core_warning ("Failed to restore from cache: " +:+ errorMessage) ;;
       ret "").

Definition saveCache (taskPath version : string) : M St unit :=
  let cacheDir := getCacheDirectory in
  let cacheKey := getCacheKey version in
  let executableName := getTaskExecutableName in
  try_catch
    (core_debug ("Saving Task " +:+ version +:+ " to cache with key " +:+ cacheKey) ;;
     mkdirSync cacheDir ;;
     let destPath := path_join host cacheDir executableName in
     (if negb (String.eqb taskPath destPath)
      then core_debug ("Copying " +:+ taskPath +:+ " to " +:+ destPath) ;;
           copyFileSync taskPath destPath
      else ret tt) ;;
     cache_save [cacheDir] cacheKey ;;
     core_info ("Task " +:+ version +:+ " saved to cache"))
    (fun errorMessage =>
       core_warning ("Failed to save Task to cache: " +:+ errorMessage) ;;
       core_warning ("Failed to save cache: " +:+ errorMessage)).

(** *** [src/main.ts] *)

Definition isVerbose : bool := String.eqb (core_getInput host "verbose") "true".

(** The [logger] object: [debug] is silent unless [verbose] is set, the
    other members forward to [@actions/core]. *)
Definition logger_debug (message : string) : M St unit :=
  if isVerbose then core_debug message else ret tt.
Definition logger_info (message : string) : M St unit := core_info message.
Definition logger_warning (message : string) : M St unit := core_warning message.
Definition logger_error (message : string) : M St unit := core_error message.
Definition logger_setFailed (message : string) : M St unit := core_setFailed message.
Definition logger_setOutput (name value : string) : M St unit :=
  core_setOutput name value.
Definition logger_addPath (inputPath : string) : M St unit := core_addPath inputPath.
Definition logger_getInput (name : string) : string := core_getInput host name.

(** [process.env[key]]; the keys of [process_env] are distinct. *)
Definition env_lookup (key : string) : option string :=
  snd <$> List.find (fun kv => String.eqb (fst kv) key) (process_env host).

(** [array.forEach(f)] *)
Fixpoint forEach {A} (l : list A) (f : A -> M St unit) : M St unit :=
  match l with
  | [] => ret tt
  | x :: l' => f x ;; forEach l' f
  end.

Definition CONFLICT_MESSAGE : string :=
  "Both version and version-from-file inputs cannot be used together. Please specify only one.".

(** The debug lines at the head of [getTaskOptions]: the [INPUT_]
    variables when [verbose] is set, the raw inputs and the workflow
    reference. *)
Definition debugInputs (versionInput versionFromFile : string) : M St unit :=
  (if isVerbose
   then logger_debug "Environment variables:" ;;
        forEach
          (List.filter (fun kv => JS.startsWith (fst kv) "INPUT_") (process_env host))
          (fun kv => logger_debug (fst kv +:+ "=" +:+ snd kv))
   else ret tt) ;;
  logger_debug ("Raw inputs - version: '" +:+ versionInput
                +:+ "', version-from-file: '" +:+ versionFromFile +:+ "'") ;;
  let workflowContent :=
    if JS.truthy_opt (env_lookup "GITHUB_WORKFLOW_REF")
    then "Workflow: " +:+ default "" (env_lookup "GITHUB_WORKFLOW_REF")
    else "Workflow reference not available" in
  logger_debug workflowContent.

(** The statements of [getTaskOptions] that set [version]. *)
Definition chooseVersion (versionInput versionFromFile : string) : M St string :=
  if JS.truthy versionFromFile
  then
    try_catch
      (fileContent <- readFileSync versionFromFile ;;
       if JS.truthy fileContent
       then let version := JS.trim fileContent in
            logger_debug ("Using version '" +:+ version +:+ "' from file "
                          +:+ versionFromFile) ;;
            ret version
       else ret "latest")
      (fun errorMessage =>
         throw ("Failed to read version from file " +:+ versionFromFile
                +:+ ": " +:+ errorMessage))
  else if JS.truthy versionInput
  then logger_debug ("Using version from input: " +:+ versionInput) ;;
       ret versionInput
  else ret "latest".

Definition getTaskOptions : M St TaskOptions :=
  let versionFromFile := logger_getInput "version-from-file" in
  let versionInput := logger_getInput "version" in
  debugInputs versionInput versionFromFile ;;
  (if JS.truthy versionFromFile && JS.truthy versionInput
      && negb (String.eqb versionInput "latest")
   then throw CONFLICT_MESSAGE
   else ret tt) ;;
  version <- chooseVersion versionInput versionFromFile ;;
  ret {| version := version;
         skipCache := String.eqb (logger_getInput "skip-cache") "true";
         githubToken := logger_getInput "github-token" |}.

Definition isTaskInstalled : M St bool :=
  logger_debug "Checking if Task is already installed..." ;;
  try_catch
    (exec_exec "which" ["task"] ;;
     logger_info "Task is already installed." ;;
     ret true)
    (fun _ =>
       logger_debug "Task is not installed yet. Proceeding with installation." ;;
       ret false).

(** [processEnvVars] exports the pairs of the [vars] input into the
    environment.  Its body is wrapped in [try]/[catch], so it returns to
    [run] whatever the input is; what it exports is left to the host. *)
Definition processEnvVars (inputValue : string) : M St unit :=
  update (ExportVars inputValue) (fun s => exportVars_st host s inputValue).

Definition verifyInstallation : M St unit :=
  logger_info "Verifying Task installation..." ;;
  try_catch
    (taskPath <- exec_getExecOutput "which" ["task"] ;;
     logger_info ("Task found at path: " +:+ JS.trim taskPath) ;;
     let execPath := JS.trim taskPath in
     logger_info ("Executing: " +:+ execPath +:+ " --version") ;;
     output <- exec_exec execPath ["--version"] ;;
     (if Nat.eqb (String.length (JS.trim output)) 0
      then throw "Task verification failed: No version returned from Task"
      else ret tt) ;;
     logger_info ("Task verification successful: " +:+ JS.trim output))
    (fun errorMessage =>
       logger_error ("Task verification error: " +:+ errorMessage) ;;
       throw ("Task verification failed: " +:+ errorMessage)).

(** The function expression bound to [taskPath] in [run] when Task is not
    installed yet. *)
Definition restoreOrInstall (options : TaskOptions) : M St string :=
  fromCache <-
    (if negb (skipCache options)
     then cachedPath <- restoreCache (version options) ;;
          ret (if JS.truthy cachedPath then Some cachedPath else None)
     else ret None) ;;
  match fromCache with
  | Some cachedPath => ret cachedPath
  | None =>
      installedPath <- installTask options ;;
      (if negb (skipCache options)
       then saveCache installedPath (version options)
       else ret tt) ;;
      ret installedPath
  end.

(** [run]; the emoji that ends its last message is kept as the bytes of
    its UTF-8 encoding. *)
Definition run : M St unit :=
  try_catch
    (logger_info "Setting up Task..." ;;
     options <- getTaskOptions ;;
     let envVarsInput := logger_getInput "vars" in
     (if JS.truthy envVarsInput then processEnvVars envVarsInput else ret tt) ;;
     taskAlreadyInstalled <- isTaskInstalled ;;
     taskPath <-
       (if negb taskAlreadyInstalled
        then restoreOrInstall options
        else
          stdout <- exec_getExecOutput "which" ["task"] ;;
          let taskPath := JS.trim stdout in
          logger_info ("Using existing Task installation at: " +:+ taskPath) ;;
          ret taskPath) ;;
     let taskDir := path_dirname host taskPath in
     logger_addPath taskDir ;;
     logger_setOutput "task-path" taskPath ;;
     verifyInstallation ;;
     logger_info "Task setup completed successfully! 🎉")
    (fun errorMessage =>
       logger_setFailed ("Task setup failed: " +:+ errorMessage)).

End Action.

(** ** The rest of [src/utils.ts] *)

(** [s.split(c)] for a separator of one character: the pieces between
    the separators, in order; there is always at least one piece. *)
Fixpoint split_char (sep : ascii) (s : string) : list string :=
  match s with
  | EmptyString => [EmptyString]
  | String c s' =>
      if Ascii.eqb c sep then EmptyString :: split_char sep s'
      else
        match split_char sep s' with
        | piece :: pieces => String c piece :: pieces
        | [] => [String c EmptyString]
        end
  end.

(** The line feed, the separator of the lines of an input. *)
Definition NEWLINE : ascii := ascii_of_nat 10.

Definition parseMultilineInput (input : string) : list string :=
  if negb (JS.truthy input) then []
  else List.filter (fun s => negb (String.eqb s ""))
         (List.map JS.trim (split_char NEWLINE input)).

(** What [fs.statSync] answers, as far as [copyDirRecursive] reads it,
    and an entry of [fs.readdirSync(dir, { withFileTypes: true })]. *)
Record Stats := { stats_isFile : bool; stats_isDirectory : bool; stats_mode : N }.

Record Dirent := { dirent_name : string; dirent_isDirectory : bool }.

(** The calls of [copyDirRecursive] that the action itself does not
    make. *)
Record FsHost (St : Type) := {
  path_basename : string -> string;
  fs_statSync : St -> string -> Result Stats;
  fs_readdirSync_withFileTypes : St -> string -> Result (list Dirent);
  fs_chmodSync_mode : St -> string -> N -> Result unit * St
}.
Arguments path_basename {St} _ _.
Arguments fs_statSync {St} _ _ _.
Arguments fs_readdirSync_withFileTypes {St} _ _ _.
Arguments fs_chmodSync_mode {St} _ _ _ _.

Section Utils.

Context {St : Type} (host : Host St) (fsx : FsHost St).

Definition getExecutableDirectoryPath (taskPath : string) : string :=
  path_dirname host taskPath.

Definition statSync (p : string) : M St Stats :=
  ask_result (FsStatSync p) (fun s => fs_statSync fsx s p).
Definition readdirSync_withFileTypes (p : string) : M St (list Dirent) :=
  ask_result (FsReaddirSync p) (fun s => fs_readdirSync_withFileTypes fsx s p).
(** [fs.chmodSync(p, mode)] with a numeric mode; the event shows the mode
    in decimal. *)
Definition chmodSync_mode (p : string) (mode : N) : M St unit :=
  call (FsChmodSync p (pretty mode)) (fun s => fs_chmodSync_mode fsx s p mode).

(** [if (!fs.existsSync(dir)) fs.mkdirSync(dir, { recursive: true })] *)
Definition ensureDir (dir : string) : M St unit :=
  found <- existsSync host dir ;;
  if negb found then mkdirSync host dir else ret tt.

(** The [for (const entry of entries)] loop of [copyDirRecursive]; it
    returns the queue with the sub-directories it met pushed at its
    end. *)
Fixpoint copyEntries (currentSrc currentDest : string) (entries : list Dirent)
    (queue : list (string * string)) : M St (list (string * string)) :=
  match entries with
  | [] => ret queue
  | entry :: rest =>
      let srcPath := path_join host currentSrc (dirent_name entry) in
      let destPath := path_join host currentDest (dirent_name entry) in
      if dirent_isDirectory entry
      then ensureDir destPath ;;
           copyEntries currentSrc currentDest rest (queue ++ [(srcPath, destPath)])%list
      else copyFileSync host srcPath destPath ;;
           stats <- statSync srcPath ;;
           chmodSync_mode destPath (stats_mode stats) ;;
           copyEntries currentSrc currentDest rest queue
  end.

(** The [while (queue.length > 0)] loop, run for at most [fuel] turns:
    [Some tt] when the queue has been emptied, [None] when the turns are
    used up first. *)
Fixpoint copyLoop (fuel : nat) (queue : list (string * string)) : M St (option unit) :=
  match queue with
  | [] => ret (Some tt)
  | (currentSrc, currentDest) :: queue' =>
      match fuel with
      | O => ret None
      | S fuel' =>
          entries <- readdirSync_withFileTypes currentSrc ;;
          queue'' <- copyEntries currentSrc currentDest entries queue' ;;
          copyLoop fuel' queue''
      end
  end.

Definition copyDirRecursive (fuel : nat) (src dest : string) : M St (option unit) :=
  found <- existsSync host src ;;
  if negb found then throw ("Source directory does not exist: " +:+ src) else
  srcStats <- statSync src ;;
  if stats_isFile srcStats
  then
    let destDir := path_dirname host dest in
    ensureDir destDir ;;
    let fileName := path_basename fsx src in
    destExists <- existsSync host dest ;;
    destIsDir <- (if destExists
                  then destStats <- statSync dest ;; ret (stats_isDirectory destStats)
                  else ret false) ;;
    let destPath := if destIsDir then path_join host dest fileName else dest in
    copyFileSync host src destPath ;;
    chmodSync_mode destPath (stats_mode srcStats) ;;
    ret (Some tt)
  else
    ensureDir dest ;;
    copyLoop fuel [(src, dest)].

End Utils.

(** ** A concrete machine

    A small host on which the action can be run by computation: a table
    of inputs, a table of files, a table of directories, and fixed answers
    of the release index, the cache backend and the process runner.  The
    machine has no state of its own. *)
Module Demo.

Definition enoent (p : string) : string :=
  "ENOENT: no such file or directory '" +:+ p +:+ "'".

(** No command can be run. *)
Definition absent (cmd : string) : Result string := Throw "not found".

Definition host (platform arch : string)
    (inputs files : gmap string string) (dirs : gmap string (list string))
    (release : Result Response) (cacheHit : Result (option string))
    (cacheSaved : Result unit) (proc : string -> Result string) : Host unit :=
  {| process_platform := platform;
     process_arch := arch;
     process_env := [];
     os_tmpdir := "/tmp";
     core_getInput := fun name => default "" (inputs !! name);
     path_join := fun a b => a +:+ "/" +:+ b;
     path_dirname := fun p => p;
     fs_existsSync := fun _ p =>
       bool_decide (is_Some (files !! p)) || bool_decide (is_Some (dirs !! p));
     fs_readdirSync := fun _ p =>
       match dirs !! p with
       | Some entries => Ok entries
       | None => Throw (enoent p)
       end;
     fs_statSync_isDirectory := fun _ p =>
       match dirs !! p, files !! p with
       | Some _, _ => Ok true
       | None, Some _ => Ok false
       | None, None => Throw (enoent p)
       end;
     fs_readFileSync := fun _ p =>
       match files !! p with
       | Some content => Ok content
       | None => Throw (enoent p)
       end;
     fs_chmodSync := fun s _ _ => (Ok tt, s);
     fs_mkdirSync := fun s _ => (Ok tt, s);
     fs_copyFileSync := fun s _ _ => (Ok tt, s);
     http_fetch := fun s _ _ => (release, s);
     toolCache_downloadTool := fun s _ => (Ok "/tmp/download", s);
     toolCache_extractZip := fun s _ => (Ok "/tmp/extracted", s);
     toolCache_extractTar := fun s _ => (Ok "/tmp/extracted", s);
     cache_restoreCache := fun s _ _ => (cacheHit, s);
     cache_saveCache := fun s _ _ => (cacheSaved, s);
     exec_run := fun s cmd _ => (proc cmd, s);
     core_addPath_st := fun s _ => s;
     exportVars_st := fun s _ => s |}.

(** The release index answering with the tag [t]. *)
Definition release_tagged (t : string) : Result Response :=
  Ok {| resp_ok := true; resp_status := 200%N; resp_text := Ok "";
        resp_json := Ok (Some {| tag_name := Some t |}) |}.

Definition offline : Result Response := Throw "fetch failed".

(** linux/x64 with the given inputs and files and nothing else. *)
Definition linux (inputs files : gmap string string) : Host unit :=
  host "linux" "x64" inputs files ∅ offline (Ok None) (Ok tt) absent.

(** win32/x64 and freebsd/x64 with no input and an empty disk. *)
Definition windows : Host unit :=
  host "win32" "x64" ∅ ∅ ∅ offline (Ok None) (Ok tt) absent.

Definition freebsd : Host unit :=
  host "freebsd" "x64" ∅ ∅ ∅ offline (Ok None) (Ok tt) absent.

End Demo.

(** * Properties *)

Definition is_debug (e : Event) : bool :=
  match e with
  | CoreLog LDebug _ => true
  | _ => false
  end.

(** ** Strings *)

Lemma truthy_true s : JS.truthy s = true <-> s <> "".
Proof.
  unfold JS.truthy. destruct (String.eqb_spec s ""); simpl; split; congruence.
Qed.

Lemma truthy_false s : JS.truthy s = false <-> s = "".
Proof.
  unfold JS.truthy. destruct (String.eqb_spec s ""); simpl; split; congruence.
Qed.

Lemma startsWith_nil s : JS.startsWith s "" = true.
Proof. by destruct s. Qed.

Lemma startsWith_cons c s d p :
  JS.startsWith (String c s) (String d p) = Ascii.eqb d c && JS.startsWith s p.
Proof. reflexivity. Qed.

Lemma append_inv_head (p a b : string) : p +:+ a = p +:+ b -> a = b.
Proof. induction p as [|c p IH]; simpl; [done | intros [= H]; auto]. Qed.

(** ** The mapping tables *)

Lemma OS_MAPPING_Some p o :
  OS_MAPPING !! p = Some o <->
  (p = "win32" /\ o = "windows") \/ (p = "darwin" /\ o = "darwin")
  \/ (p = "linux" /\ o = "linux").
Proof.
  unfold OS_MAPPING. rewrite !lookup_insert_Some, lookup_empty. intuition congruence.
Qed.

Lemma ARCH_MAPPING_Some p a :
  ARCH_MAPPING !! p = Some a <->
  (p = "x64" /\ a = "amd64") \/ (p = "arm64" /\ a = "arm64")
  \/ (p = "arm" /\ a = "arm").
Proof.
  unfold ARCH_MAPPING. rewrite !lookup_insert_Some, lookup_empty. intuition congruence.
Qed.

Lemma OS_MAPPING_truthy p o : OS_MAPPING !! p = Some o -> JS.truthy o = true.
Proof. rewrite OS_MAPPING_Some. intros [[_ ->]|[[_ ->]|[_ ->]]]; reflexivity. Qed.

Lemma ARCH_MAPPING_truthy p a : ARCH_MAPPING !! p = Some a -> JS.truthy a = true.
Proof. rewrite ARCH_MAPPING_Some. intros [[_ ->]|[[_ ->]|[_ ->]]]; reflexivity. Qed.

Section Lemmas.

Context {St : Type} (host : Host St).

(** A computation that only writes debug lines: it returns, leaves the
    machine as it is and adds nothing but debug lines to the record. *)
Definition logs_only (c : M St unit) : Prop :=
  forall s tr, exists new,
    c (s, tr) = (Ok tt, (s, (tr ++ new)%list))
    /\ Forall (fun e => is_debug e = true) new.

Lemma logs_only_ret : logs_only (ret tt).
Proof. intros s tr. exists []. rewrite app_nil_r. split; [reflexivity | constructor]. Qed.

Lemma logs_only_logger_debug msg : logs_only (logger_debug host msg).
Proof.
  unfold logger_debug. destruct (isVerbose host); [| apply logs_only_ret].
  intros s tr. exists [CoreLog LDebug msg]. split; [reflexivity |].
  repeat constructor.
Qed.

Lemma logs_only_bind (c1 c2 : M St unit) :
  logs_only c1 -> logs_only c2 -> logs_only (c1 ;; c2).
Proof.
  intros H1 H2 s tr. destruct (H1 s tr) as (n1 & E1 & F1).
  destruct (H2 s (tr ++ n1)%list) as (n2 & E2 & F2).
  exists (n1 ++ n2)%list. unfold bind. rewrite E1, E2, app_assoc.
  split; [reflexivity | by apply Forall_app].
Qed.

Lemma logs_only_forEach {A} (l : list A) (f : A -> M St unit) :
  (forall x, logs_only (f x)) -> logs_only (forEach l f).
Proof.
  intros Hf. induction l as [|x l IH]; simpl; [apply logs_only_ret |].
  apply logs_only_bind; auto.
Qed.

Lemma logs_only_debugInputs vi vf : logs_only (debugInputs host vi vf).
Proof.
  unfold debugInputs. apply logs_only_bind; [| apply logs_only_bind].
  - destruct (isVerbose host); [| apply logs_only_ret].
    apply logs_only_bind; [apply logs_only_logger_debug |].
    apply logs_only_forEach. intros x. apply logs_only_logger_debug.
  - apply logs_only_logger_debug.
  - apply logs_only_logger_debug.
Qed.

(** [getTaskOptions] after its debug lines. *)
Lemma getTaskOptions_run s tr :
  exists new, Forall (fun e => is_debug e = true) new /\
    getTaskOptions host (s, tr) =
    ((if JS.truthy (core_getInput host "version-from-file")
         && JS.truthy (core_getInput host "version")
         && negb (String.eqb (core_getInput host "version") "latest")
      then throw CONFLICT_MESSAGE
      else ret tt) ;;
     version <- chooseVersion host (core_getInput host "version")
                  (core_getInput host "version-from-file") ;;
     ret {| version := version;
            skipCache := String.eqb (core_getInput host "skip-cache") "true";
            githubToken := core_getInput host "github-token" |})
      (s, (tr ++ new)%list).
Proof.
  destruct (logs_only_debugInputs (core_getInput host "version")
              (core_getInput host "version-from-file") s tr) as (new & E & F).
  exists new. split; [exact F |].
  unfold getTaskOptions, logger_getInput. unfold bind at 1. rewrite E. reflexivity.
Qed.

Lemma getDownloadUrl_supported version o a st :
  OS_MAPPING !! process_platform host = Some o ->
  ARCH_MAPPING !! process_arch host = Some a ->
  getDownloadUrl host version st =
  (Ok (RELEASES_URL +:+ "/v" +:+ version +:+ "/task_" +:+ o +:+ "_" +:+ a +:+ "."
       +:+ (if String.eqb (process_platform host) "win32" then "zip" else "tar.gz")),
   st).
Proof.
  intros Ho Ha. unfold getDownloadUrl, getPlatform, getArchitecture.
  rewrite Ho, Ha. simpl.
  rewrite (OS_MAPPING_truthy _ _ Ho), (ARCH_MAPPING_truthy _ _ Ha). reflexivity.
Qed.

Lemma resolveVersion_explicit options st :
  version options <> "latest" ->
  resolveVersion host options st = (Ok (version options), st).
Proof.
  intros H. unfold resolveVersion.
  destruct (String.eqb_spec (version options) "latest"); [done | reflexivity].
Qed.

End Lemmas.

(** ** Version resolution *)

Section Resolution.

Context {St : Type} (host : Host St).

Lemma chooseVersion_input vi s tr :
  vi <> "" ->
  exists new, Forall (fun e => is_debug e = true) new /\
    chooseVersion host vi "" (s, tr) = (Ok vi, (s, (tr ++ new)%list)).
Proof.
  intros Hvi. unfold chooseVersion. simpl.
  apply truthy_true in Hvi. rewrite Hvi.
  destruct (logs_only_logger_debug host ("Using version from input: " +:+ vi) s tr)
    as (new & E & F).
  exists new. split; [exact F |]. unfold bind. rewrite E. reflexivity.
Qed.

Lemma chooseVersion_file vi vf content s tr :
  vf <> "" ->
  fs_readFileSync host s vf = Ok content ->
  content <> "" ->
  exists new,
    chooseVersion host vi vf (s, tr) =
    (Ok (JS.trim content), (s, (tr ++ FsReadFileSync vf :: new)%list)).
Proof.
  intros Hvf Hread Hc. unfold chooseVersion.
  apply truthy_true in Hvf. rewrite Hvf. apply truthy_true in Hc.
  unfold try_catch, bind at 1, readFileSync, ask_result. simpl. rewrite Hread, Hc.
  destruct (logs_only_logger_debug host
              ("Using version '" +:+ JS.trim content +:+ "' from file " +:+ vf)
              s (tr ++ [FsReadFileSync vf])%list) as (new & E & F).
  exists new. unfold bind. rewrite E, <- app_assoc. reflexivity.
Qed.

Lemma chooseVersion_empty_file vi vf s tr :
  vf <> "" ->
  fs_readFileSync host s vf = Ok "" ->
  chooseVersion host vi vf (s, tr) =
  (Ok "latest", (s, (tr ++ [FsReadFileSync vf])%list)).
Proof.
  intros Hvf Hread. unfold chooseVersion.
  apply truthy_true in Hvf. rewrite Hvf.
  unfold try_catch, bind, readFileSync, ask_result. simpl. rewrite Hread. reflexivity.
Qed.

End Resolution.

(** An explicit version [v] (neither empty nor ["latest"]), given as the
    [version] input with no version file, is the version of the options,
    unchanged; [resolveVersion] returns it as it is, and on a supported
    platform [getDownloadUrl] writes it after the fixed "/v". *)
Lemma explicit_version_options {St : Type} (host : Host St)
    (v o a : string) (s : St) (tr : list Event) :
  core_getInput host "version-from-file" = "" ->
  core_getInput host "version" = v ->
  v <> "" ->
  v <> "latest" ->
  OS_MAPPING !! process_platform host = Some o ->
  ARCH_MAPPING !! process_arch host = Some a ->
  exists options new,
    getTaskOptions host (s, tr) = (Ok options, (s, (tr ++ new)%list))
    /\ Forall (fun e => is_debug e = true) new
    /\ version options = v
    /\ (forall st, resolveVersion host options st = (Ok v, st))
    /\ (forall st, getDownloadUrl host v st =
          (Ok (RELEASES_URL +:+ "/v" +:+ v +:+ "/task_" +:+ o +:+ "_" +:+ a +:+ "."
               +:+ (if String.eqb (process_platform host) "win32"
                    then "zip" else "tar.gz")), st)).
Proof.
  intros Hvf Hvi Hne Hlatest Ho Ha.
  destruct (getTaskOptions_run host s tr) as (n1 & F1 & E1).
  rewrite Hvf, Hvi in E1. simpl in E1.
  destruct (chooseVersion_input host v s (tr ++ n1)%list Hne) as (n2 & F2 & E2).
  eexists _, (n1 ++ n2)%list. split; [| split; [| split; [| split]]].
  - rewrite E1. unfold bind, ret. rewrite E2, app_assoc. reflexivity.
  - by apply Forall_app.
  - reflexivity.
  - intros st. by apply resolveVersion_explicit.
  - intros st. by apply getDownloadUrl_supported.
Qed.

(** The line feed. *)
Definition LF : string := String (ascii_of_nat 10) "".

(** A version file that is empty falls back to ["latest"]. *)
Lemma version_file_empty_content_falls_back {St : Type} (host : Host St)
    (s : St) (tr : list Event) :
  core_getInput host "version-from-file" <> "" ->
  core_getInput host "version" = "" ->
  fs_readFileSync host s (core_getInput host "version-from-file") = Ok "" ->
  exists options st',
    getTaskOptions host (s, tr) = (Ok options, st') /\ version options = "latest".
Proof.
  intros Hvf Hvi Hread.
  destruct (getTaskOptions_run host s tr) as (n1 & F1 & E1).
  rewrite Hvi in E1. rewrite andb_false_r in E1. simpl in E1.
  eexists _, _. rewrite E1. unfold bind at 1. unfold ret at 1.
  unfold bind. rewrite (chooseVersion_empty_file host _ _ _ _ Hvf Hread).
  split; reflexivity.
Qed.

(** C2.  What the code does on a version file that holds white space
    only: the content is not empty, so it is trimmed and taken; the
    version of the options is the empty string, and [installTask] uses it
    as it is instead of asking for the latest release. *)
Theorem version_file_blank_content_accepted {St : Type} (host : Host St)
    (content : string) (s : St) (tr : list Event) :
  core_getInput host "version-from-file" <> "" ->
  core_getInput host "version" = "" ->
  fs_readFileSync host s (core_getInput host "version-from-file") = Ok content ->
  content <> "" ->
  JS.trim content = "" ->
  exists options st',
    getTaskOptions host (s, tr) = (Ok options, st')
    /\ version options = ""
    /\ (forall st, resolveVersion host options st = (Ok "", st)).
Proof.
  intros Hvf Hvi Hread Hc Htrim.
  destruct (getTaskOptions_run host s tr) as (n1 & F1 & E1).
  rewrite Hvi in E1. rewrite andb_false_r in E1. simpl in E1.
  destruct (chooseVersion_file host "" _ content s (tr ++ n1)%list Hvf Hread Hc)
    as (n2 & E2).
  eexists _, _. rewrite E1. unfold bind at 1. unfold ret at 1.
  unfold bind. rewrite E2, Htrim. split; [reflexivity | split; [reflexivity |]].
  intros st. reflexivity.
Qed.

Lemma version_file_blank_content_accepted_witness :
  let host := Demo.linux (<["version-from-file" := ".task-version"]> ∅)
                (<[".task-version" := LF]> ∅) in
  exists options st',
    getTaskOptions host (tt, []) = (Ok options, st')
    /\ version options = ""
    /\ (forall st, resolveVersion host options st = (Ok "", st)).
Proof.
  apply (version_file_blank_content_accepted
           (Demo.linux (<["version-from-file" := ".task-version"]> ∅)
              (<[".task-version" := LF]> ∅)) LF tt []);
    solve [reflexivity | discriminate].
Defined.

(** The URL that [installTask] builds from that version. *)
Example version_file_blank_content_url :
  getDownloadUrl (Demo.linux ∅ ∅) "" (tt, []) =
  (Ok "https://github.com/go-task/task/releases/download/v/task_linux_amd64.tar.gz",
   (tt, [])).
Proof. reflexivity. Qed.

(** ** The cache key *)

(** C3, as stated, fails: on win32/x64 the key is built from the runtime
    identifiers, and neither "windows" nor "amd64" (nor any other mapped
    identifier) occurs in it. *)
Lemma cache_key_mapped_identifiers_counterexample :
  let key := getCacheKey Demo.windows "3.43.1" in
  key = "task-runner-3.43.1-win32-x64"
  /\ Forall (fun o => JS.includes key o = false) ["windows"; "darwin"; "linux"]
  /\ Forall (fun a => JS.includes key a = false) ["amd64"; "arm64"; "arm"]
  /\ ~ (exists o a, In o ["windows"; "darwin"; "linux"]
                    /\ In a ["amd64"; "arm64"; "arm"]
                    /\ key = "task-runner-" +:+ "3.43.1" +:+ "-" +:+ o +:+ "-" +:+ a).
Proof.
  split; [reflexivity | split; [| split]]; try (repeat constructor).
  intros (o & a & Ho & Ha & E). simpl in Ho, Ha.
  destruct Ho as [<-|[<-|[<-|[]]]]; destruct Ha as [<-|[<-|[<-|[]]]];
    discriminate E.
Qed.

(** C3, amended.  The cache key is the fixed namespace, the version, the
    runtime platform and the runtime architecture, joined by "-"; on a
    supported platform it is the key of the mapped identifiers exactly
    when the mapping renames neither of them, that is off win32 and off
    x64. *)
Theorem cache_key_runtime_identifiers {St : Type} (host : Host St)
    (v o a : string) :
  OS_MAPPING !! process_platform host = Some o ->
  ARCH_MAPPING !! process_arch host = Some a ->
  getCacheKey host v =
    "task-runner-" +:+ v +:+ "-" +:+ process_platform host +:+ "-" +:+ process_arch host
  /\ (getCacheKey host v = "task-runner-" +:+ v +:+ "-" +:+ o +:+ "-" +:+ a
      <-> process_platform host <> "win32" /\ process_arch host <> "x64").
Proof.
  intros Ho Ha. split; [reflexivity |].
  unfold getCacheKey.
  apply OS_MAPPING_Some in Ho. apply ARCH_MAPPING_Some in Ha.
  destruct Ho as [[-> ->]|[[-> ->]|[-> ->]]];
    destruct Ha as [[-> ->]|[[-> ->]|[-> ->]]];
    (split;
     [ intros H; apply (append_inv_head "task-runner-") in H;
       apply append_inv_head in H; first [discriminate H | split; discriminate]
     | intros [H1 H2]; first [reflexivity | by destruct H1 | by destruct H2] ]).
Qed.

Lemma cache_key_runtime_identifiers_witness :
  let host := Demo.windows in
  getCacheKey host "3.43.1" = "task-runner-3.43.1-win32-x64"
  /\ (getCacheKey host "3.43.1" = "task-runner-3.43.1-windows-amd64"
      <-> "win32" <> "win32" /\ "x64" <> "x64").
Proof.
  apply (cache_key_runtime_identifiers
           Demo.windows
           "3.43.1" "windows" "amd64"); reflexivity.
Defined.

(** ** Where a resolved version comes from *)

Section Provenance.

Context {St : Type} (host : Host St).

Lemma chooseVersion_Ok vi vf s tr v st1 :
  chooseVersion host vi vf (s, tr) = (Ok v, st1) ->
  (vf = "" /\ vi <> "" /\ v = vi)
  \/ (vf = "" /\ vi = "" /\ v = "latest")
  \/ (vf <> "" /\ exists content,
        fs_readFileSync host s vf = Ok content
        /\ ((content = "" /\ v = "latest")
            \/ (content <> "" /\ v = JS.trim content))).
Proof.
  unfold chooseVersion.
  destruct (JS.truthy vf) eqn:Evf.
  - apply truthy_true in Evf. intros H. right. right. split; [exact Evf |].
    revert H. unfold try_catch, bind at 1, readFileSync, ask_result. simpl.
    destruct (fs_readFileSync host s vf) as [content|msg] eqn:Eread;
      [| unfold throw; discriminate].
    exists content. split; [reflexivity |].
    destruct (JS.truthy content) eqn:Ec.
    + apply truthy_true in Ec. right. split; [exact Ec |].
      destruct (logs_only_logger_debug host
                  ("Using version '" +:+ JS.trim content +:+ "' from file " +:+ vf)
                  s (tr ++ [FsReadFileSync vf])%list) as (new & E & F).
      revert H. unfold bind. rewrite E. unfold ret. congruence.
    + apply truthy_false in Ec. left. split; [exact Ec |].
      revert H. unfold ret. congruence.
  - apply truthy_false in Evf. destruct (JS.truthy vi) eqn:Evi.
    + apply truthy_true in Evi. intros H. left. split; [exact Evf | split; [exact Evi |]].
      destruct (logs_only_logger_debug host ("Using version from input: " +:+ vi) s tr)
        as (new & E & F).
      revert H. unfold bind. rewrite E. unfold ret. congruence.
    + apply truthy_false in Evi. unfold ret. intros [= <- <-]. right. left. done.
Qed.

Lemma getTaskOptions_Ok s tr options st1 :
  getTaskOptions host (s, tr) = (Ok options, st1) ->
  exists tr' st0,
    chooseVersion host (core_getInput host "version")
      (core_getInput host "version-from-file") (s, tr') = (Ok (version options), st0)
    /\ (core_getInput host "version-from-file" = ""
        \/ core_getInput host "version" = ""
        \/ core_getInput host "version" = "latest").
Proof.
  destruct (getTaskOptions_run host s tr) as (n1 & F1 & E1). rewrite E1. clear E1.
  set (vf := core_getInput host "version-from-file").
  set (vi := core_getInput host "version").
  destruct (JS.truthy vf) eqn:Evf; destruct (JS.truthy vi) eqn:Evi;
    destruct (String.eqb_spec vi "latest") as [El|El]; simpl;
    try (unfold bind at 1, throw at 1; discriminate);
    unfold bind at 1, ret at 1;
    (unfold bind, ret;
     destruct (chooseVersion host vi vf (s, (tr ++ n1)%list)) as [[v|m] st0] eqn:Ech;
     [| discriminate];
     intros [= <- <-]; exists (tr ++ n1)%list, st0; simpl; split; [exact Ech |]);
    apply truthy_false in Evf || apply truthy_false in Evi || idtac; auto.
Qed.

Lemma fetchLatestRelease_Ok token s tr v st1 :
  fetchLatestRelease host token (s, tr) = (Ok v, st1) ->
  exists headers resp s1 t,
    http_fetch host s (RELEASES_API_URL +:+ "/latest") headers = (Ok resp, s1)
    /\ resp_json resp = Ok (Some {| tag_name := Some t |})
    /\ t <> ""
    /\ v = cleanVersionFromTag t.
Proof.
  unfold fetchLatestRelease.
  set (headers := if JS.truthy token then _ else _).
  unfold try_catch, bind at 1, fetch, call. simpl.
  destruct (http_fetch host s (RELEASES_API_URL +:+ "/latest") headers)
    as [[resp|m] s1] eqn:Ef; simpl; [| unfold throw; discriminate].
  unfold bind at 1. destruct (resp_ok resp); simpl.
  - unfold ret at 1, bind at 1, await.
    destruct (resp_json resp) as [[[[t|]]|]|m] eqn:Ej; simpl;
      try (unfold throw; discriminate).
    destruct (JS.truthy t) eqn:Et; [| unfold throw; discriminate].
    unfold ret. intros [= <- <-]. exists headers, resp, s1, t.
    apply truthy_true in Et. done.
  - unfold bind, await. destruct (resp_text resp); unfold throw; discriminate.
Qed.

End Provenance.

(** A version has the shape the data model asks of a resolved version:
    not empty, no leading "v". *)
Definition normalised (v : string) : Prop :=
  v <> "" /\ JS.startsWith v "v" = false.

(** The three origins of a resolved version [v]: the [version] input, the
    version file read in state [s], the release index asked in state
    [s2]. *)
Definition from_input {St : Type} (host : Host St) (v : string) : Prop :=
  core_getInput host "version-from-file" = ""
  /\ v = core_getInput host "version" /\ v <> "" /\ v <> "latest".

Definition from_file {St : Type} (host : Host St) (s : St) (v : string) : Prop :=
  core_getInput host "version-from-file" <> ""
  /\ exists content,
       fs_readFileSync host s (core_getInput host "version-from-file") = Ok content
       /\ content <> ""
       /\ v = JS.trim content
       /\ v <> "latest".

Definition from_release_index {St : Type} (host : Host St) (s2 : St) (v : string) : Prop :=
  exists headers resp s3 t,
    http_fetch host s2 (RELEASES_API_URL +:+ "/latest") headers = (Ok resp, s3)
    /\ resp_json resp = Ok (Some {| tag_name := Some t |})
    /\ t <> ""
    /\ v = (if JS.startsWith t "v" then JS.substring1 t else t)
    /\ (t <> "v" -> v <> "")
    /\ (JS.startsWith t "vv" = false -> JS.startsWith v "v" = false).

(** C4.  What the code does with a version that begins with "v", given
    as the [version] input with no version file: the version of the
    options, and the version [installTask] resolves from it, is that text
    with its "v", which is not the shape of a resolved version.  The same
    text arriving as the [tag_name] of the latest release loses its "v":
    only that path goes through [cleanVersionFromTag]. *)
Theorem resolved_version_keeps_v_prefix {St : Type} (host : Host St)
    (v token : string) (s s1 s2 : St) (tr tr1 : list Event) (resp : Response) :
  core_getInput host "version-from-file" = "" ->
  core_getInput host "version" = v ->
  JS.startsWith v "v" = true ->
  http_fetch host s1 (RELEASES_API_URL +:+ "/latest")
    (if JS.truthy token then [("Authorization", "Bearer " +:+ token)] else [])
  = (Ok resp, s2) ->
  resp_ok resp = true ->
  resp_json resp = Ok (Some {| tag_name := Some v |}) ->
  (exists options new,
     getTaskOptions host (s, tr) = (Ok options, (s, (tr ++ new)%list))
     /\ version options = v
     /\ (forall st, resolveVersion host options st = (Ok v, st))
     /\ ~ normalised v)
  /\ result_of (fetchLatestRelease host token (s1, tr1)) = Ok (JS.substring1 v)
  /\ JS.substring1 v <> v.
Proof.
  intros Hvf Hvi Hstart Hfetch Hok Hjson.
  assert (Hne : v <> "") by (intros ->; discriminate Hstart).
  assert (Hlatest : v <> "latest") by (intros ->; discriminate Hstart).
  split; [| split].
  - destruct (getTaskOptions_run host s tr) as (n1 & F1 & E1).
    rewrite Hvf, Hvi in E1. simpl in E1.
    destruct (chooseVersion_input host v s (tr ++ n1)%list Hne) as (n2 & F2 & E2).
    eexists _, (n1 ++ n2)%list. split; [| split; [| split]].
    + rewrite E1. unfold bind, ret. rewrite E2, app_assoc. reflexivity.
    + reflexivity.
    + intros st. by apply resolveVersion_explicit.
    + intros [_ H]. congruence.
  - unfold fetchLatestRelease, try_catch, bind at 1, fetch, call. cbn [fst snd].
    rewrite Hfetch. cbn [fst snd]. unfold bind at 1. rewrite Hok. cbn [negb].
    unfold ret at 1, bind at 1, await. rewrite Hjson. cbn [tag_name JS.truthy_opt].
    apply truthy_true in Hne. rewrite Hne.
    unfold ret, result_of, cleanVersionFromTag. cbn [fst default]. unfold id.
    by rewrite Hstart.
  - intros H. apply (f_equal String.length) in H.
    destruct v as [|c v]; [discriminate Hstart |]. cbn in H. lia.
Qed.

(** The input [version: v3.43.1], and a release index whose latest tag is
    v3.43.1. *)
Definition tagged_v3_43_1 : Host unit :=
  Demo.host "linux" "x64" (<["version" := "v3.43.1"]> ∅) ∅ ∅
    (Demo.release_tagged "v3.43.1") (Ok None) (Ok tt) Demo.absent.

Lemma resolved_version_keeps_v_prefix_witness :
  (exists options new,
     getTaskOptions tagged_v3_43_1 (tt, []) = (Ok options, (tt, ([] ++ new)%list))
     /\ version options = "v3.43.1"
     /\ (forall st, resolveVersion tagged_v3_43_1 options st = (Ok "v3.43.1", st))
     /\ ~ normalised "v3.43.1")
  /\ result_of (fetchLatestRelease tagged_v3_43_1 "" (tt, [])) = Ok "3.43.1"
  /\ "3.43.1" <> "v3.43.1".
Proof.
  exact (resolved_version_keeps_v_prefix tagged_v3_43_1 "v3.43.1" "" tt tt tt [] [] _
           eq_refl eq_refl eq_refl eq_refl eq_refl eq_refl).
Defined.

(** A version file behaves as the input does: its "v" is kept. *)
Example version_file_keeps_v_prefix :
  result_of
    (getTaskOptions
       (Demo.linux (<["version-from-file" := ".task-version"]> ∅)
          (<[".task-version" := "v3.43.1" +:+ LF]> ∅))
       (tt, [])) =
  Ok {| version := "v3.43.1"; skipCache := false; githubToken := "" |}.
Proof. reflexivity. Qed.

Lemma cleanVersionFromTag_nonempty t : t <> "" -> t <> "v" -> cleanVersionFromTag t <> "".
Proof.
  unfold cleanVersionFromTag. destruct t as [|c t]; [done |].
  rewrite startsWith_cons, startsWith_nil, andb_true_r.
  destruct (Ascii.eqb_spec "v"%char c) as [<-|Hc].
  - cbn [JS.substring1]. intros _ H ->. done.
  - intros _ _ H. discriminate H.
Qed.

Lemma cleanVersionFromTag_no_v t :
  JS.startsWith t "vv" = false -> JS.startsWith (cleanVersionFromTag t) "v" = false.
Proof.
  unfold cleanVersionFromTag. destruct t as [|c t]; [done |].
  rewrite !startsWith_cons, startsWith_nil, andb_true_r.
  destruct (Ascii.eqb_spec "v"%char c) as [<-|Hc].
  - cbn [JS.substring1 andb]. done.
  - intros _. rewrite startsWith_cons. apply Ascii.eqb_neq in Hc. by rewrite Hc.
Qed.

(** Where a version comes from: every version that resolution produces is
    the [version] input verbatim, or the trimmed content of a version file
    that is not of length zero, or the [tag_name] of the latest release
    less one leading "v" (not empty unless the tag is "v", without a
    leading "v" unless the tag starts with "vv"). *)
Lemma resolved_version_provenance {St : Type} (host : Host St)
    (s s2 : St) (tr tr2 : list Event) (options : TaskOptions)
    (st1 st3 : St * list Event) (v : string) :
  getTaskOptions host (s, tr) = (Ok options, st1) ->
  resolveVersion host options (s2, tr2) = (Ok v, st3) ->
  from_input host v \/ from_file host s v \/ from_release_index host s2 v.
Proof.
  intros Hopt Hres.
  apply getTaskOptions_Ok in Hopt as (tr' & st0 & Hch & Hexcl).
  apply chooseVersion_Ok in Hch.
  revert Hres. unfold resolveVersion.
  destruct (String.eqb_spec (version options) "latest") as [El|El].
  - (* the release index *)
    intros Hres. right. right.
    revert Hres. unfold bind at 1, core_info at 1, emit. simpl.
    unfold try_catch, bind at 1.
    destruct (fetchLatestRelease host (githubToken options)
                (s2, (tr2 ++ [CoreLog LInfo "Retrieving latest version of Task..."])%list))
      as [[v'|m] st'] eqn:Ef; [| unfold bind, core_error, emit, throw; discriminate].
    unfold bind, core_info, emit, ret. simpl. intros [= <- <-].
    apply fetchLatestRelease_Ok in Ef as (headers & resp & s3 & t & Hf & Hj & Ht & ->).
    exists headers, resp, s3, t. repeat split; try done.
    + intros Hv. by apply cleanVersionFromTag_nonempty.
    + apply cleanVersionFromTag_no_v.
  - unfold ret. intros [= <- <-].
    destruct Hch as [(Hvf & Hvi & Hv)|[(_ & _ & Hv)|(Hvf & content & Hread & Hc)]].
    + left. unfold from_input. rewrite Hv in *. done.
    + done.
    + right. left. split; [exact Hvf |]. exists content. split; [exact Hread |].
      destruct Hc as [[_ Hv]|[Hc Hv]]; [done |].
      split; [exact Hc | split; [exact Hv | exact El]].
Qed.

(** ** The download URL *)

(** The events of the archive installer proper: the download of the
    archive and its extraction. *)
Definition is_download (e : Event) : bool :=
  match e with
  | DownloadTool _ | ExtractZip _ | ExtractTar _ => true
  | _ => false
  end.

(** The URL as the specification writes it, from the mapped identifiers:
    [{base}/v{version}/task_{os}_{arch}.{ext}], with [ext] "zip" on
    windows and "tar.gz" elsewhere. *)
Definition spec_download_url (os arch version : string) : string :=
  RELEASES_URL +:+ "/v" +:+ version +:+ "/task_" +:+ os +:+ "_" +:+ arch +:+ "."
  +:+ (if String.eqb os "windows" then "zip" else "tar.gz").

Section DownloadUrl.

Context {St : Type} (host : Host St).

Lemma getDownloadUrl_unsupported version s tr :
  OS_MAPPING !! process_platform host = None
  \/ ARCH_MAPPING !! process_arch host = None ->
  exists msg,
    getDownloadUrl host version (s, tr) = (Throw msg, (s, (tr ++ [CoreSetFailed msg])%list))
    /\ (msg = "Unsupported platform: " +:+ process_platform host
        \/ msg = "Unsupported architecture: " +:+ process_arch host).
Proof.
  intros H. unfold getDownloadUrl, getPlatform, getArchitecture.
  destruct (OS_MAPPING !! process_platform host) as [o|] eqn:Eo.
  - destruct H as [H|H]; [discriminate H |]. rewrite H.
    cbn [JS.truthy_opt]. rewrite (OS_MAPPING_truthy _ _ Eo). simpl.
    eexists. split; [reflexivity | by right].
  - simpl. eexists. split; [reflexivity | by left].
Qed.

Lemma fetchLatestRelease_events token s tr :
  exists r s1,
    fetchLatestRelease host token (s, tr) =
    (r, (s1, (tr ++ [HttpFetch (RELEASES_API_URL +:+ "/latest")
                       (if JS.truthy token
                        then [("Authorization", "Bearer " +:+ token)] else [])])%list)).
Proof.
  unfold fetchLatestRelease.
  set (headers := if JS.truthy token then _ else _).
  unfold try_catch, bind at 1, fetch, call. simpl.
  destruct (http_fetch host s (RELEASES_API_URL +:+ "/latest") headers)
    as [[resp|m] s1]; simpl; [| unfold throw; eauto].
  unfold bind at 1. destruct (resp_ok resp); simpl.
  - unfold ret at 1, bind at 1, await.
    destruct (resp_json resp) as [[d|]|m]; simpl; try (unfold throw; eauto).
    destruct (JS.truthy_opt (tag_name d)); unfold ret, throw; eauto.
  - unfold bind, await. destruct (resp_text resp); unfold throw; eauto.
Qed.

Lemma resolveVersion_events options s tr :
  exists r s1 new,
    resolveVersion host options (s, tr) = (r, (s1, (tr ++ new)%list))
    /\ Forall (fun e => is_download e = false) new
    /\ (version options <> "latest" -> new = []).
Proof.
  unfold resolveVersion.
  destruct (String.eqb_spec (version options) "latest") as [El|El].
  - unfold bind at 1, core_info at 1, emit. simpl. unfold try_catch, bind at 1.
    destruct (fetchLatestRelease_events (githubToken options) s
                (tr ++ [CoreLog LInfo "Retrieving latest version of Task..."])%list)
      as (r & s1 & E).
    rewrite E. destruct r as [v|m]; unfold bind, core_info, core_error, emit, ret, throw;
      simpl; rewrite <- !app_assoc; simpl; eexists _, _, _;
      (split; [reflexivity | split; [repeat constructor | done]]).
  - exists (Ok (version options)), s, []. rewrite app_nil_r.
    split; [reflexivity | split; [constructor | done]].
Qed.

(** [installTask] is its [try] block, with a thrown message prefixed,
    logged and reported through [setFailed]. *)
Lemma installTask_run options s tr :
  installTask host options (s, tr) =
  match installBody host options
          (s, (tr ++ [CoreLog LInfo "Starting Task installation process..."])%list) with
  | (Ok p, st') => (Ok p, st')
  | (Throw m, (s', tr')) =>
      (Throw ("Installation process terminated. Error: " +:+ m),
       (s', (tr' ++ [CoreLog LError ("Task installation failed. Error: " +:+ m);
                     CoreSetFailed ("Installation process terminated. Error: " +:+ m)])%list))
  end.
Proof.
  unfold installTask, bind at 1, core_info at 1, emit, try_catch. simpl.
  destruct (installBody host options _) as [[p|m] [s' tr']]; [reflexivity |].
  unfold bind, core_error, logAndFail, core_setFailed, emit, bind, throw. simpl.
  rewrite <- app_assoc. reflexivity.
Qed.

Lemma installBody_unsupported options s tr :
  OS_MAPPING !! process_platform host = None
  \/ ARCH_MAPPING !! process_arch host = None ->
  exists msg s1 new,
    installBody host options (s, tr) = (Throw msg, (s1, (tr ++ new)%list))
    /\ Forall (fun e => is_download e = false) new
    /\ (version options <> "latest" -> existsb is_network new = false).
Proof.
  intros H. unfold installBody, bind at 1.
  destruct (resolveVersion_events options s tr) as (r & s1 & n1 & E & F & Hn).
  rewrite E. destruct r as [v|m].
  - unfold bind at 1.
    destruct (getDownloadUrl_unsupported v s1 (tr ++ n1)%list H) as (msg & Eu & _).
    rewrite Eu, <- app_assoc. eexists _, _, _. split; [reflexivity | split].
    + apply Forall_app. split; [exact F | repeat constructor].
    + intros Hv. rewrite (Hn Hv). reflexivity.
  - eexists _, _, _. split; [reflexivity | split; [exact F |]].
    intros Hv. rewrite (Hn Hv). reflexivity.
Qed.

End DownloadUrl.

(** C5, as stated, fails in its last part: on an unsupported platform a
    request for "latest" reaches the release index before the platform is
    looked at. *)
Lemma unsupported_platform_after_network_counterexample :
  let host := Demo.host "freebsd" "x64" ∅ ∅ ∅ (Demo.release_tagged "v3.43.1")
                (Ok None) (Ok tt) Demo.absent in
  let r := installTask host
             {| version := "latest"; skipCache := true; githubToken := "" |} (tt, []) in
  result_of r = Throw "Installation process terminated. Error: Unsupported platform: freebsd"
  /\ existsb is_network (events_of r) = true
  /\ events_of r =
     [CoreLog LInfo "Starting Task installation process...";
      CoreLog LInfo "Retrieving latest version of Task...";
      HttpFetch "https://api.github.com/repos/go-task/task/releases/latest" [];
      CoreLog LInfo "Retrieved the latest version: 3.43.1";
      CoreSetFailed "Unsupported platform: freebsd";
      CoreLog LError "Task installation failed. Error: Unsupported platform: freebsd";
      CoreSetFailed "Installation process terminated. Error: Unsupported platform: freebsd"].
Proof. repeat split. Qed.

(** C5, amended.  On a supported platform the download URL is exactly
    [{base}/v{version}/task_{os}_{arch}.{ext}] for the mapped identifiers,
    [ext] being "zip" if and only if the mapped OS is windows; the tables
    map win32, darwin, linux and x64, arm64, arm and nothing else.  On an
    unsupported platform or architecture [installTask] fails, reports the
    failure, and neither downloads nor extracts an archive; with an
    explicit version it makes no network call at all. *)
Theorem download_url_of_platform {St : Type} (host : Host St) (v : string) :
  (forall o a st,
     OS_MAPPING !! process_platform host = Some o ->
     ARCH_MAPPING !! process_arch host = Some a ->
     getDownloadUrl host v st = (Ok (spec_download_url o a v), st))
  /\ (forall p o, OS_MAPPING !! p = Some o <->
        (p = "win32" /\ o = "windows") \/ (p = "darwin" /\ o = "darwin")
        \/ (p = "linux" /\ o = "linux"))
  /\ (forall p a, ARCH_MAPPING !! p = Some a <->
        (p = "x64" /\ a = "amd64") \/ (p = "arm64" /\ a = "arm64")
        \/ (p = "arm" /\ a = "arm"))
  /\ (OS_MAPPING !! process_platform host = None
      \/ ARCH_MAPPING !! process_arch host = None ->
      forall options s tr,
      exists msg s1 new,
        installTask host options (s, tr) = (Throw msg, (s1, (tr ++ new)%list))
        /\ In (CoreSetFailed msg) new
        /\ Forall (fun e => is_download e = false) new
        /\ (version options <> "latest" -> existsb is_network new = false)).
Proof.
  split; [| split; [apply OS_MAPPING_Some | split; [apply ARCH_MAPPING_Some |]]].
  - intros o a st Ho Ha. rewrite (getDownloadUrl_supported host v o a st Ho Ha).
    unfold spec_download_url. apply OS_MAPPING_Some in Ho.
    destruct Ho as [[-> ->]|[[-> ->]|[-> ->]]]; reflexivity.
  - intros H options s tr. rewrite installTask_run.
    destruct (installBody_unsupported host options s
                (tr ++ [CoreLog LInfo "Starting Task installation process..."])%list H)
      as (msg & s1 & new & E & F & Hn).
    rewrite E, <- !app_assoc. eexists _, _, _. split; [reflexivity |]. split; [| split].
    + apply in_or_app. right. apply in_or_app. right. right. left. reflexivity.
    + constructor; [reflexivity |]. apply Forall_app. split; [exact F |].
      repeat constructor.
    + intros Hv. simpl. rewrite existsb_app, (Hn Hv). reflexivity.
Qed.

Lemma download_url_of_platform_witness :
  (forall st, getDownloadUrl Demo.windows "3.43.1" st =
     (Ok "https://github.com/go-task/task/releases/download/v3.43.1/task_windows_amd64.zip",
      st))
  /\ exists msg s1 new,
       installTask Demo.freebsd
         {| version := "3.43.1"; skipCache := true; githubToken := "" |} (tt, []) =
       (Throw msg, (s1, ([] ++ new)%list))
       /\ In (CoreSetFailed msg) new
       /\ Forall (fun e => is_download e = false) new
       /\ ("3.43.1" <> "latest" -> existsb is_network new = false).
Proof.
  split.
  - intros st.
    apply (proj1 (download_url_of_platform
                    Demo.windows "3.43.1") "windows" "amd64" st);
      reflexivity.
  - apply (proj2 (proj2 (proj2 (download_url_of_platform
                    Demo.freebsd "3.43.1")))).
    left. reflexivity.
Defined.

(** ** Locating the executable *)

(** The locate step in the words of the specification: the file directly
    inside the root if it is there, else inside the first immediate child
    directory that holds it, else nothing. *)
Definition spec_locate (present isDir : string -> bool)
    (join : string -> string -> string) (root exe : string)
    (entries : list string) : option string :=
  if present (join root exe) then Some (join root exe)
  else
    match List.find (fun d => isDir (join root d) && present (join (join root d) exe))
            entries with
    | Some d => Some (join (join root d) exe)
    | None => None
    end.

(** The walk over the entries of the root on the answers of the file
    system, in the order of the listing: an entry that cannot be inspected
    ends the walk with its error, a directory that holds the executable
    ends it with the path, any other entry is passed over. *)
Fixpoint inspect_children (present : string -> bool) (stat : string -> Result bool)
    (join : string -> string -> string) (root exe : string)
    (entries : list string) : Result (option string) :=
  match entries with
  | [] => Ok None
  | d :: rest =>
      match stat (join root d) with
      | Throw m => Throw m
      | Ok true =>
          if present (join (join root d) exe)
          then Ok (Some (join (join root d) exe))
          else inspect_children present stat join root exe rest
      | Ok false => inspect_children present stat join root exe rest
      end
  end.

(** The locate step of the amended claim: the file directly inside the
    root if it is there; else the one inside the first immediate child
    directory that holds it, as long as the root can be listed and every
    entry before that directory can be inspected; else nothing. *)
Definition amended_locate (present : string -> bool) (stat : string -> Result bool)
    (join : string -> string -> string) (root exe : string)
    (entries : Result (list string)) : option string :=
  if present (join root exe) then Some (join root exe)
  else
    match entries with
    | Throw _ => None
    | Ok l =>
        match inspect_children present stat join root exe l with
        | Ok found => found
        | Throw _ => None
        end
    end.

(** The events of the walk over the entries: [stat], [exists] and debug
    lines. *)
Definition is_probe (e : Event) : bool :=
  match e with
  | FsExistsSync _ | FsStatSync _ | CoreLog LDebug _ => true
  | _ => false
  end.

(** The events that report a failure of the action. *)
Definition is_fatal_report (e : Event) : bool :=
  match e with
  | CoreLog LError _ | CoreSetFailed _ => true
  | _ => false
  end.

Lemma is_probe_not_fatal new :
  Forall (fun e => is_probe e = true) new ->
  Forall (fun e => is_fatal_report e = false) new.
Proof.
  intros F. eapply Forall_impl; [exact F |].
  intros e. destruct e as [lvl msg| | | | | | | | | | | | | | | | | | | ];
    try destruct lvl; simpl; congruence.
Qed.

Lemma is_probe_not_readdir new p :
  Forall (fun e => is_probe e = true) new -> ~ In (FsReaddirSync p) new.
Proof.
  intros F Hin. rewrite Forall_forall in F.
  apply list_elem_of_In in Hin. specialize (F _ Hin). discriminate F.
Qed.

Section Locate.

Context {St : Type} (host : Host St).

(** The directory listing and the [stat] answers as plain functions: a
    listing that throws shows no entry, a [stat] that throws shows no
    directory. *)
Definition listing (s : St) (root : string) : list string :=
  match fs_readdirSync host s root with
  | Ok entries => entries
  | Throw _ => []
  end.

Definition statIsDir (s : St) (p : string) : bool :=
  match fs_statSync_isDirectory host s p with
  | Ok b => b
  | Throw _ => false
  end.

Lemma checkDirectory_run exe dir s tr :
  exists new,
    checkDirectory host exe dir (s, tr) =
    (Ok (if fs_existsSync host s (path_join host dir exe)
         then Some (path_join host dir exe) else None),
     (s, (tr ++ new)%list))
    /\ Forall (fun e => is_probe e = true) new.
Proof.
  unfold checkDirectory, bind at 1, existsSync, ask. simpl.
  destruct (fs_existsSync host s (path_join host dir exe)).
  - unfold bind, core_debug, emit, ret. simpl. rewrite <- app_assoc.
    eexists. split; [reflexivity | repeat constructor].
  - unfold ret. eexists. split; [reflexivity | repeat constructor].
Qed.

(** The entry [e] is passed over by the walk: it is not a directory, or
    it is one that does not hold the executable. *)
Definition passed_over (s : St) (root exe e : string) : Prop :=
  fs_statSync_isDirectory host s (path_join host root e) = Ok false
  \/ (fs_statSync_isDirectory host s (path_join host root e) = Ok true
      /\ fs_existsSync host s (path_join host (path_join host root e) exe) = false).

(** The loop computes [inspect_children], by probes only. *)
Lemma scanEntries_walk exe root entries s tr :
  (forall a b, path_join host a b <> "") ->
  exists new,
    scanEntries host exe root entries (s, tr) =
    (match inspect_children (fs_existsSync host s) (fs_statSync_isDirectory host s)
             (path_join host) root exe entries with
     | Ok found => Ok found
     | Throw m => Throw m
     end,
     (s, (tr ++ new)%list))
    /\ Forall (fun e => is_probe e = true) new.
Proof.
  intros Hjoin. revert tr. induction entries as [|e rest IH]; intros tr.
  - exists []. rewrite app_nil_r. split; [reflexivity | constructor].
  - cbn [scanEntries inspect_children].
    unfold bind at 1, statSync_isDirectory, ask_result. cbn [fst snd].
    destruct (fs_statSync_isDirectory host s (path_join host root e)) as [[|]|m].
    + destruct (checkDirectory_run exe (path_join host root e) s
                  (tr ++ [FsStatSync (path_join host root e)])%list) as (n1 & E1 & F1).
      unfold bind at 1. rewrite E1.
      destruct (fs_existsSync host s (path_join host (path_join host root e) exe)).
      * cbn [JS.truthy_opt].
        pose proof (Hjoin (path_join host root e) exe) as Hne.
        apply truthy_true in Hne. rewrite Hne. unfold ret. rewrite <- app_assoc.
        eexists. split; [reflexivity |]. constructor; [reflexivity | exact F1].
      * cbn [JS.truthy_opt].
        destruct (IH ((tr ++ [FsStatSync (path_join host root e)]) ++ n1)%list)
          as (n2 & E2 & F2).
        rewrite E2, <- !app_assoc. eexists. split; [reflexivity |].
        constructor; [reflexivity |]. by apply Forall_app.
    + destruct (IH (tr ++ [FsStatSync (path_join host root e)])%list) as (n2 & E2 & F2).
      rewrite E2, <- !app_assoc. eexists. split; [reflexivity |].
      constructor; [reflexivity | exact F2].
    + eexists. split; [reflexivity | repeat constructor].
Qed.

(** When every entry can be inspected, the walk finds what [List.find]
    finds. *)
Lemma inspect_children_find exe root entries s :
  (forall e, In e entries ->
     exists b, fs_statSync_isDirectory host s (path_join host root e) = Ok b) ->
  inspect_children (fs_existsSync host s) (fs_statSync_isDirectory host s)
    (path_join host) root exe entries =
  Ok (option_map (fun d => path_join host (path_join host root d) exe)
        (List.find (fun d => statIsDir s (path_join host root d)
                             && fs_existsSync host s
                                  (path_join host (path_join host root d) exe))
           entries)).
Proof.
  induction entries as [|e rest IH]; intros Hstat; [reflexivity |].
  destruct (Hstat e (or_introl eq_refl)) as (b & Eb).
  cbn [inspect_children List.find]. unfold statIsDir at 1. rewrite Eb.
  assert (Hrest : forall e', In e' rest ->
            exists b', fs_statSync_isDirectory host s (path_join host root e') = Ok b')
    by (intros e' He'; apply Hstat; by right).
  destruct b; cbn [andb]; [| by apply IH].
  destruct (fs_existsSync host s (path_join host (path_join host root e) exe));
    [reflexivity | by apply IH].
Qed.

Lemma scanEntries_throws exe root pre e post m s tr :
  Forall (passed_over s root exe) pre ->
  fs_statSync_isDirectory host s (path_join host root e) = Throw m ->
  exists new,
    scanEntries host exe root (pre ++ e :: post) (s, tr) =
    (Throw m, (s, (tr ++ new)%list))
    /\ Forall (fun e => is_probe e = true) new.
Proof.
  intros Hpre Hthrow. revert tr. induction Hpre as [|x pre Hx Hpre IH]; intros tr.
  - cbn [app scanEntries]. unfold bind, statSync_isDirectory, ask_result. cbn [fst snd].
    rewrite Hthrow. eexists. split; [reflexivity | repeat constructor].
  - cbn [app scanEntries]. unfold bind at 1, statSync_isDirectory at 1, ask_result.
    cbn [fst snd]. destruct Hx as [Ex|[Ex Ep]]; rewrite Ex.
    + destruct (IH (tr ++ [FsStatSync (path_join host root x)])%list) as (n & E & F).
      rewrite E, <- app_assoc. eexists. split; [reflexivity |].
      constructor; [reflexivity | exact F].
    + destruct (checkDirectory_run exe (path_join host root x) s
                  (tr ++ [FsStatSync (path_join host root x)])%list) as (n1 & E1 & F1).
      unfold bind at 1. rewrite E1, Ep. cbn [JS.truthy_opt].
      destruct (IH ((tr ++ [FsStatSync (path_join host root x)]) ++ n1)%list)
        as (n & E & F).
      rewrite E, <- !app_assoc. eexists. split; [reflexivity |].
      constructor; [reflexivity |]. by apply Forall_app.
Qed.

End Locate.

Section LocateSteps.

Context {St : Type} (host : Host St).

(** A failure of the depth-1 phase with message [m]: the listing of the
    root throws, or the [stat] of an entry throws after the entries
    before it have been passed over. *)
Definition depth1_throws (s : St) (root exe m : string) : Prop :=
  fs_readdirSync host s root = Throw m
  \/ exists pre e post,
       fs_readdirSync host s root = Ok (pre ++ e :: post)%list
       /\ Forall (passed_over host s root exe) pre
       /\ fs_statSync_isDirectory host s (path_join host root e) = Throw m.

(** The [try]/[catch] statement never throws: what it returns is the
    outcome of the walk, nothing when the listing or the walk threw. *)
Lemma searchChildren_walk exe root s tr :
  (forall a b, path_join host a b <> "") ->
  exists new,
    searchChildren host exe root (s, tr) =
    (Ok (match fs_readdirSync host s root with
         | Throw _ => None
         | Ok l =>
             match inspect_children (fs_existsSync host s)
                     (fs_statSync_isDirectory host s) (path_join host) root exe l with
             | Ok found => found
             | Throw _ => None
             end
         end),
     (s, (tr ++ new)%list))
    /\ (forall p, In (FsReaddirSync p) new -> p = root).
Proof.
  intros Hjoin. unfold searchChildren, try_catch, bind at 1, readdirSync, ask_result.
  cbn [fst snd].
  destruct (fs_readdirSync host s root) as [entries|m].
  - unfold bind at 1, core_debug at 1, emit. cbn [fst snd].
    destruct (scanEntries_walk host exe root entries s
                ((tr ++ [FsReaddirSync root])
                 ++ [CoreLog LDebug ("Directory entries found: "
                                     +:+ pretty (length entries) +:+ " in " +:+ root)])%list
                Hjoin) as (new & E & F).
    rewrite E.
    destruct (inspect_children _ _ _ root exe entries) as [found|m].
    + rewrite <- !app_assoc. eexists. split; [reflexivity |].
      intros p [[= ->]|[[=]|Hin]]; [reflexivity |].
      by apply is_probe_not_readdir in Hin.
    + unfold bind, core_warning, emit, ret. cbn [fst snd]. rewrite <- !app_assoc.
      eexists. split; [reflexivity |].
      intros p [[= ->]|[[=]|Hin]]; [reflexivity |]. cbn [app] in Hin.
      apply in_app_or in Hin as [Hin|[[=]|[]]].
      by apply is_probe_not_readdir in Hin.
  - unfold bind, core_warning, emit, ret. cbn [fst snd]. rewrite <- !app_assoc.
    eexists. split; [reflexivity |].
    intros p [[= ->]|[[=]|[]]]. reflexivity.
Qed.

Lemma searchChildren_throws exe root m s tr :
  depth1_throws s root exe m ->
  exists new,
    searchChildren host exe root (s, tr) =
    (Ok None,
     (s, (tr ++ new ++ [CoreLog LWarning
                          ("Error encountered while searching for executable. Error: "
                           +:+ m)])%list))
    /\ Forall (fun e => is_fatal_report e = false) new.
Proof.
  unfold searchChildren, try_catch, bind at 1, readdirSync, ask_result. cbn [fst snd].
  intros [H|(pre & e & post & H & Hpre & Hthrow)]; rewrite H.
  - unfold bind, core_warning, emit, ret. cbn [fst snd]. rewrite <- !app_assoc.
    exists [FsReaddirSync root]. split; [reflexivity | repeat constructor].
  - unfold bind at 1, core_debug at 1, emit. cbn [fst snd].
    destruct (scanEntries_throws host exe root pre e post m s
                ((tr ++ [FsReaddirSync root])
                 ++ [CoreLog LDebug ("Directory entries found: "
                                     +:+ pretty (length (pre ++ e :: post)%list)
                                     +:+ " in " +:+ root)])%list
                Hpre Hthrow) as (new & E & F).
    rewrite E. unfold bind, core_warning, emit, ret. cbn [fst snd].
    rewrite <- !app_assoc.
    eexists (_ :: _ :: new). split; [reflexivity |].
    repeat (constructor; [reflexivity |]). by apply is_probe_not_fatal.
Qed.

(** [findExecutable] when the file is not directly inside the root: the
    rest of the function runs after the debug line and the probe. *)
Lemma findExecutable_absent root s tr :
  fs_existsSync host s (path_join host root ("task" +:+ EXE_EXTENSION host)) = false ->
  findExecutable host root (s, tr) =
  (found <- searchChildren host ("task" +:+ EXE_EXTENSION host) root ;;
   match found with
   | Some execPath => ret execPath
   | None =>
       core_warning ("Executable not found: " +:+ ("task" +:+ EXE_EXTENSION host)
                     +:+ " in directory: " +:+ root) ;;
       ret ""
   end)
    (s, (tr ++ [CoreLog LDebug ("Searching for executable: "
                                +:+ ("task" +:+ EXE_EXTENSION host)
                                +:+ " in directory: " +:+ root);
                FsExistsSync (path_join host root ("task" +:+ EXE_EXTENSION host))])%list).
Proof.
  intros H. unfold findExecutable, bind at 1, core_debug at 1, emit. cbn [fst snd].
  unfold bind at 1, checkDirectory, bind at 1, existsSync, ask. cbn [fst snd].
  rewrite H. unfold ret at 1. cbn [JS.truthy_opt]. rewrite <- app_assoc. reflexivity.
Qed.

Lemma findExecutable_direct root s tr :
  fs_existsSync host s (path_join host root ("task" +:+ EXE_EXTENSION host)) = true ->
  path_join host root ("task" +:+ EXE_EXTENSION host) <> "" ->
  exists new,
    findExecutable host root (s, tr) =
    (Ok (path_join host root ("task" +:+ EXE_EXTENSION host)), (s, (tr ++ new)%list))
    /\ Forall (fun e => is_probe e = true) new.
Proof.
  intros H Hne. unfold findExecutable, bind at 1, core_debug at 1, emit. cbn [fst snd].
  unfold bind at 1, checkDirectory, bind at 1, existsSync, ask. cbn [fst snd].
  rewrite H. unfold bind, core_debug, emit, ret. cbn [fst snd JS.truthy_opt].
  apply truthy_true in Hne. rewrite Hne. cbn [default]. rewrite <- !app_assoc.
  eexists. split; [reflexivity | repeat constructor].
Qed.

End LocateSteps.

Lemma demo_join_nonempty (a b : string) : a +:+ "/" +:+ b <> "".
Proof. destruct a; discriminate. Qed.

(** An archive whose first entry is a link to nothing, so that it is
    listed but cannot be inspected, and whose second entry is the
    directory that holds the executable. *)
Definition dangling_entry : Host unit :=
  Demo.host "linux" "x64" ∅ (<["/tmp/extracted/bin/task" := "ELF"]> ∅)
    (<["/tmp/extracted" := ["ghost"; "bin"]]> (<["/tmp/extracted/bin" := ["task"]]> ∅))
    Demo.offline (Ok None) (Ok tt) Demo.absent.

(** C6, as stated, fails: the executable is inside an immediate child
    directory of the root, the claim's locate step names it, and the code
    fails with the executable-not-found error, because the entry listed
    before that directory cannot be inspected. *)
Lemma locate_executable_two_levels_counterexample :
  fs_existsSync dangling_entry tt "/tmp/extracted/task" = false
  /\ fs_readdirSync dangling_entry tt "/tmp/extracted" = Ok ["ghost"; "bin"]
  /\ fs_statSync_isDirectory dangling_entry tt "/tmp/extracted/bin" = Ok true
  /\ fs_existsSync dangling_entry tt "/tmp/extracted/bin/task" = true
  /\ spec_locate (fs_existsSync dangling_entry tt) (statIsDir dangling_entry tt)
       (path_join dangling_entry) "/tmp/extracted" "task"
       (listing dangling_entry tt "/tmp/extracted")
     = Some "/tmp/extracted/bin/task"
  /\ result_of (locateExecutable dangling_entry "/tmp/extracted" (tt, []))
     = Throw "Executable not found in extracted directory: /tmp/extracted".
Proof. repeat split. Qed.

(** C6, amended.  With a path library that never joins to the empty path
    (Node's [path.join] gives "." in its place), for every extraction
    root and every file system: the locate step
    returns the executable ([task], or [task.exe] on win32) directly
    inside the root if it is there; else it lists the root and takes the
    entries in order, returning the executable inside the first directory
    that holds it, as long as the listing and the inspection of each entry
    before that directory succeed; else it fails with the
    executable-not-found error that names the root.  The only directory it
    lists is the root.  When every entry of the root can be inspected, the
    outcome is that of the claim as first stated. *)
Theorem locate_executable_two_levels {St : Type} (host : Host St)
    (root : string) (s : St) (tr : list Event) :
  (forall a b, path_join host a b <> "") ->
  exists new,
    locateExecutable host root (s, tr) =
    (match amended_locate (fs_existsSync host s) (fs_statSync_isDirectory host s)
             (path_join host) root ("task" +:+ EXE_EXTENSION host)
             (fs_readdirSync host s root) with
     | Some p => Ok p
     | None => Throw ("Executable not found in extracted directory: " +:+ root)
     end,
     (s, (tr ++ new)%list))
    /\ (forall p, In (FsReaddirSync p) new -> p = root)
    /\ "task" +:+ EXE_EXTENSION host =
       (if String.eqb (process_platform host) "win32" then "task.exe" else "task")
    /\ ((forall e, In e (listing host s root) ->
           exists b, fs_statSync_isDirectory host s (path_join host root e) = Ok b) ->
        amended_locate (fs_existsSync host s) (fs_statSync_isDirectory host s)
          (path_join host) root ("task" +:+ EXE_EXTENSION host)
          (fs_readdirSync host s root)
        = spec_locate (fs_existsSync host s) (statIsDir host s) (path_join host)
            root ("task" +:+ EXE_EXTENSION host) (listing host s root)).
Proof.
  intros Hjoin. unfold locateExecutable, amended_locate, spec_locate.
  set (exe := "task" +:+ EXE_EXTENSION host).
  assert (Hexe : exe = if String.eqb (process_platform host) "win32"
                       then "task.exe" else "task")
    by (unfold exe, EXE_EXTENSION; by destruct (String.eqb _ _)).
  assert (Hspec : (forall e, In e (listing host s root) ->
                     exists b, fs_statSync_isDirectory host s (path_join host root e) = Ok b) ->
                  match fs_readdirSync host s root with
                  | Throw _ => None
                  | Ok l =>
                      match inspect_children (fs_existsSync host s)
                              (fs_statSync_isDirectory host s) (path_join host) root exe l with
                      | Ok found => found
                      | Throw _ => None
                      end
                  end
                  = match List.find
                            (fun d => statIsDir host s (path_join host root d)
                                      && fs_existsSync host s
                                           (path_join host (path_join host root d) exe))
                            (listing host s root) with
                    | Some d => Some (path_join host (path_join host root d) exe)
                    | None => None
                    end).
  { unfold listing. intros Hstat.
    destruct (fs_readdirSync host s root) as [l|m]; [| reflexivity].
    rewrite (inspect_children_find host exe root l s Hstat).
    by destruct (List.find _ l). }
  destruct (fs_existsSync host s (path_join host root exe)) eqn:Edirect.
  - destruct (findExecutable_direct host root s tr Edirect (Hjoin _ _)) as (new & E & F).
    unfold bind. rewrite E. fold exe.
    pose proof (Hjoin root exe) as Hne. apply truthy_true in Hne. rewrite Hne.
    exists new. split; [reflexivity | split; [| split; [exact Hexe | done]]].
    intros p Hin. by apply is_probe_not_readdir in Hin.
  - unfold bind at 1. rewrite (findExecutable_absent host root s tr Edirect). fold exe.
    unfold bind at 1.
    destruct (searchChildren_walk host exe root s
                (tr ++ [CoreLog LDebug ("Searching for executable: " +:+ exe
                                        +:+ " in directory: " +:+ root);
                        FsExistsSync (path_join host root exe)])%list Hjoin)
      as (new & E & Hread).
    rewrite E.
    destruct (match fs_readdirSync host s root with Throw _ => None | Ok l => _ end)
      as [found|] eqn:Ewalk.
    + assert (Hfound : JS.truthy found = true).
      { apply truthy_true.
        destruct (fs_readdirSync host s root) as [l|m]; [| discriminate Ewalk].
        clear - Ewalk Hjoin. induction l as [|d l IH]; [discriminate Ewalk |].
        cbn [inspect_children] in Ewalk.
        destruct (fs_statSync_isDirectory host s (path_join host root d)) as [[|]|m];
          [| by apply IH | discriminate Ewalk].
        destruct (fs_existsSync host s (path_join host (path_join host root d) exe));
          [| by apply IH].
        injection Ewalk as <-. apply Hjoin. }
      unfold ret. rewrite Hfound. cbn [negb]. rewrite <- app_assoc.
      eexists. split; [reflexivity | split; [| split; [exact Hexe | exact Hspec]]].
      intros p [[=]|[[=]|Hin]]. by apply Hread.
    + unfold bind, core_warning, emit, ret, throw. cbn [fst snd JS.truthy negb].
      rewrite <- !app_assoc.
      eexists. split; [reflexivity | split; [| split; [exact Hexe | exact Hspec]]].
      intros p Hin. cbn [app] in Hin. destruct Hin as [[=]|[[=]|Hin]].
      apply in_app_or in Hin as [Hin|[[=]|[]]]. by apply Hread.
Qed.

(** An archive that holds a read-me and the executable one directory
    down. *)
Definition nested_archive : Host unit :=
  Demo.host "linux" "x64" ∅
    (<["/tmp/extracted/README.md" := "readme"]>
       (<["/tmp/extracted/task_linux_amd64/task" := "ELF"]> ∅))
    (<["/tmp/extracted" := ["README.md"; "task_linux_amd64"]]>
       (<["/tmp/extracted/task_linux_amd64" := ["task"]]> ∅))
    Demo.offline (Ok None) (Ok tt) Demo.absent.

Lemma locate_executable_two_levels_witness :
  exists new,
    locateExecutable nested_archive "/tmp/extracted" (tt, []) =
    (Ok "/tmp/extracted/task_linux_amd64/task", (tt, ([] ++ new)%list))
    /\ (forall p, In (FsReaddirSync p) new -> p = "/tmp/extracted")
    /\ "task" = "task"
    /\ ((forall e, In e ["README.md"; "task_linux_amd64"] ->
           exists b, fs_statSync_isDirectory nested_archive tt
                       (path_join nested_archive "/tmp/extracted" e) = Ok b) ->
        Some "/tmp/extracted/task_linux_amd64/task"
        = Some "/tmp/extracted/task_linux_amd64/task").
Proof.
  exact (locate_executable_two_levels nested_archive "/tmp/extracted" tt []
           demo_join_nonempty).
Defined.

(** On the archive with the dangling entry the amended locate step finds
    nothing, as the code does. *)
Example amended_locate_dangling_entry :
  amended_locate (fs_existsSync dangling_entry tt)
    (fs_statSync_isDirectory dangling_entry tt) (path_join dangling_entry)
    "/tmp/extracted" "task" (fs_readdirSync dangling_entry tt "/tmp/extracted")
  = None.
Proof. reflexivity. Qed.

(** An executable two levels down is not found. *)
Example locate_no_deeper_recursion :
  result_of
    (locateExecutable
       (Demo.host "linux" "x64" ∅ (<["/tmp/extracted/a/b/task" := "ELF"]> ∅)
          (<["/tmp/extracted" := ["a"]]>
             (<["/tmp/extracted/a" := ["b"]]> (<["/tmp/extracted/a/b" := ["task"]]> ∅)))
          Demo.offline (Ok None) (Ok tt) Demo.absent)
       "/tmp/extracted" (tt, [])) =
  Throw "Executable not found in extracted directory: /tmp/extracted".
Proof. reflexivity. Qed.

(** C10.  When the executable is not directly inside the root and the
    depth-1 phase throws with message [m] (the listing of the root, or
    the [stat] of an entry), [findExecutable] returns the empty string:
    the error is caught, the two warnings are the last events, nothing is
    reported as an error or a failure, and the caller fails with the
    executable-not-found message, which does not carry [m]. *)
Theorem search_error_swallowed {St : Type} (host : Host St)
    (root m : string) (s : St) (tr : list Event) :
  fs_existsSync host s (path_join host root ("task" +:+ EXE_EXTENSION host)) = false ->
  depth1_throws host s root ("task" +:+ EXE_EXTENSION host) m ->
  exists new,
    findExecutable host root (s, tr) =
    (Ok "",
     (s, (tr ++ new
          ++ [CoreLog LWarning
                ("Error encountered while searching for executable. Error: " +:+ m);
              CoreLog LWarning
                ("Executable not found: " +:+ ("task" +:+ EXE_EXTENSION host)
                 +:+ " in directory: " +:+ root)])%list))
    /\ Forall (fun e => is_fatal_report e = false) new
    /\ result_of (locateExecutable host root (s, tr)) =
       Throw ("Executable not found in extracted directory: " +:+ root).
Proof.
  intros Edirect Hthrow.
  set (exe := "task" +:+ EXE_EXTENSION host) in *.
  destruct (searchChildren_throws host exe root m s
              (tr ++ [CoreLog LDebug ("Searching for executable: " +:+ exe
                                      +:+ " in directory: " +:+ root);
                      FsExistsSync (path_join host root exe)])%list Hthrow)
    as (new & E & F).
  assert (Efind : findExecutable host root (s, tr) =
    (Ok "",
     (s, (tr ++ (CoreLog LDebug ("Searching for executable: " +:+ exe
                                 +:+ " in directory: " +:+ root)
                 :: FsExistsSync (path_join host root exe) :: new)
          ++ [CoreLog LWarning
                ("Error encountered while searching for executable. Error: " +:+ m);
              CoreLog LWarning
                ("Executable not found: " +:+ exe +:+ " in directory: " +:+ root)])%list))).
  { rewrite (findExecutable_absent host root s tr Edirect). fold exe.
    unfold bind at 1. rewrite E.
    unfold bind, core_warning, emit, ret. cbn [fst snd].
    rewrite <- !app_assoc. reflexivity. }
  eexists. split; [exact Efind | split].
  - repeat (constructor; [reflexivity |]). exact F.
  - unfold locateExecutable, bind. rewrite Efind. reflexivity.
Qed.

Lemma search_error_swallowed_witness :
  let host :=
    Demo.host "linux" "x64" ∅ (<["/tmp/extracted/bin/task" := "ELF"]> ∅)
      (<["/tmp/extracted" := ["ghost"; "bin"]]> (<["/tmp/extracted/bin" := ["task"]]> ∅))
      Demo.offline (Ok None) (Ok tt) Demo.absent in
  exists new,
    findExecutable host "/tmp/extracted" (tt, []) =
    (Ok "",
     (tt, ([] ++ new
           ++ [CoreLog LWarning
                 "Error encountered while searching for executable. Error: ENOENT: no such file or directory '/tmp/extracted/ghost'";
               CoreLog LWarning
                 "Executable not found: task in directory: /tmp/extracted"])%list))
    /\ Forall (fun e => is_fatal_report e = false) new
    /\ result_of (locateExecutable host "/tmp/extracted" (tt, [])) =
       Throw "Executable not found in extracted directory: /tmp/extracted".
Proof.
  apply (search_error_swallowed
           (Demo.host "linux" "x64" ∅ (<["/tmp/extracted/bin/task" := "ELF"]> ∅)
              (<["/tmp/extracted" := ["ghost"; "bin"]]>
                 (<["/tmp/extracted/bin" := ["task"]]> ∅))
              Demo.offline (Ok None) (Ok tt) Demo.absent)
           "/tmp/extracted" (Demo.enoent "/tmp/extracted/ghost") tt []).
  - reflexivity.
  - right. exists [], "ghost", ["bin"]. split; [reflexivity | split; [constructor | reflexivity]].
Defined.

(** ** The cache layer *)

Section CacheLayer.

Context {St : Type} (host : Host St).

Lemma restoreCache_never_throws version s tr :
  exists p s1 new,
    restoreCache host version (s, tr) = (Ok p, (s1, (tr ++ new)%list))
    /\ (p = "" \/ p = path_join host (getCacheDirectory host) (getTaskExecutableName host))
    /\ Forall (fun e => is_fatal_report e = false) new.
Proof.
  unfold restoreCache, try_catch, bind, core_debug, core_info, core_warning,
    cache_restore, existsSync, chmodSync, emit, ask, call, ret.
  cbn [fst snd].
  destruct (cache_restoreCache host s [getCacheDirectory host] (getCacheKey host version))
    as [[hit|m] s1]; cbn [fst snd].
  - destruct (JS.truthy_opt hit); cbn [negb fst snd].
    + destruct (fs_existsSync host s1 _); cbn [negb fst snd].
      * destruct (String.eqb (process_platform host) "win32"); cbn [negb fst snd].
        -- rewrite <- !app_assoc. eexists _, _, _.
           split; [reflexivity | split; [by right | repeat constructor]].
        -- destruct (fs_chmodSync host s1 _ "755") as [[[]|m] s2]; cbn [fst snd];
             rewrite <- !app_assoc; eexists _, _, _;
             (split; [reflexivity | split; [(by right) || (by left) | repeat constructor]]).
      * rewrite <- !app_assoc. eexists _, _, _.
        split; [reflexivity | split; [by left | repeat constructor]].
    + rewrite <- !app_assoc. eexists _, _, _.
      split; [reflexivity | split; [by left | repeat constructor]].
  - rewrite <- !app_assoc. eexists _, _, _.
    split; [reflexivity | split; [by left | repeat constructor]].
Qed.

Lemma saveCache_never_throws taskPath version s tr :
  exists s1 new,
    saveCache host taskPath version (s, tr) = (Ok tt, (s1, (tr ++ new)%list))
    /\ Forall (fun e => is_fatal_report e = false) new.
Proof.
  unfold saveCache, try_catch, bind, core_debug, core_info, core_warning,
    cache_save, mkdirSync, copyFileSync, emit, call, ret.
  cbn [fst snd].
  destruct (fs_mkdirSync host s (getCacheDirectory host)) as [[[]|m] s1]; cbn [fst snd].
  - destruct (String.eqb taskPath _); cbn [negb fst snd].
    + destruct (cache_saveCache host s1 _ _) as [[[]|m] s2]; cbn [fst snd];
        rewrite <- !app_assoc; eexists _, _; (split; [reflexivity | repeat constructor]).
    + destruct (fs_copyFileSync host s1 taskPath _) as [[[]|m] s2]; cbn [fst snd].
      * destruct (cache_saveCache host s2 _ _) as [[[]|m] s3]; cbn [fst snd];
          rewrite <- !app_assoc; eexists _, _; (split; [reflexivity | repeat constructor]).
      * rewrite <- !app_assoc. eexists _, _. split; [reflexivity | repeat constructor].
  - rewrite <- !app_assoc. eexists _, _. split; [reflexivity | repeat constructor].
Qed.

End CacheLayer.

Section CacheFailures.

Context {St : Type} (host : Host St).

(** The path of the executable inside the cache directory. *)
Definition cachedTaskPath : string :=
  path_join host (getCacheDirectory host) (getTaskExecutableName host).

(** A failure inside [restoreCache] with message [m], leaving the machine
    in [s']: the backend throws, or the [chmod] of the restored file
    throws. *)
Definition restore_throws (s : St) (version m : string) (s' : St) : Prop :=
  cache_restoreCache host s [getCacheDirectory host] (getCacheKey host version)
    = (Throw m, s')
  \/ exists k s1,
       cache_restoreCache host s [getCacheDirectory host] (getCacheKey host version)
         = (Ok (Some k), s1)
       /\ k <> ""
       /\ fs_existsSync host s1 cachedTaskPath = true
       /\ process_platform host <> "win32"
       /\ fs_chmodSync host s1 cachedTaskPath "755" = (Throw m, s').

(** A cache hit whose directory lacks the executable. *)
Definition payload_missing (s : St) (version : string) (s' : St) : Prop :=
  exists k,
    cache_restoreCache host s [getCacheDirectory host] (getCacheKey host version)
      = (Ok (Some k), s')
    /\ k <> ""
    /\ fs_existsSync host s' cachedTaskPath = false.

(** A failure inside [saveCache] with message [m]: [mkdir], the copy of
    the executable, or the backend throws. *)
Definition save_throws (s : St) (taskPath version m : string) (s' : St) : Prop :=
  fs_mkdirSync host s (getCacheDirectory host) = (Throw m, s')
  \/ exists s1,
       fs_mkdirSync host s (getCacheDirectory host) = (Ok tt, s1)
       /\ ((taskPath <> cachedTaskPath
            /\ fs_copyFileSync host s1 taskPath cachedTaskPath = (Throw m, s'))
           \/ (taskPath = cachedTaskPath
               /\ cache_saveCache host s1 [getCacheDirectory host]
                    (getCacheKey host version) = (Throw m, s'))
           \/ (taskPath <> cachedTaskPath
               /\ exists s2,
                    fs_copyFileSync host s1 taskPath cachedTaskPath = (Ok tt, s2)
                    /\ cache_saveCache host s2 [getCacheDirectory host]
                         (getCacheKey host version) = (Throw m, s'))).

Lemma restoreCache_throws version m s s' tr :
  restore_throws s version m s' ->
  exists new,
    restoreCache host version (s, tr) =
    (Ok "", (s', (tr ++ new ++ [CoreLog LWarning
                                  ("Failed to restore from cache: " +:+ m)])%list)).
Proof.
  unfold restore_throws, cachedTaskPath.
  unfold restoreCache, try_catch, bind, core_debug, core_info, core_warning,
    cache_restore, existsSync, chmodSync, emit, ask, call, ret.
  cbn [fst snd].
  intros [H|(k & s1 & H & Hk & Hex & Hp & Hch)]; rewrite H; cbn [fst snd].
  - rewrite <- !app_assoc. eexists [_; _]. reflexivity.
  - apply truthy_true in Hk. cbn [JS.truthy_opt]. rewrite Hk. cbn [negb fst snd].
    rewrite Hex. cbn [negb fst snd].
    destruct (String.eqb_spec (process_platform host) "win32"); [done |].
    cbn [negb fst snd]. rewrite Hch. cbn [fst snd].
    rewrite <- !app_assoc. eexists [_; _; _; _; _; _]. reflexivity.
Qed.

Lemma restoreCache_payload_missing version s s' tr :
  payload_missing s version s' ->
  exists new,
    restoreCache host version (s, tr) =
    (Ok "", (s', (tr ++ new ++ [CoreLog LWarning
                                  ("Cache was hit but Task was not found at "
                                   +:+ cachedTaskPath)])%list)).
Proof.
  unfold payload_missing, cachedTaskPath.
  unfold restoreCache, try_catch, bind, core_debug, core_info, core_warning,
    cache_restore, existsSync, chmodSync, emit, ask, call, ret.
  cbn [fst snd].
  intros (k & H & Hk & Hex). rewrite H. cbn [fst snd].
  apply truthy_true in Hk. cbn [JS.truthy_opt]. rewrite Hk. cbn [negb fst snd].
  rewrite Hex. cbn [negb fst snd].
  rewrite <- !app_assoc. eexists [_; _; _; _]. reflexivity.
Qed.

Lemma saveCache_throws taskPath version m s s' tr :
  save_throws s taskPath version m s' ->
  exists new,
    saveCache host taskPath version (s, tr) =
    (Ok tt, (s', (tr ++ new ++ [CoreLog LWarning ("Failed to save Task to cache: " +:+ m);
                               CoreLog LWarning ("Failed to save cache: " +:+ m)])%list)).
Proof.
  unfold save_throws, cachedTaskPath.
  unfold saveCache, try_catch, bind, core_debug, core_info, core_warning,
    cache_save, mkdirSync, copyFileSync, emit, call, ret.
  cbn [fst snd].
  intros [H|(s1 & H & [(Hne & Hc)|[(He & Hs)|(Hne & s2 & Hc & Hs)]])];
    rewrite H; cbn [fst snd].
  - rewrite <- !app_assoc. eexists [_; _]. reflexivity.
  - destruct (String.eqb_spec taskPath
                (path_join host (getCacheDirectory host) (getTaskExecutableName host)));
      [done |].
    cbn [negb fst snd]. rewrite Hc. cbn [fst snd].
    rewrite <- !app_assoc. eexists [_; _; _; _]. reflexivity.
  - destruct (String.eqb_spec taskPath
                (path_join host (getCacheDirectory host) (getTaskExecutableName host)));
      [| done].
    cbn [negb fst snd]. rewrite Hs. cbn [fst snd].
    rewrite <- !app_assoc. eexists [_; _; _]. reflexivity.
  - destruct (String.eqb_spec taskPath
                (path_join host (getCacheDirectory host) (getTaskExecutableName host)));
      [done |].
    cbn [negb fst snd]. rewrite Hc. cbn [fst snd]. rewrite Hs. cbn [fst snd].
    rewrite <- !app_assoc. eexists [_; _; _; _; _]. reflexivity.
Qed.

End CacheFailures.

Lemma restoreOrInstall_throws_only_from_install {St : Type} (host : Host St)
    (options : TaskOptions) (m : string) (st : St * list Event) :
  result_of (restoreOrInstall host options st) = Throw m ->
  exists st', result_of (installTask host options st') = Throw m.
Proof.
  destruct st as [s tr]. unfold restoreOrInstall, bind at 1.
  destruct (skipCache options); cbn [negb].
  - unfold ret at 1. unfold bind at 1.
    destruct (installTask host options (s, tr)) as [[p|m'] st'] eqn:E.
    + unfold bind, ret. discriminate.
    + unfold result_of at 1. cbn [fst]. intros [= <-]. exists (s, tr). by rewrite E.
  - unfold bind at 1.
    destruct (restoreCache_never_throws host (version options) s tr)
      as (p & s1 & n1 & E1 & _ & _).
    rewrite E1. unfold ret at 1.
    destruct (JS.truthy p); [unfold ret; discriminate |].
    unfold bind at 1.
    destruct (installTask host options (s1, (tr ++ n1)%list)) as [[q|m'] [s2 tr2]] eqn:E.
    + unfold bind at 1.
      destruct (saveCache_never_throws host q (version options) s2 tr2)
        as (s3 & n3 & E3 & _).
      rewrite E3. unfold ret. discriminate.
    + unfold result_of at 1. cbn [fst]. intros [= <-].
      exists (s1, (tr ++ n1)%list). by rewrite E.
Qed.

(** C7.  [restoreCache] and [saveCache] never throw and report nothing as
    an error or a failure.  A failure inside [restoreCache] (the backend
    or [chmod] throwing) and a hit whose directory lacks the executable
    both end in a warning and the empty path, that is a miss; a failure
    inside [saveCache] ([mkdir], the copy or the backend throwing) ends
    in warnings and a normal return.  Hence [restoreOrInstall] throws
    only what [installTask] throws. *)
Theorem cache_failures_swallowed {St : Type} (host : Host St)
    (version taskPath : string) (s : St) (tr : list Event) :
  (exists p s1 new,
     restoreCache host version (s, tr) = (Ok p, (s1, (tr ++ new)%list))
     /\ (p = "" \/ p = cachedTaskPath host)
     /\ Forall (fun e => is_fatal_report e = false) new)
  /\ (exists s1 new,
        saveCache host taskPath version (s, tr) = (Ok tt, (s1, (tr ++ new)%list))
        /\ Forall (fun e => is_fatal_report e = false) new)
  /\ (forall m s',
        restore_throws host s version m s' ->
        exists new,
          restoreCache host version (s, tr) =
          (Ok "", (s', (tr ++ new ++ [CoreLog LWarning
                                        ("Failed to restore from cache: " +:+ m)])%list)))
  /\ (forall s',
        payload_missing host s version s' ->
        exists new,
          restoreCache host version (s, tr) =
          (Ok "", (s', (tr ++ new ++ [CoreLog LWarning
                                        ("Cache was hit but Task was not found at "
                                         +:+ cachedTaskPath host)])%list)))
  /\ (forall m s',
        save_throws host s taskPath version m s' ->
        exists new,
          saveCache host taskPath version (s, tr) =
          (Ok tt,
           (s', (tr ++ new ++ [CoreLog LWarning ("Failed to save Task to cache: " +:+ m);
                               CoreLog LWarning ("Failed to save cache: " +:+ m)])%list)))
  /\ (forall options m,
        result_of (restoreOrInstall host options (s, tr)) = Throw m ->
        exists st', result_of (installTask host options st') = Throw m).
Proof.
  split; [apply restoreCache_never_throws |].
  split; [apply saveCache_never_throws |].
  split; [intros m s'; apply restoreCache_throws |].
  split; [intros s'; apply restoreCache_payload_missing |].
  split; [intros m s'; apply saveCache_throws |].
  intros options m. apply restoreOrInstall_throws_only_from_install.
Qed.

(** A machine whose cache backend is unreachable, for restore and for
    save. *)
Definition cache_unreachable : Host unit :=
  Demo.host "linux" "x64" ∅ ∅ ∅ Demo.offline
    (Throw "connect ECONNREFUSED") (Throw "connect ECONNREFUSED") Demo.absent.

(** A machine whose cache backend reports a hit and restores nothing. *)
Definition cache_hit_without_payload : Host unit :=
  Demo.host "linux" "x64" ∅ ∅ ∅ Demo.offline
    (Ok (Some "task-runner-3.43.1-linux-x64")) (Ok tt) Demo.absent.

Lemma cache_failures_swallowed_witness :
  (exists new,
     restoreCache cache_unreachable "3.43.1" (tt, []) =
     (Ok "", (tt, ([] ++ new ++ [CoreLog LWarning
                                   "Failed to restore from cache: connect ECONNREFUSED"])%list)))
  /\ (exists new,
        restoreCache cache_hit_without_payload "3.43.1" (tt, []) =
        (Ok "", (tt, ([] ++ new ++ [CoreLog LWarning
                                      "Cache was hit but Task was not found at /tmp/task-runner/task"])%list)))
  /\ (exists new,
        saveCache cache_unreachable "/tmp/extracted/task" "3.43.1" (tt, []) =
        (Ok tt,
         (tt, ([] ++ new
               ++ [CoreLog LWarning "Failed to save Task to cache: connect ECONNREFUSED";
                   CoreLog LWarning "Failed to save cache: connect ECONNREFUSED"])%list))).
Proof.
  split; [| split].
  - apply (proj1 (proj2 (proj2 (cache_failures_swallowed cache_unreachable
                                  "3.43.1" "/tmp/extracted/task" tt [])))
             "connect ECONNREFUSED" tt).
    left. reflexivity.
  - apply (proj1 (proj2 (proj2 (proj2 (cache_failures_swallowed cache_hit_without_payload
                                         "3.43.1" "/tmp/extracted/task" tt [])))) tt).
    exists "task-runner-3.43.1-linux-x64". split; [reflexivity | split; [discriminate | reflexivity]].
  - apply (proj1 (proj2 (proj2 (proj2 (proj2 (cache_failures_swallowed cache_unreachable
                                                "3.43.1" "/tmp/extracted/task" tt [])))))
             "connect ECONNREFUSED" tt).
    right. exists tt. split; [reflexivity |]. right. right.
    split; [discriminate |]. exists tt. split; reflexivity.
Defined.

(** ** Conflicting inputs *)

Definition is_log (e : Event) : bool :=
  match e with
  | CoreLog _ _ => true
  | _ => false
  end.

Lemma is_debug_is_log new :
  Forall (fun e => is_debug e = true) new -> Forall (fun e => is_log e = true) new.
Proof.
  intros F. eapply Forall_impl; [exact F |].
  intros e. destruct e as [lvl msg| | | | | | | | | | | | | | | | | | | ];
    try destruct lvl; simpl; congruence.
Qed.

Section Conflict.

Context {St : Type} (host : Host St).

Lemma getTaskOptions_conflict s tr :
  core_getInput host "version-from-file" <> "" ->
  core_getInput host "version" <> "" ->
  core_getInput host "version" <> "latest" ->
  exists new,
    getTaskOptions host (s, tr) = (Throw CONFLICT_MESSAGE, (s, (tr ++ new)%list))
    /\ Forall (fun e => is_debug e = true) new.
Proof.
  intros Hvf Hvi Hl.
  destruct (getTaskOptions_run host s tr) as (new & F & E).
  exists new. split; [| exact F]. rewrite E.
  apply truthy_true in Hvf, Hvi. rewrite Hvf, Hvi.
  destruct (String.eqb_spec (core_getInput host "version") "latest"); [done |].
  reflexivity.
Qed.

Lemma getTaskOptions_no_conflict s tr :
  core_getInput host "version-from-file" <> "" ->
  core_getInput host "version" = "" \/ core_getInput host "version" = "latest" ->
  result_of (getTaskOptions host (s, tr)) <> Throw CONFLICT_MESSAGE.
Proof.
  intros Hvf Hvi.
  destruct (getTaskOptions_run host s tr) as (new & F & E). rewrite E.
  assert (Hc : JS.truthy (core_getInput host "version-from-file")
               && JS.truthy (core_getInput host "version")
               && negb (String.eqb (core_getInput host "version") "latest") = false).
  { destruct Hvi as [->| ->]; [by rewrite andb_false_r | by rewrite andb_false_r]. }
  rewrite Hc. unfold bind at 1, ret at 1. unfold bind at 1.
  unfold chooseVersion. apply truthy_true in Hvf. rewrite Hvf.
  unfold try_catch, bind at 1, readFileSync, ask_result. cbn [fst snd].
  destruct (fs_readFileSync host s (core_getInput host "version-from-file"))
    as [content|m].
  - destruct (JS.truthy content).
    + destruct (logs_only_logger_debug host
                  ("Using version '" +:+ JS.trim content +:+ "' from file "
                   +:+ core_getInput host "version-from-file")
                  s ((tr ++ new)
                     ++ [FsReadFileSync (core_getInput host "version-from-file")])%list)
        as (n2 & E2 & _).
      unfold bind. rewrite E2. discriminate.
    + discriminate.
  - unfold throw. cbn. discriminate.
Qed.

End Conflict.

(** C8.  With [version-from-file] set, [getTaskOptions] fails with the
    conflict message exactly when [version] is set to something other
    than "latest"; in that case [run] stops there: beyond log lines its
    only event is the failure report, so no file is read, no request is
    sent, no cache is consulted and no process is started.  With
    [version] unset or "latest" and a readable file, [getTaskOptions]
    returns its options. *)
Theorem version_inputs_conflict {St : Type} (host : Host St)
    (s : St) (tr : list Event) :
  core_getInput host "version-from-file" <> "" ->
  (result_of (getTaskOptions host (s, tr)) = Throw CONFLICT_MESSAGE
   <-> core_getInput host "version" <> ""
       /\ core_getInput host "version" <> "latest")
  /\ (core_getInput host "version" <> ""
      /\ core_getInput host "version" <> "latest" ->
      exists new,
        run host (s, tr) =
        (Ok tt,
         (s, (tr ++ new ++ [CoreSetFailed ("Task setup failed: " +:+ CONFLICT_MESSAGE)])%list))
        /\ Forall (fun e => is_log e = true) new)
  /\ (core_getInput host "version" = "" \/ core_getInput host "version" = "latest" ->
      forall content,
        fs_readFileSync host s (core_getInput host "version-from-file") = Ok content ->
        exists options st',
          getTaskOptions host (s, tr) = (Ok options, st')
          /\ version options = (if JS.truthy content then JS.trim content else "latest")).
Proof.
  intros Hvf. split; [split | split].
  - intros Hthrow.
    destruct (String.eqb_spec (core_getInput host "version") "") as [Hvi|Hvi].
    + exfalso. revert Hthrow. apply getTaskOptions_no_conflict; auto.
    + destruct (String.eqb_spec (core_getInput host "version") "latest") as [Hl|Hl].
      * exfalso. revert Hthrow. apply getTaskOptions_no_conflict; auto.
      * done.
  - intros [Hvi Hl].
    destruct (getTaskOptions_conflict host s tr Hvf Hvi Hl) as (new & E & _).
    by rewrite E.
  - intros [Hvi Hl].
    destruct (getTaskOptions_conflict host s
                (tr ++ [CoreLog LInfo "Setting up Task..."])%list Hvf Hvi Hl)
      as (new & E & F).
    unfold run, try_catch, bind at 1, logger_info at 1, core_info, emit. cbn [fst snd].
    unfold bind at 1. rewrite E.
    unfold logger_setFailed, core_setFailed, emit. cbn [fst snd].
    rewrite <- !app_assoc. exists (CoreLog LInfo "Setting up Task..." :: new).
    split; [reflexivity |]. constructor; [reflexivity | by apply is_debug_is_log].
  - intros Hvi content Hread.
    destruct (getTaskOptions_run host s tr) as (n1 & F1 & E1). rewrite E1.
    assert (Hc : JS.truthy (core_getInput host "version-from-file")
                 && JS.truthy (core_getInput host "version")
                 && negb (String.eqb (core_getInput host "version") "latest") = false)
      by (destruct Hvi as [->| ->]; by rewrite andb_false_r).
    rewrite Hc. unfold bind at 1, ret at 1. unfold bind at 1.
    destruct (JS.truthy content) eqn:Ec.
    + apply truthy_true in Ec.
      destruct (chooseVersion_file host (core_getInput host "version") _ content s
                  (tr ++ n1)%list Hvf Hread Ec) as (n2 & E2).
      rewrite E2. unfold ret. eexists _, _. split; reflexivity.
    + apply truthy_false in Ec. subst content.
      rewrite (chooseVersion_empty_file host _ _ s (tr ++ n1)%list Hvf Hread).
      unfold ret. eexists _, _. split; reflexivity.
Qed.

(** Both inputs set, as in the action's own test. *)
Definition both_inputs : Host unit :=
  Demo.linux (<["version" := "3.43.1"]> (<["version-from-file" := "version.txt"]> ∅))
    (<["version.txt" := "3.42.0"]> ∅).

Lemma both_inputs_file_set : core_getInput both_inputs "version-from-file" <> "".
Proof. discriminate. Defined.

Lemma version_inputs_conflict_witness :
  (result_of (getTaskOptions both_inputs (tt, [])) = Throw CONFLICT_MESSAGE
   <-> "3.43.1" <> "" /\ "3.43.1" <> "latest")
  /\ ("3.43.1" <> "" /\ "3.43.1" <> "latest" ->
      exists new,
        run both_inputs (tt, []) =
        (Ok tt,
         (tt, ([] ++ new ++ [CoreSetFailed ("Task setup failed: " +:+ CONFLICT_MESSAGE)])%list))
        /\ Forall (fun e => is_log e = true) new)
  /\ ("3.43.1" = "" \/ "3.43.1" = "latest" ->
      forall content,
        fs_readFileSync both_inputs tt "version.txt" = Ok content ->
        exists options st',
          getTaskOptions both_inputs (tt, []) = (Ok options, st')
          /\ version options = (if JS.truthy content then JS.trim content else "latest")).
Proof.
  exact (version_inputs_conflict both_inputs tt [] both_inputs_file_set).
Defined.

(** The two examples of the specification: the file alone is read and
    trimmed, and the default "latest" next to the file is no conflict. *)
Example version_from_file_alone :
  result_of (getTaskOptions
               (Demo.linux (<["version-from-file" := ".task-version"]> ∅)
                  (<[".task-version" := "3.42.0" +:+ LF]> ∅)) (tt, [])) =
  Ok {| version := "3.42.0"; skipCache := false; githubToken := "" |}.
Proof. reflexivity. Qed.

Example version_from_file_with_default :
  result_of (getTaskOptions
               (Demo.linux (<["version" := "latest"]>
                              (<["version-from-file" := ".task-version"]> ∅))
                  (<[".task-version" := "3.42.0" +:+ LF]> ∅)) (tt, [])) =
  Ok {| version := "3.42.0"; skipCache := false; githubToken := "" |}.
Proof. reflexivity. Qed.

(** ** Verification *)

Lemma length_zero_iff (s : string) : Nat.eqb (String.length s) 0 = String.eqb s "".
Proof. by destruct s. Qed.

(** The message of a failed verification with no output. *)
Definition NO_VERSION_MESSAGE : string :=
  "Task verification failed: Task verification failed: No version returned from Task".

(** The variable [output] of [verifyInstallation] when its [try] block
    is left: the text the [stdout] listener has collected, the empty text
    as long as nothing has been run.  The host gives the text of a run
    that exits with code 0; of a run that is rejected it gives the error
    alone, which stands for a process that failed before it wrote
    anything. *)
Definition captured_output {St : Type} (host : Host St) (s : St) : string :=
  match exec_run host s "which" ["task"] with
  | (Ok taskPath, s1) =>
      match fst (exec_run host s1 (JS.trim taskPath) ["--version"]) with
      | Ok out => out
      | Throw _ => ""
      end
  | (Throw _, _) => ""
  end.

(** Task installed at /usr/local/bin/task and printing nothing but a line
    feed when asked for its version. *)
Definition silent_task : Host unit :=
  Demo.host "linux" "x64" ∅ ∅ ∅ Demo.offline (Ok None) (Ok tt)
    (fun cmd => if String.eqb cmd "which"
                then Ok ("/usr/local/bin/task" +:+ LF) else Ok LF).

(** Task installed at /usr/local/bin/task and ending with exit code 1
    before it has written anything. *)
Definition crashing_task : Host unit :=
  Demo.host "linux" "x64" ∅ ∅ ∅ Demo.offline (Ok None) (Ok tt)
    (fun cmd => if String.eqb cmd "which"
                then Ok ("/usr/local/bin/task" +:+ LF)
                else Throw "The process '/usr/local/bin/task' failed with exit code 1").

(** C9, as stated, fails from right to left: the captured output is
    empty, and the verification error carries the message of the failed
    run, which does not mention "No version returned". *)
Lemma verification_requires_output_counterexample :
  JS.trim (captured_output crashing_task tt) = ""
  /\ verifyInstallation crashing_task (tt, []) =
     (Throw
        "Task verification failed: The process '/usr/local/bin/task' failed with exit code 1",
      (tt, [CoreLog LInfo "Verifying Task installation...";
            ExecGetOutput "which" ["task"];
            CoreLog LInfo "Task found at path: /usr/local/bin/task";
            CoreLog LInfo "Executing: /usr/local/bin/task --version";
            ExecExec "/usr/local/bin/task" ["--version"];
            CoreLog LError
              "Task verification error: The process '/usr/local/bin/task' failed with exit code 1"]))
  /\ ~ (exists msg,
          result_of (verifyInstallation crashing_task (tt, [])) = Throw msg
          /\ JS.includes msg "No version returned" = true).
Proof.
  split; [reflexivity | split; [reflexivity |]].
  intros (msg & Hmsg & Hin). injection Hmsg as <-. discriminate Hin.
Qed.

(** C9, amended.  [verifyInstallation] looks the tool up with
    [which task] and, when that succeeds, runs the trimmed path with
    [--version].  When that run exits with code 0, it fails, with a
    message that mentions "No version returned", if and only if the
    captured output is empty after trimming, and returns otherwise.  When
    the run or the lookup fails, it fails with the message of that
    failure behind the prefix "Task verification failed: ", and after a
    failed lookup nothing is run.  So it returns exactly when both
    succeed and the output is not empty after trimming. *)
Theorem verification_requires_output {St : Type} (host : Host St)
    (s : St) (tr : list Event) :
  (forall whichOut s1 out s2,
     exec_run host s "which" ["task"] = (Ok whichOut, s1) ->
     exec_run host s1 (JS.trim whichOut) ["--version"] = (Ok out, s2) ->
     verifyInstallation host (s, tr) =
       (if String.eqb (JS.trim out) "" then Throw NO_VERSION_MESSAGE else Ok tt,
        (s2, (tr ++ [CoreLog LInfo "Verifying Task installation...";
                     ExecGetOutput "which" ["task"];
                     CoreLog LInfo ("Task found at path: " +:+ JS.trim whichOut);
                     CoreLog LInfo ("Executing: " +:+ JS.trim whichOut +:+ " --version");
                     ExecExec (JS.trim whichOut) ["--version"];
                     if String.eqb (JS.trim out) ""
                     then CoreLog LError
                            "Task verification error: Task verification failed: No version returned from Task"
                     else CoreLog LInfo ("Task verification successful: " +:+ JS.trim out)])%list))
     /\ ((exists msg, result_of (verifyInstallation host (s, tr)) = Throw msg
                      /\ JS.includes msg "No version returned" = true)
         <-> JS.trim out = "")
     /\ (JS.trim out <> "" -> result_of (verifyInstallation host (s, tr)) = Ok tt))
  /\ (forall whichOut s1 cause s2,
        exec_run host s "which" ["task"] = (Ok whichOut, s1) ->
        exec_run host s1 (JS.trim whichOut) ["--version"] = (Throw cause, s2) ->
        verifyInstallation host (s, tr) =
          (Throw ("Task verification failed: " +:+ cause),
           (s2, (tr ++ [CoreLog LInfo "Verifying Task installation...";
                        ExecGetOutput "which" ["task"];
                        CoreLog LInfo ("Task found at path: " +:+ JS.trim whichOut);
                        CoreLog LInfo ("Executing: " +:+ JS.trim whichOut +:+ " --version");
                        ExecExec (JS.trim whichOut) ["--version"];
                        CoreLog LError ("Task verification error: " +:+ cause)])%list)))
  /\ (forall cause s1,
        exec_run host s "which" ["task"] = (Throw cause, s1) ->
        verifyInstallation host (s, tr) =
          (Throw ("Task verification failed: " +:+ cause),
           (s1, (tr ++ [CoreLog LInfo "Verifying Task installation...";
                        ExecGetOutput "which" ["task"];
                        CoreLog LError ("Task verification error: " +:+ cause)])%list)))
  /\ (result_of (verifyInstallation host (s, tr)) = Ok tt
      <-> exists whichOut s1 out s2,
            exec_run host s "which" ["task"] = (Ok whichOut, s1)
            /\ exec_run host s1 (JS.trim whichOut) ["--version"] = (Ok out, s2)
            /\ JS.trim out <> "").
Proof.
  assert (Eboth : forall whichOut s1 out s2,
     exec_run host s "which" ["task"] = (Ok whichOut, s1) ->
     exec_run host s1 (JS.trim whichOut) ["--version"] = (Ok out, s2) ->
     verifyInstallation host (s, tr) =
       (if String.eqb (JS.trim out) "" then Throw NO_VERSION_MESSAGE else Ok tt,
        (s2, (tr ++ [CoreLog LInfo "Verifying Task installation...";
                     ExecGetOutput "which" ["task"];
                     CoreLog LInfo ("Task found at path: " +:+ JS.trim whichOut);
                     CoreLog LInfo ("Executing: " +:+ JS.trim whichOut +:+ " --version");
                     ExecExec (JS.trim whichOut) ["--version"];
                     if String.eqb (JS.trim out) ""
                     then CoreLog LError
                            "Task verification error: Task verification failed: No version returned from Task"
                     else CoreLog LInfo ("Task verification successful: " +:+ JS.trim out)])%list))).
  { intros whichOut s1 out s2 Hwhich Hrun.
    unfold verifyInstallation, try_catch, bind, logger_info, logger_error, core_info,
      core_error, exec_getExecOutput, exec_exec, emit, call, ret, throw.
    cbn [fst snd]. rewrite Hwhich. cbn [fst snd]. rewrite Hrun. cbn [fst snd].
    rewrite length_zero_iff.
    destruct (String.eqb (JS.trim out) ""); cbn [fst snd];
      rewrite <- !app_assoc; reflexivity. }
  assert (Erun : forall whichOut s1 cause s2,
     exec_run host s "which" ["task"] = (Ok whichOut, s1) ->
     exec_run host s1 (JS.trim whichOut) ["--version"] = (Throw cause, s2) ->
     verifyInstallation host (s, tr) =
       (Throw ("Task verification failed: " +:+ cause),
        (s2, (tr ++ [CoreLog LInfo "Verifying Task installation...";
                     ExecGetOutput "which" ["task"];
                     CoreLog LInfo ("Task found at path: " +:+ JS.trim whichOut);
                     CoreLog LInfo ("Executing: " +:+ JS.trim whichOut +:+ " --version");
                     ExecExec (JS.trim whichOut) ["--version"];
                     CoreLog LError ("Task verification error: " +:+ cause)])%list))).
  { intros whichOut s1 cause s2 Hwhich Hrun.
    unfold verifyInstallation, try_catch, bind, logger_info, logger_error, core_info,
      core_error, exec_getExecOutput, exec_exec, emit, call, ret, throw.
    cbn [fst snd]. rewrite Hwhich. cbn [fst snd]. rewrite Hrun. cbn [fst snd].
    rewrite <- !app_assoc. reflexivity. }
  assert (Ewhich : forall cause s1,
     exec_run host s "which" ["task"] = (Throw cause, s1) ->
     verifyInstallation host (s, tr) =
       (Throw ("Task verification failed: " +:+ cause),
        (s1, (tr ++ [CoreLog LInfo "Verifying Task installation...";
                     ExecGetOutput "which" ["task"];
                     CoreLog LError ("Task verification error: " +:+ cause)])%list))).
  { intros cause s1 Hwhich.
    unfold verifyInstallation, try_catch, bind, logger_info, logger_error, core_info,
      core_error, exec_getExecOutput, emit, call, throw.
    cbn [fst snd]. rewrite Hwhich. cbn [fst snd]. rewrite <- !app_assoc. reflexivity. }
  split; [| split; [exact Erun | split; [exact Ewhich |]]].
  - intros whichOut s1 out s2 Hwhich Hrun.
    pose proof (Eboth whichOut s1 out s2 Hwhich Hrun) as E.
    split; [exact E | split; [split |]].
    + intros (msg & Hmsg & _). rewrite E in Hmsg.
      destruct (String.eqb_spec (JS.trim out) ""); [done | discriminate Hmsg].
    + intros Hout. rewrite E. apply String.eqb_eq in Hout. rewrite Hout.
      exists NO_VERSION_MESSAGE. split; reflexivity.
    + intros Hout. rewrite E. apply String.eqb_neq in Hout. by rewrite Hout.
  - destruct (exec_run host s "which" ["task"]) as [[whichOut|cause] s1] eqn:Hwhich.
    + destruct (exec_run host s1 (JS.trim whichOut) ["--version"]) as [[out|cause] s2]
        eqn:Hrun.
      * rewrite (Eboth whichOut s1 out s2 eq_refl Hrun).
        destruct (String.eqb_spec (JS.trim out) "") as [Hout|Hout]; split.
        -- discriminate.
        -- intros (w & sa & o & sb & [= <- <-] & Ho & Hne).
           rewrite Hrun in Ho. injection Ho as <- <-. done.
        -- intros _. by exists whichOut, s1, out, s2.
        -- reflexivity.
      * rewrite (Erun whichOut s1 cause s2 eq_refl Hrun). split; [discriminate |].
        intros (w & sa & o & sb & [= <- <-] & Ho & _). rewrite Hrun in Ho. discriminate Ho.
    + rewrite (Ewhich cause s1 eq_refl). split; [discriminate |].
      intros (w & sa & o & sb & [=] & _).
Qed.

Lemma verification_requires_output_witness :
  (verifyInstallation silent_task (tt, []) =
     (Throw NO_VERSION_MESSAGE,
      (tt, [CoreLog LInfo "Verifying Task installation...";
            ExecGetOutput "which" ["task"];
            CoreLog LInfo "Task found at path: /usr/local/bin/task";
            CoreLog LInfo "Executing: /usr/local/bin/task --version";
            ExecExec "/usr/local/bin/task" ["--version"];
            CoreLog LError
              "Task verification error: Task verification failed: No version returned from Task"]))
   /\ ((exists msg, result_of (verifyInstallation silent_task (tt, [])) = Throw msg
                    /\ JS.includes msg "No version returned" = true)
       <-> "" = "")
   /\ ("" <> "" -> result_of (verifyInstallation silent_task (tt, [])) = Ok tt))
  /\ verifyInstallation crashing_task (tt, []) =
     (Throw
        "Task verification failed: The process '/usr/local/bin/task' failed with exit code 1",
      (tt, [CoreLog LInfo "Verifying Task installation...";
            ExecGetOutput "which" ["task"];
            CoreLog LInfo "Task found at path: /usr/local/bin/task";
            CoreLog LInfo "Executing: /usr/local/bin/task --version";
            ExecExec "/usr/local/bin/task" ["--version"];
            CoreLog LError
              "Task verification error: The process '/usr/local/bin/task' failed with exit code 1"])).
Proof.
  split.
  - exact (proj1 (verification_requires_output silent_task tt [])
             ("/usr/local/bin/task" +:+ LF) tt LF tt eq_refl eq_refl).
  - exact (proj1 (proj2 (verification_requires_output crashing_task tt []))
             ("/usr/local/bin/task" +:+ LF) tt
             "The process '/usr/local/bin/task' failed with exit code 1" tt
             eq_refl eq_refl).
Defined.

(** A task that prints its version is verified. *)
Example verification_succeeds :
  result_of
    (verifyInstallation
       (Demo.host "linux" "x64" ∅ ∅ ∅ Demo.offline (Ok None) (Ok tt)
          (fun cmd => if String.eqb cmd "which"
                      then Ok ("/usr/local/bin/task" +:+ LF)
                      else Ok ("Task version: v3.43.1" +:+ LF)))
       (tt, [])) = Ok tt.
Proof. reflexivity. Qed.

(** * Further properties of the code *)

(** ** Strings: [trim], [split] and [parseMultilineInput] *)

(** A string that does not begin with white space. *)
Definition starts_clean (s : string) : Prop :=
  match s with
  | EmptyString => True
  | String c _ => JS.isWhiteSpace c = false
  end.

Lemma trimStart_starts_clean s : starts_clean (JS.trimStart s).
Proof.
  induction s as [|c s IH]; simpl; [exact I |].
  destruct (JS.isWhiteSpace c) eqn:E; [exact IH | exact E].
Qed.

Lemma trimStart_fixed s : starts_clean s -> JS.trimStart s = s.
Proof. destruct s as [|c s]; simpl; [done | by intros ->]. Qed.

Lemma trimEnd_starts_clean s : starts_clean s -> starts_clean (JS.trimEnd s).
Proof.
  destruct s as [|c s]; [done |]. cbn [starts_clean JS.trimEnd]. intros Hc.
  destruct (JS.trimEnd s); [by rewrite Hc | exact Hc].
Qed.

Lemma trimEnd_idempotent s : JS.trimEnd (JS.trimEnd s) = JS.trimEnd s.
Proof.
  induction s as [|c s IH]; [reflexivity |]. cbn [JS.trimEnd].
  destruct (JS.trimEnd s) as [|d t] eqn:E.
  - destruct (JS.isWhiteSpace c) eqn:Ec; [reflexivity |].
    cbn [JS.trimEnd]. by rewrite Ec.
  - cbn [JS.trimEnd] in *. by rewrite IH.
Qed.

Lemma trim_idempotent s : JS.trim (JS.trim s) = JS.trim s.
Proof.
  unfold JS.trim.
  rewrite (trimStart_fixed (JS.trimEnd (JS.trimStart s))).
  - apply trimEnd_idempotent.
  - apply trimEnd_starts_clean, trimStart_starts_clean.
Qed.

(** The characters of a trimmed string are characters of the string. *)
Lemma trimStart_chars s c :
  In c (list_ascii_of_string (JS.trimStart s)) -> In c (list_ascii_of_string s).
Proof.
  induction s as [|d s IH]; simpl; [done |].
  destruct (JS.isWhiteSpace d); simpl; auto.
Qed.

Lemma trimEnd_chars s c :
  In c (list_ascii_of_string (JS.trimEnd s)) -> In c (list_ascii_of_string s).
Proof.
  revert c. induction s as [|d s IH]; intros c; [done |]. cbn [JS.trimEnd].
  destruct (JS.trimEnd s) as [|e t] eqn:E.
  - destruct (JS.isWhiteSpace d); simpl; [done | intros [->|[]]; by left].
  - cbn [list_ascii_of_string]. intros [->|H]; [by left |]. right. by apply IH.
Qed.

Lemma trim_chars s c :
  In c (list_ascii_of_string (JS.trim s)) -> In c (list_ascii_of_string s).
Proof. unfold JS.trim. intros H. by apply trimStart_chars, trimEnd_chars. Qed.

Lemma split_char_nonempty sep s : split_char sep s <> [].
Proof.
  induction s as [|c s IH]; simpl; [done |].
  destruct (Ascii.eqb c sep); [done |]. by destruct (split_char sep s).
Qed.

Lemma split_char_append sep a b :
  split_char sep (a +:+ String sep b) = (split_char sep a ++ split_char sep b)%list.
Proof.
  induction a as [|c a IH]; simpl.
  - by rewrite Ascii.eqb_refl.
  - destruct (Ascii.eqb c sep); [by rewrite IH |].
    rewrite IH. pose proof (split_char_nonempty sep a).
    by destruct (split_char sep a).
Qed.

Lemma split_char_no_sep sep s piece :
  In piece (split_char sep s) -> ~ In sep (list_ascii_of_string piece).
Proof.
  revert piece. induction s as [|c s IH]; intros piece; simpl.
  - intros [<-|[]]. simpl. tauto.
  - destruct (Ascii.eqb_spec c sep) as [->|Hc].
    + intros [<-|H]; [simpl; tauto | by apply IH].
    + pose proof (split_char_nonempty sep s).
      destruct (split_char sep s) as [|h t] eqn:E; [done |].
      intros [<-|H1].
      * simpl. intros [->|H2]; [done |]. by apply (IH h (or_introl eq_refl)).
      * apply IH. by right.
Qed.

(** [parseMultilineInput] without its guard: the empty input has one
    piece, the empty one, which the filter drops. *)
Lemma parseMultilineInput_unguarded input :
  parseMultilineInput input =
  List.filter (fun s => negb (String.eqb s ""))
    (List.map JS.trim (split_char NEWLINE input)).
Proof. unfold parseMultilineInput. by destruct input. Qed.

(** X1.  Every line that [parseMultilineInput] returns is not empty, is
    already trimmed and holds no line feed. *)
Theorem parseMultilineInput_lines (input line : string) :
  In line (parseMultilineInput input) ->
  line <> "" /\ JS.trim line = line /\ ~ In NEWLINE (list_ascii_of_string line).
Proof.
  rewrite parseMultilineInput_unguarded. intros H.
  apply List.filter_In in H as [H Hne]. apply List.in_map_iff in H as (piece & <- & Hp).
  split; [| split].
  - intros E. rewrite E in Hne. discriminate Hne.
  - apply trim_idempotent.
  - intros Hin. apply trim_chars in Hin. by apply split_char_no_sep in Hp.
Qed.

Lemma parseMultilineInput_lines_witness :
  "b" <> "" /\ JS.trim "b" = "b" /\ ~ In NEWLINE (list_ascii_of_string "b").
Proof.
  apply (parseMultilineInput_lines
           ("  a " +:+ String NEWLINE (String NEWLINE (" b" +:+ String NEWLINE "")))).
  right. left. reflexivity.
Defined.

(** X2.  The lines of two inputs joined by a line feed are the lines of the
    first followed by the lines of the second. *)
Theorem parseMultilineInput_append (a b : string) :
  parseMultilineInput (a +:+ String NEWLINE b) =
  (parseMultilineInput a ++ parseMultilineInput b)%list.
Proof.
  rewrite !parseMultilineInput_unguarded, split_char_append, List.map_app.
  apply List.filter_app.
Qed.

(** ** The release index *)

Definition FETCH_FAILED_PREFIX : string :=
  "Failed to fetch release information from " +:+ RELEASES_API_URL +:+ ": ".

Definition UNABLE_TO_RETRIEVE : string :=
  "Unable to retrieve the latest version. Please specify a specific version instead of 'latest'.".

(** The headers of the request: the bearer token when there is one. *)
Definition request_headers (token : string) : list (string * string) :=
  if JS.truthy token then [("Authorization", "Bearer " +:+ token)] else [].

Section ReleaseIndex.

Context {St : Type} (host : Host St).

(** X3.  [fetchLatestRelease] sends one request and no other, to the "latest"
    endpoint, with the [Authorization] header exactly when a token is
    given; whatever goes wrong, the message it throws is the fixed prefix
    followed by the cause. *)
Theorem fetchLatestRelease_single_request (token : string) (s : St) (tr : list Event) :
  exists r s1,
    fetchLatestRelease host token (s, tr) =
    (r, (s1, (tr ++ [HttpFetch (RELEASES_API_URL +:+ "/latest") (request_headers token)])%list))
    /\ (forall m, r = Throw m -> exists cause, m = FETCH_FAILED_PREFIX +:+ cause).
Proof.
  unfold fetchLatestRelease, request_headers.
  set (headers := if JS.truthy token then _ else _).
  unfold try_catch, bind at 1, fetch, call. cbn [fst snd].
  destruct (http_fetch host s (RELEASES_API_URL +:+ "/latest") headers)
    as [[resp|m] s1]; cbn [fst snd].
  - unfold bind at 1. destruct (resp_ok resp); cbn [negb].
    + unfold ret at 1, bind at 1, await.
      destruct (resp_json resp) as [[d|]|m]; cbn [fst snd];
        try (unfold throw; eexists _, _; split; [reflexivity |];
             intros m' [= <-]; eexists; reflexivity).
      destruct (JS.truthy_opt (tag_name d)); unfold ret, throw;
        eexists _, _; (split; [reflexivity |]); intros m' [=].
      subst m'. eexists; reflexivity.
    + unfold bind, await. destruct (resp_text resp); unfold throw;
        eexists _, _; (split; [reflexivity |]); intros m' [= <-]; eexists; reflexivity.
  - unfold throw. eexists _, _. split; [reflexivity |].
    intros m' [= <-]. eexists; reflexivity.
Qed.

(** X4.  What [fetchLatestRelease] makes of an answer: a status that is not
    OK is reported with the status and the body; an OK answer without a
    tag is reported as invalid; an OK answer with the tag [t] gives [t]
    less one leading "v". *)
Theorem fetchLatestRelease_outcome (token : string) (s s1 : St) (tr : list Event)
    (resp : Response) :
  http_fetch host s (RELEASES_API_URL +:+ "/latest") (request_headers token)
    = (Ok resp, s1) ->
  result_of (fetchLatestRelease host token (s, tr)) =
  if resp_ok resp
  then
    match resp_json resp with
    | Ok (Some {| tag_name := Some t |}) =>
        if String.eqb t ""
        then Throw (FETCH_FAILED_PREFIX +:+ "Invalid response format or no releases found")
        else Ok (if JS.startsWith t "v" then JS.substring1 t else t)
    | Ok _ =>
        Throw (FETCH_FAILED_PREFIX +:+ "Invalid response format or no releases found")
    | Throw m => Throw (FETCH_FAILED_PREFIX +:+ m)
    end
  else
    match resp_text resp with
    | Ok body =>
        Throw (FETCH_FAILED_PREFIX +:+ "HTTP Error: " +:+ pretty (resp_status resp)
               +:+ " - " +:+ body)
    | Throw m => Throw (FETCH_FAILED_PREFIX +:+ m)
    end.
Proof.
  intros Hf. unfold fetchLatestRelease, request_headers in *.
  unfold try_catch, bind at 1, fetch, call. cbn [fst snd]. rewrite Hf. cbn [fst snd].
  unfold bind at 1. destruct (resp_ok resp); cbn [negb].
  - unfold ret at 1, bind at 1, await.
    destruct (resp_json resp) as [[[[t|]]|]|m]; cbn [fst snd]; try reflexivity.
    cbn [JS.truthy_opt tag_name]. unfold JS.truthy.
    destruct (String.eqb t ""); reflexivity.
  - unfold bind, await. destruct (resp_text resp); reflexivity.
Qed.

End ReleaseIndex.

Lemma fetchLatestRelease_outcome_witness :
  result_of
    (fetchLatestRelease
       (Demo.host "linux" "x64" ∅ ∅ ∅
          (Ok {| resp_ok := false; resp_status := 403%N;
                 resp_text := Ok "rate limit exceeded"; resp_json := Throw "no body" |})
          (Ok None) (Ok tt) Demo.absent)
       "" (tt, [])) =
  Throw "Failed to fetch release information from https://api.github.com/repos/go-task/task/releases: HTTP Error: 403 - rate limit exceeded".
Proof.
  exact (fetchLatestRelease_outcome
           (Demo.host "linux" "x64" ∅ ∅ ∅
              (Ok {| resp_ok := false; resp_status := 403%N;
                     resp_text := Ok "rate limit exceeded"; resp_json := Throw "no body" |})
              (Ok None) (Ok tt) Demo.absent)
           "" tt tt [] _ eq_refl).
Defined.


(** ** Computations by the events they add *)

Section EmitsOnly.

Context {St : Type}.

(** [emits_only P c]: whatever the machine and the outcome, [c] extends
    the record, and every event it adds satisfies [P]. *)
Definition emits_only {A} (P : Event -> bool) (c : M St A) : Prop :=
  forall s tr, exists new,
    snd (snd (c (s, tr))) = (tr ++ new)%list
    /\ Forall (fun e => P e = true) new.

Lemma emits_only_ret {A} P (a : A) : emits_only P (ret a).
Proof. intros s tr. exists []. rewrite app_nil_r. split; [reflexivity | constructor]. Qed.

Lemma emits_only_throw {A} P m : emits_only P (@throw St A m).
Proof. intros s tr. exists []. rewrite app_nil_r. split; [reflexivity | constructor]. Qed.

Lemma emits_only_await {A} P (r : Result A) : emits_only P (@await St A r).
Proof. intros s tr. exists []. rewrite app_nil_r. split; [reflexivity | constructor]. Qed.

Lemma emits_only_emit P e : P e = true -> emits_only P (@emit St e).
Proof. intros H s tr. exists [e]. split; [reflexivity | by constructor]. Qed.

Lemma emits_only_ask {A} P e (f : St -> A) : P e = true -> emits_only P (ask e f).
Proof. intros H s tr. exists [e]. split; [reflexivity | by constructor]. Qed.

Lemma emits_only_ask_result {A} P e (f : St -> Result A) :
  P e = true -> emits_only P (ask_result e f).
Proof. intros H s tr. exists [e]. split; [reflexivity | by constructor]. Qed.

Lemma emits_only_call {A} P e (f : St -> Result A * St) :
  P e = true -> emits_only P (call e f).
Proof. intros H s tr. exists [e]. split; [reflexivity | by constructor]. Qed.

Lemma emits_only_update P e (f : St -> St) : P e = true -> emits_only P (update e f).
Proof. intros H s tr. exists [e]. split; [reflexivity | by constructor]. Qed.

Lemma emits_only_bind {A B} P (c : M St A) (k : A -> M St B) :
  emits_only P c -> (forall a, emits_only P (k a)) -> emits_only P (bind c k).
Proof.
  intros Hc Hk s tr. destruct (Hc s tr) as (n1 & E1 & F1). unfold bind.
  destruct (c (s, tr)) as [[a|m] [s1 tr1]]; cbn [fst snd] in *; subst tr1.
  - destruct (Hk a s1 (tr ++ n1)%list) as (n2 & E2 & F2).
    exists (n1 ++ n2)%list. rewrite E2, app_assoc. split; [reflexivity | by apply Forall_app].
  - exists n1. split; [reflexivity | exact F1].
Qed.

Lemma emits_only_try_catch {A} P (c : M St A) (h : string -> M St A) :
  emits_only P c -> (forall m, emits_only P (h m)) -> emits_only P (try_catch c h).
Proof.
  intros Hc Hh s tr. destruct (Hc s tr) as (n1 & E1 & F1). unfold try_catch.
  destruct (c (s, tr)) as [[a|m] [s1 tr1]]; cbn [fst snd] in *; subst tr1.
  - exists n1. split; [reflexivity | exact F1].
  - destruct (Hh m s1 (tr ++ n1)%list) as (n2 & E2 & F2).
    exists (n1 ++ n2)%list. rewrite E2, app_assoc. split; [reflexivity | by apply Forall_app].
Qed.

Lemma emits_only_weaken {A} (P Q : Event -> bool) (c : M St A) :
  (forall e, P e = true -> Q e = true) -> emits_only P c -> emits_only Q c.
Proof.
  intros HPQ Hc s tr. destruct (Hc s tr) as (new & E & F). exists new.
  split; [exact E |]. eapply Forall_impl; [exact F | exact HPQ].
Qed.

End EmitsOnly.

(** Break a computation into its calls. *)
Ltac emits_step :=
  first
    [ apply emits_only_ret | apply emits_only_throw | apply emits_only_await
    | apply emits_only_emit; reflexivity
    | apply emits_only_ask; reflexivity
    | apply emits_only_ask_result; reflexivity
    | apply emits_only_call; reflexivity
    | apply emits_only_update; reflexivity
    | apply emits_only_bind; [| intros ?]
    | apply emits_only_try_catch; [| intros ?]
    | match goal with
      | |- emits_only _ (if ?b then _ else _) => destruct b
      | |- emits_only _ (match ?o with Some _ => _ | None => _ end) => destruct o
      end ].

Ltac emits := repeat emits_step.

(** ** The archive installer *)

(** The events of a search in the file system: probes, listings and log
    lines. *)
Definition is_search (e : Event) : bool :=
  match e with
  | FsExistsSync _ | FsStatSync _ | FsReaddirSync _ | CoreLog _ _ => true
  | _ => false
  end.

Lemma is_probe_is_search new :
  Forall (fun e => is_probe e = true) new -> Forall (fun e => is_search e = true) new.
Proof.
  intros F. eapply Forall_impl; [exact F |].
  intros e. destruct e as [lvl msg| | | | | | | | | | | | | | | | | | | ];
    try destruct lvl; simpl; congruence.
Qed.

Section Search.

Context {St : Type} (host : Host St).

(** The paths at which the search can find the executable [exe] under
    [root]: directly inside it, or inside a listed entry that is a
    directory. *)
Definition at_depth_0_or_1 (s : St) (root exe p : string) : Prop :=
  p = path_join host root exe
  \/ exists e, In e (listing host s root)
               /\ statIsDir host s (path_join host root e) = true
               /\ p = path_join host (path_join host root e) exe.

Lemma checkDirectory_sound exe dir s tr :
  exists o new,
    checkDirectory host exe dir (s, tr) = (Ok o, (s, (tr ++ new)%list))
    /\ Forall (fun e => is_probe e = true) new
    /\ (forall p, o = Some p ->
          p = path_join host dir exe
          /\ fs_existsSync host s p = true
          /\ In (FsExistsSync p) new).
Proof.
  unfold checkDirectory, bind at 1, existsSync, ask. cbn [fst snd].
  destruct (fs_existsSync host s (path_join host dir exe)) eqn:Ex.
  - unfold bind, core_debug, emit, ret. cbn [fst snd]. rewrite <- app_assoc.
    eexists _, _. split; [reflexivity | split; [repeat constructor |]].
    intros p [= <-]. split; [reflexivity | split; [exact Ex | by left]].
  - unfold ret. eexists _, _. split; [reflexivity | split; [repeat constructor |]].
    discriminate.
Qed.

Lemma scanEntries_sound exe root entries s tr :
  exists r new,
    scanEntries host exe root entries (s, tr) = (r, (s, (tr ++ new)%list))
    /\ Forall (fun e => is_probe e = true) new
    /\ (forall p, r = Ok (Some p) ->
          p <> "" /\ fs_existsSync host s p = true /\ In (FsExistsSync p) new
          /\ exists e, In e entries
                       /\ statIsDir host s (path_join host root e) = true
                       /\ p = path_join host (path_join host root e) exe).
Proof.
  revert tr. induction entries as [|e rest IH]; intros tr.
  - exists (Ok None), []. rewrite app_nil_r.
    split; [reflexivity | split; [constructor | discriminate]].
  - cbn [scanEntries]. unfold bind at 1, statSync_isDirectory, ask_result. cbn [fst snd].
    assert (Hrest : forall t n0,
      Forall (fun e => is_probe e = true) n0 ->
      t = ((tr ++ [FsStatSync (path_join host root e)]) ++ n0)%list ->
      exists r new,
        scanEntries host exe root rest (s, t) = (r, (s, (tr ++ new)%list))
        /\ Forall (fun e => is_probe e = true) new
        /\ (forall p, r = Ok (Some p) ->
              p <> "" /\ fs_existsSync host s p = true /\ In (FsExistsSync p) new
              /\ exists e0, In e0 (e :: rest)
                            /\ statIsDir host s (path_join host root e0) = true
                            /\ p = path_join host (path_join host root e0) exe)).
    { intros t n0 F0 ->. destruct (IH ((tr ++ [FsStatSync (path_join host root e)]) ++ n0)%list)
        as (r & n2 & E2 & F2 & H2).
      exists r, (FsStatSync (path_join host root e) :: n0 ++ n2)%list.
      rewrite E2, <- !app_assoc. split; [reflexivity | split].
      - constructor; [reflexivity |]. by apply Forall_app.
      - intros p Hp. destruct (H2 p Hp) as (Hne & Hex & Hin & e' & He' & Hd & Hp').
        split; [exact Hne |]. split; [exact Hex |]. split.
        + right. apply in_or_app. by right.
        + exists e'. split; [by right | done]. }
    destruct (fs_statSync_isDirectory host s (path_join host root e)) as [[|]|m] eqn:Es.
    + destruct (checkDirectory_sound exe (path_join host root e) s
                  (tr ++ [FsStatSync (path_join host root e)])%list)
        as (o & n1 & E1 & F1 & H1).
      unfold bind at 1. rewrite E1.
      destruct o as [d|]; cbn [JS.truthy_opt].
      * destruct (JS.truthy d) eqn:Et.
        -- unfold ret. rewrite <- app_assoc. eexists _, _.
           split; [reflexivity | split; [by constructor |]].
           intros p [= <-]. destruct (H1 d eq_refl) as (Hd & Hex & Hin).
           split; [by apply truthy_true |]. split; [exact Hex |]. split; [by right |].
           exists e. split; [by left |]. split; [| exact Hd].
           unfold statIsDir. by rewrite Es.
        -- by apply (Hrest _ n1).
      * by apply (Hrest _ n1).
    + apply (Hrest _ []); [constructor | by rewrite app_nil_r].
    + eexists _, _. split; [reflexivity | split; [repeat constructor | discriminate]].
Qed.

Lemma searchChildren_sound exe root s tr :
  exists o new,
    searchChildren host exe root (s, tr) = (Ok o, (s, (tr ++ new)%list))
    /\ Forall (fun e => is_search e = true) new
    /\ (forall p, o = Some p ->
          p <> "" /\ fs_existsSync host s p = true /\ In (FsExistsSync p) new
          /\ exists e, In e (listing host s root)
                       /\ statIsDir host s (path_join host root e) = true
                       /\ p = path_join host (path_join host root e) exe).
Proof.
  unfold searchChildren, try_catch, bind at 1, readdirSync, ask_result. cbn [fst snd].
  unfold listing. destruct (fs_readdirSync host s root) as [entries|m].
  - unfold bind at 1, core_debug at 1, emit. cbn [fst snd].
    match goal with
    | |- context [scanEntries host exe root entries (s, ?t)] =>
        destruct (scanEntries_sound exe root entries s t) as (r & n & E & F & H)
    end.
    rewrite E. destruct r as [o|m'].
    + rewrite <- !app_assoc. eexists _, _. split; [reflexivity | split].
      * repeat (constructor; [reflexivity |]). by apply is_probe_is_search.
      * intros p ->. destruct (H p eq_refl) as (Hne & Hex & Hin & He).
        split; [exact Hne |]. split; [exact Hex |]. split; [| exact He].
        right. right. exact Hin.
    + unfold bind, core_warning, emit, ret. cbn [fst snd]. rewrite <- !app_assoc.
      eexists _, _. split; [reflexivity | split; [| discriminate]].
      repeat (constructor; [reflexivity |]). apply Forall_app. split.
      * by apply is_probe_is_search.
      * repeat constructor.
  - unfold bind, core_warning, emit, ret. cbn [fst snd]. rewrite <- !app_assoc.
    eexists _, _. split; [reflexivity | split; [repeat constructor | discriminate]].
Qed.

(** The statements of [findExecutable] after the direct probe. *)
Lemma findExecutable_rest_sound exe root s tr :
  exists p new,
    (found <- searchChildren host exe root ;;
     match found with
     | Some execPath => ret execPath
     | None =>
         core_warning ("Executable not found: " +:+ exe +:+ " in directory: " +:+ root) ;;
         ret ""
     end) (s, tr) = (Ok p, (s, (tr ++ new)%list))
    /\ Forall (fun e => is_search e = true) new
    /\ (p <> "" ->
        fs_existsSync host s p = true /\ In (FsExistsSync p) new
        /\ at_depth_0_or_1 s root exe p).
Proof.
  destruct (searchChildren_sound exe root s tr) as (o & n & E & F & H).
  unfold bind at 1. rewrite E. destruct o as [p|].
  - unfold ret. eexists _, _. split; [reflexivity | split; [exact F |]].
    intros _. destruct (H p eq_refl) as (_ & Hex & Hin & He).
    split; [exact Hex |]. split; [exact Hin | by right].
  - unfold bind, core_warning, emit, ret. cbn [fst snd]. rewrite <- app_assoc.
    eexists _, _. split; [reflexivity | split].
    + apply Forall_app. split; [exact F | repeat constructor].
    + done.
Qed.

(** [findExecutable], whatever the file system answers. *)
Lemma findExecutable_probe (root : string) (s : St) (tr : list Event) :
  exists p new,
    findExecutable host root (s, tr) = (Ok p, (s, (tr ++ new)%list))
    /\ Forall (fun e => is_search e = true) new
    /\ (p <> "" ->
        fs_existsSync host s p = true
        /\ In (FsExistsSync p) new
        /\ at_depth_0_or_1 s root ("task" +:+ EXE_EXTENSION host) p).
Proof.
  set (exe := "task" +:+ EXE_EXTENSION host).
  unfold findExecutable, bind at 1, core_debug at 1, emit. cbn [fst snd]. fold exe.
  unfold bind at 1.
  match goal with
  | |- context [checkDirectory host exe root (s, ?t)] =>
      destruct (checkDirectory_sound exe root s t) as (o & n1 & E1 & F1 & H1)
  end.
  rewrite E1.
  assert (Hrest : exists p new,
    (found <- searchChildren host exe root ;;
     match found with
     | Some execPath => ret execPath
     | None =>
         core_warning ("Executable not found: " +:+ exe +:+ " in directory: " +:+ root) ;;
         ret ""
     end)
      (s, ((tr ++ [CoreLog LDebug ("Searching for executable: " +:+ exe
                                   +:+ " in directory: " +:+ root)]) ++ n1)%list)
    = (Ok p, (s, (tr ++ new)%list))
    /\ Forall (fun e => is_search e = true) new
    /\ (p <> "" ->
        fs_existsSync host s p = true /\ In (FsExistsSync p) new
        /\ at_depth_0_or_1 s root exe p)).
  { match goal with
    | |- context [(s, ?t)] =>
        destruct (findExecutable_rest_sound exe root s t) as (p & n2 & E2 & F2 & H2)
    end.
    exists p. eexists. rewrite E2, <- !app_assoc. split; [reflexivity | split].
    - constructor; [reflexivity |]. apply Forall_app. split; [| exact F2].
      by apply is_probe_is_search.
    - intros Hp. destruct (H2 Hp) as (Hex & Hin & Hd).
      split; [exact Hex |]. split; [| exact Hd].
      apply in_or_app. right. apply in_or_app. by right. }
  destruct o as [d|]; cbn [JS.truthy_opt]; [| exact Hrest].
  destruct (JS.truthy d) eqn:Et; [| exact Hrest].
  unfold ret. cbn [default]. rewrite <- app_assoc. eexists _, _.
  split; [reflexivity | split].
  - constructor; [reflexivity |]. by apply is_probe_is_search.
  - intros _. destruct (H1 d eq_refl) as (Hd & Hex & Hin).
    split; [exact Hex |]. split; [by right | by left].
Qed.

(** X5.  [findExecutable] never throws and leaves the machine as it found it;
    the path it returns, when not empty, existed when it was probed and
    lies directly inside the root or inside a listed directory of it; the
    caller fails exactly when the path is empty. *)
Theorem findExecutable_sound (root : string) (s : St) (tr : list Event) :
  exists p new,
    findExecutable host root (s, tr) = (Ok p, (s, (tr ++ new)%list))
    /\ Forall (fun e => is_search e = true) new
    /\ (p <> "" ->
        fs_existsSync host s p = true
        /\ In (FsExistsSync p) new
        /\ at_depth_0_or_1 s root ("task" +:+ EXE_EXTENSION host) p)
    /\ locateExecutable host root (s, tr) =
       (if String.eqb p ""
        then Throw ("Executable not found in extracted directory: " +:+ root)
        else Ok p,
        (s, (tr ++ new)%list)).
Proof.
  destruct (findExecutable_probe root s tr) as (p & new & E & F & H).
  exists p, new. split; [exact E |]. split; [exact F |]. split; [exact H |].
  unfold locateExecutable, bind. rewrite E. unfold JS.truthy.
  destruct (String.eqb p ""); reflexivity.
Qed.

End Search.

Lemma append_assoc (a b c : string) : (a +:+ b) +:+ c = a +:+ (b +:+ c).
Proof.
  induction a as [|x a IH]; [reflexivity |]. exact (f_equal (String x) IH).
Qed.

Lemma length_append (a b : string) :
  String.length (a +:+ b) = String.length a + String.length b.
Proof.
  induction a as [|x a IH]; [reflexivity |]. exact (f_equal S IH).
Qed.

(** A suffix no longer than [b] ends [a +:+ b] exactly when it ends
    [b]. *)
Lemma endsWith_append_long (a b p : string) :
  String.length p <= String.length b ->
  JS.endsWith (a +:+ b) p = JS.endsWith b p.
Proof.
  intros Hlen. induction a as [|c a IH]; [reflexivity |].
  change (JS.endsWith (String c a +:+ b) p)
    with (String.eqb (String c (a +:+ b)) p || JS.endsWith (a +:+ b) p).
  rewrite IH.
  destruct (String.eqb_spec (String c (a +:+ b)) p) as [E|E]; [| reflexivity].
  exfalso. apply (f_equal String.length) in E. cbn [String.length] in E.
  rewrite length_append in E. lia.
Qed.

Definition not_chmod (e : Event) : bool :=
  match e with
  | FsChmodSync _ _ => false
  | _ => true
  end.

Section MonadInversion.

Context {St : Type}.

Lemma bind_Ok_inv {A B} (c : M St A) (k : A -> M St B) st b st' :
  bind c k st = (Ok b, st') ->
  exists a st1, c st = (Ok a, st1) /\ k a st1 = (Ok b, st').
Proof.
  unfold bind. destruct (c st) as [[a|m] st1]; [| discriminate].
  intros H. by exists a, st1.
Qed.

Lemma emits_only_elim {A} P (c : M St A) s tr r s' tr' :
  emits_only P c -> c (s, tr) = (r, (s', tr')) ->
  exists new, tr' = (tr ++ new)%list /\ Forall (fun e => P e = true) new.
Proof.
  intros Hc E. destruct (Hc s tr) as (new & En & F). rewrite E in En.
  exists new. by split.
Qed.

End MonadInversion.

Section Installer.

Context {St : Type} (host : Host St).

Lemma emits_only_fetchLatestRelease P token :
  (forall url headers, P (HttpFetch url headers) = true) ->
  emits_only P (fetchLatestRelease host token).
Proof.
  intros HP. unfold fetchLatestRelease, fetch.
  apply emits_only_try_catch; [| intros; emits].
  apply emits_only_bind; [apply emits_only_call, HP | intros resp].
  emits.
Qed.

Lemma emits_only_resolveVersion P options :
  (forall url headers, P (HttpFetch url headers) = true) ->
  (forall lvl msg, P (CoreLog lvl msg) = true) ->
  emits_only P (resolveVersion host options).
Proof.
  intros HP HL. unfold resolveVersion, core_info, core_error.
  destruct (String.eqb _ _); [| emits].
  apply emits_only_bind; [apply emits_only_emit, HL | intros _].
  apply emits_only_try_catch.
  - apply emits_only_bind; [by apply emits_only_fetchLatestRelease | intros v].
    apply emits_only_bind; [apply emits_only_emit, HL | intros _]. emits.
  - intros m. apply emits_only_bind; [apply emits_only_emit, HL | intros _]. emits.
Qed.

Lemma emits_only_getDownloadUrl P version :
  (forall msg, P (CoreSetFailed msg) = true) ->
  emits_only P (getDownloadUrl host version).
Proof.
  intros HP. unfold getDownloadUrl, getPlatform, getArchitecture, logAndFail, core_setFailed.
  apply emits_only_bind.
  - destruct (negb _); [| emits].
    apply emits_only_bind; [apply emits_only_emit, HP | intros _]. emits.
  - intros p. apply emits_only_bind; [| intros; emits].
    destruct (negb _); [| emits].
    apply emits_only_bind; [apply emits_only_emit, HP | intros _]. emits.
Qed.

Lemma emits_only_extractArchive url dl :
  emits_only not_chmod (extractArchive host url dl).
Proof. unfold extractArchive, extractZip, extractTar. emits. Qed.

Lemma emits_only_findExecutable root : emits_only is_search (findExecutable host root).
Proof.
  intros s tr. destruct (findExecutable_probe host root s tr) as (p & new & E & F & _).
  exists new. rewrite E. by split.
Qed.

(** X6.  The archive is extracted by its platform: on a supported platform
    the URL ends in ".zip" on win32 and in ".tar.gz" elsewhere, so
    [extractArchive] takes the zip extractor on win32 and the tar
    extractor elsewhere, never the unsupported-format error; a failure
    of the extractor is thrown with the prefix "Extraction failed". *)
Theorem extractArchive_by_platform (v o a dl : string) (s : St) (tr : list Event) :
  OS_MAPPING !! process_platform host = Some o ->
  ARCH_MAPPING !! process_arch host = Some a ->
  exists url,
    getDownloadUrl host v (s, tr) = (Ok url, (s, tr))
    /\ extractArchive host url dl (s, tr) =
       (let r := if String.eqb (process_platform host) "win32"
                 then toolCache_extractZip host s dl
                 else toolCache_extractTar host s dl in
        (match fst r with
         | Ok root => Ok root
         | Throw m => Throw ("Extraction failed. Error: " +:+ m)
         end,
         (snd r,
          (tr ++ [if String.eqb (process_platform host) "win32"
                  then ExtractZip dl else ExtractTar dl])%list))).
Proof.
  intros Ho Ha. eexists. split; [by apply getDownloadUrl_supported |].
  unfold extractArchive, try_catch, extractZip, extractTar, call. cbn zeta.
  destruct (String.eqb (process_platform host) "win32").
  - change ("." +:+ "zip") with ".zip". rewrite <- !append_assoc.
    rewrite (endsWith_append_long _ ".zip" ".zip") by (simpl; lia).
    cbn [JS.endsWith String.eqb Ascii.eqb Bool.eqb orb andb fst snd].
    destruct (toolCache_extractZip host s dl) as [[root|m] s1]; reflexivity.
  - change ("." +:+ "tar.gz") with ".tar.gz". rewrite <- !append_assoc.
    rewrite (endsWith_append_long _ ".tar.gz" ".zip") by (simpl; lia).
    rewrite (endsWith_append_long _ ".tar.gz" ".tar.gz") by (simpl; lia).
    cbn [JS.endsWith String.eqb Ascii.eqb Bool.eqb orb andb fst snd].
    destruct (toolCache_extractTar host s dl) as [[root|m] s1]; reflexivity.
Qed.

End Installer.

Lemma extractArchive_by_platform_witness :
  exists url,
    getDownloadUrl Demo.windows "3.43.1" (tt, []) = (Ok url, (tt, []))
    /\ extractArchive Demo.windows url "/tmp/download" (tt, []) =
       (Ok "/tmp/extracted", (tt, [ExtractZip "/tmp/download"])).
Proof.
  exact (extractArchive_by_platform Demo.windows "3.43.1" "windows" "amd64"
           "/tmp/download" tt [] eq_refl eq_refl).
Defined.

Section InstallerOutcomes.

Context {St : Type} (host : Host St).

(** X7.  A failure of [installTask] is always reported: the message thrown is
    the cause with a fixed prefix, and the last two events are the error
    line with the cause and [setFailed] with the message thrown. *)
Theorem installTask_failure_reported (options : TaskOptions) (s s' : St)
    (tr tr' : list Event) (msg : string) :
  installTask host options (s, tr) = (Throw msg, (s', tr')) ->
  exists cause pre,
    msg = "Installation process terminated. Error: " +:+ cause
    /\ tr' = (pre ++ [CoreLog LError ("Task installation failed. Error: " +:+ cause);
                      CoreSetFailed msg])%list.
Proof.
  rewrite installTask_run.
  destruct (installBody host options _) as [[p|m] [s1 tr1]]; [discriminate |].
  intros [= <- <- <-]. by exists m, tr1.
Qed.

Lemma emit_Ok_inv (e : Event) (st st' : St * list Event) (u : unit) :
  emit e st = (Ok u, st') -> st' = (fst st, (snd st ++ [e])%list).
Proof. unfold emit. by intros [= <-]. Qed.

(** X8.  A path returned by [installTask] is not empty, was probed and found
    to exist, and comes after one download; on win32 no mode is changed,
    elsewhere exactly one is: the path is given mode 755. *)
Theorem installTask_success (options : TaskOptions) (s s' : St)
    (tr tr' : list Event) (p : string) :
  installTask host options (s, tr) = (Ok p, (s', tr')) ->
  p <> ""
  /\ exists new,
       tr' = (tr ++ new)%list
       /\ In (FsExistsSync p) new
       /\ (exists url, In (DownloadTool url) new)
       /\ (if String.eqb (process_platform host) "win32"
           then Forall (fun e => not_chmod e = true) new
           else exists pre post,
                  new = (pre ++ FsChmodSync p "755" :: post)%list
                  /\ Forall (fun e => not_chmod e = true) pre
                  /\ Forall (fun e => not_chmod e = true) post).
Proof.
  rewrite installTask_run.
  destruct (installBody host options _) as [[q|m] [s1 tr1]] eqn:E; [| discriminate].
  intros [= -> -> ->]. unfold installBody in E.
  apply bind_Ok_inv in E as (v & [sa ta] & E1 & E).
  apply bind_Ok_inv in E as (url & [sb tb] & E2 & E).
  apply bind_Ok_inv in E as ([] & [sc tc] & E3 & E).
  apply bind_Ok_inv in E as (dl & [sd td] & E4 & E).
  apply bind_Ok_inv in E as ([] & [se te] & E5 & E).
  apply bind_Ok_inv in E as (root & [sf tf] & E6 & E).
  apply bind_Ok_inv in E as ([] & [sg tg] & E7 & E).
  apply bind_Ok_inv in E as (taskPath & [sh th] & E8 & E).
  apply bind_Ok_inv in E as ([] & [si ti] & E9 & E).
  apply bind_Ok_inv in E as ([] & [sj tj] & E10 & E).
  unfold ret in E. injection E as <- <- <-.
  eapply emits_only_elim in E1 as (n1 & -> & F1);
    [| by apply (emits_only_resolveVersion host not_chmod)].
  eapply emits_only_elim in E2 as (n2 & -> & F2);
    [| by apply (emits_only_getDownloadUrl host not_chmod)].
  apply emit_Ok_inv in E3. cbn [fst snd] in E3. injection E3 as -> ->.
  unfold downloadTool, call in E4. cbn [fst snd] in E4. injection E4 as _ <- <-.
  apply emit_Ok_inv in E5. cbn [fst snd] in E5. injection E5 as -> ->.
  eapply emits_only_elim in E6 as (n6 & -> & F6); [| apply emits_only_extractArchive].
  apply emit_Ok_inv in E7. cbn [fst snd] in E7. injection E7 as -> ->.
  (* the executable *)
  unfold locateExecutable in E8.
  apply bind_Ok_inv in E8 as (found & [sx tx] & E8 & E8').
  match type of E8 with
  | findExecutable _ _ (?S, ?T) = _ =>
      destruct (findExecutable_probe host root S T) as (p' & n8 & Ef & F8 & H8)
  end.
  rewrite Ef in E8. injection E8 as <- <- <-.
  destruct (JS.truthy p') eqn:Et; [| discriminate]. cbn [negb] in E8'.
  unfold ret in E8'. injection E8' as <- <- <-.
  apply truthy_true in Et. destruct (H8 Et) as (_ & Hin & _).
  apply emit_Ok_inv in E10. cbn [fst snd] in E10. injection E10 as -> ->.
  assert (F8' : Forall (fun e => not_chmod e = true) n8).
  { eapply Forall_impl; [exact F8 |].
    intros e. destruct e; simpl; congruence. }
  split; [exact Et |].
  destruct (String.eqb (process_platform host) "win32"); cbn [negb] in E9.
  - unfold ret in E9. injection E9 as <- <-.
    rewrite <- !app_assoc. eexists. split; [reflexivity |]. split; [| split].
    + cbn. right. apply in_or_app. right. apply in_or_app. right.
      cbn. do 3 right. apply in_or_app. right. cbn. right.
      apply in_or_app. left. exact Hin.
    + exists url. cbn. right. apply in_or_app. right. apply in_or_app. right.
      cbn. right. by left.
    + cbn. constructor; [reflexivity |]. apply Forall_app. split; [exact F1 |].
      apply Forall_app. split; [exact F2 |].
      repeat (constructor; [reflexivity |]). apply Forall_app. split; [exact F6 |].
      constructor; [reflexivity |]. apply Forall_app. split; [exact F8' |].
      repeat constructor.
  - apply bind_Ok_inv in E9 as ([] & [sy ty] & E9 & E9').
    unfold chmodSync, call in E9. cbn [fst snd] in E9. injection E9 as _ Hsy Hty.
    subst sy ty.
    apply emit_Ok_inv in E9'. cbn [fst snd] in E9'. injection E9' as Hsi Hti.
    subst si ti.
    rewrite <- !app_assoc. eexists. split; [reflexivity |]. split; [| split].
    + cbn. right. apply in_or_app. right. apply in_or_app. right.
      cbn. do 3 right. apply in_or_app. right. cbn. right.
      apply in_or_app. left. exact Hin.
    + exists url. cbn. right. apply in_or_app. right. apply in_or_app. right.
      cbn. right. by left.
    + exists ([CoreLog LInfo "Starting Task installation process..."] ++ n1 ++ n2
              ++ [CoreLog LInfo ("Preparing to download Task from URL: " +:+ url);
                  DownloadTool url;
                  CoreLog LDebug ("Task downloaded successfully to: " +:+ dl)]
              ++ n6 ++ [CoreLog LDebug ("Task archive extracted to: " +:+ root)] ++ n8)%list.
      eexists. split; [| split].
      * rewrite <- !app_assoc. cbn. reflexivity.
      * cbn. constructor; [reflexivity |]. apply Forall_app. split; [exact F1 |].
        apply Forall_app. split; [exact F2 |].
        repeat (constructor; [reflexivity |]). apply Forall_app. split; [exact F6 |].
        constructor; [reflexivity |]. exact F8'.
      * repeat constructor.
Qed.

End InstallerOutcomes.

Definition pinned_3_43_1 : TaskOptions :=
  {| version := "3.43.1"; skipCache := true; githubToken := "" |}.

Lemma installTask_failure_reported_witness :
  exists cause pre,
    "Installation process terminated. Error: Unsupported platform: freebsd"
    = "Installation process terminated. Error: " +:+ cause
    /\ events_of (installTask Demo.freebsd pinned_3_43_1 (tt, []))
       = (pre ++ [CoreLog LError ("Task installation failed. Error: " +:+ cause);
                  CoreSetFailed
                    "Installation process terminated. Error: Unsupported platform: freebsd"])%list.
Proof.
  exact (installTask_failure_reported Demo.freebsd pinned_3_43_1 tt tt [] _ _ eq_refl).
Defined.

Lemma installTask_success_witness :
  "/tmp/extracted/task_linux_amd64/task" <> ""
  /\ exists new,
       events_of (installTask nested_archive pinned_3_43_1 (tt, [])) = ([] ++ new)%list
       /\ In (FsExistsSync "/tmp/extracted/task_linux_amd64/task") new
       /\ (exists url, In (DownloadTool url) new)
       /\ exists pre post,
            new = (pre ++ FsChmodSync "/tmp/extracted/task_linux_amd64/task" "755" :: post)%list
            /\ Forall (fun e => not_chmod e = true) pre
            /\ Forall (fun e => not_chmod e = true) post.
Proof.
  exact (installTask_success nested_archive pinned_3_43_1 tt tt [] _ _ eq_refl).
Defined.

(** ** The explicit version in the download *)

(** Every event but the two that ask a server for Task: the request of
    the release index and the download of the archive. *)
Definition no_request (e : Event) : bool :=
  match e with
  | HttpFetch _ _ | DownloadTool _ => false
  | _ => true
  end.

Section ExplicitVersion.

Context {St : Type} (host : Host St).

Lemma emits_only_locateExecutable root :
  emits_only no_request (locateExecutable host root).
Proof.
  unfold locateExecutable. apply emits_only_bind; [| intros p; emits].
  apply (emits_only_weaken is_search); [| apply emits_only_findExecutable].
  intros e. destruct e; simpl; congruence.
Qed.

(** [installTask] for an explicit version on a supported platform: the
    version goes into the URL as it is, the archive at that URL is the one
    downloaded, and nothing else is asked of a server. *)
Lemma installTask_explicit (options : TaskOptions) (o a : string)
    (s : St) (tr : list Event) :
  version options <> "latest" ->
  OS_MAPPING !! process_platform host = Some o ->
  ARCH_MAPPING !! process_arch host = Some a ->
  exists r s' rest,
    installTask host options (s, tr) =
    (r, (s', (tr ++ [CoreLog LInfo "Starting Task installation process...";
                     CoreLog LInfo
                       ("Preparing to download Task from URL: "
                        +:+ (RELEASES_URL +:+ "/v" +:+ version options +:+ "/task_"
                             +:+ o +:+ "_" +:+ a +:+ "."
                             +:+ (if String.eqb (process_platform host) "win32"
                                  then "zip" else "tar.gz")));
                     DownloadTool
                       (RELEASES_URL +:+ "/v" +:+ version options +:+ "/task_"
                        +:+ o +:+ "_" +:+ a +:+ "."
                        +:+ (if String.eqb (process_platform host) "win32"
                             then "zip" else "tar.gz"))]
              ++ rest)%list))
    /\ Forall (fun e => no_request e = true) rest.
Proof.
  intros Hv Ho Ha. rewrite installTask_run. unfold installBody.
  unfold bind at 1. rewrite (resolveVersion_explicit host options _ Hv).
  unfold bind at 1. rewrite (getDownloadUrl_supported host _ o a _ Ho Ha).
  set (url := RELEASES_URL +:+ "/v" +:+ version options +:+ "/task_" +:+ o +:+ "_"
              +:+ a +:+ "."
              +:+ (if String.eqb (process_platform host) "win32" then "zip" else "tar.gz")).
  unfold bind at 1, core_info at 1, emit. cbn [fst snd].
  unfold bind at 1, downloadTool, call. cbn [fst snd].
  destruct (toolCache_downloadTool host s url) as [[dl|m] s1]; cbn [fst snd].
  - match goal with
    | |- context [bind ?c ?k (s1, ?T)] =>
        assert (Hrest : emits_only no_request (bind c k));
          [| destruct (Hrest s1 T) as (n & E & F);
             destruct (bind c k (s1, T)) as [[p|m] [s2 t2]];
             cbn [fst snd] in E; subst t2 ]
    end.
    + unfold core_debug, core_info, chmodSync.
      apply emits_only_bind; [emits | intros _].
      apply emits_only_bind; [| intros root].
      { unfold extractArchive, extractZip, extractTar. emits. }
      apply emits_only_bind; [emits | intros _].
      apply emits_only_bind; [apply emits_only_locateExecutable | intros p].
      emits.
    + exists (Ok p), s2, n. rewrite <- !app_assoc. by split.
    + eexists _, s2, _. rewrite <- !app_assoc. split; [reflexivity |].
      apply Forall_app. split; [exact F | repeat constructor].
  - eexists _, s1, _. rewrite <- !app_assoc. split; [reflexivity | repeat constructor].
Qed.

End ExplicitVersion.

(** C1.  An explicit version [v] (neither empty nor ["latest"]), given as
    the [version] input with no version file, is the version of the
    options, unchanged; [installTask] resolves it to [v] without asking
    the release index and without removing a leading "v", and on a
    supported platform the URL it builds carries [v] verbatim after the
    fixed "/v": whatever the machine, [installTask] on these options
    starts by downloading the archive at exactly that URL, and asks no
    server for anything else. *)
Theorem explicit_version_verbatim {St : Type} (host : Host St)
    (v o a : string) (s : St) (tr : list Event) :
  core_getInput host "version-from-file" = "" ->
  core_getInput host "version" = v ->
  v <> "" ->
  v <> "latest" ->
  OS_MAPPING !! process_platform host = Some o ->
  ARCH_MAPPING !! process_arch host = Some a ->
  exists options new,
    getTaskOptions host (s, tr) = (Ok options, (s, (tr ++ new)%list))
    /\ Forall (fun e => is_debug e = true) new
    /\ version options = v
    /\ (forall st, resolveVersion host options st = (Ok v, st))
    /\ (forall st, getDownloadUrl host v st =
          (Ok (RELEASES_URL +:+ "/v" +:+ v +:+ "/task_" +:+ o +:+ "_" +:+ a +:+ "."
               +:+ (if String.eqb (process_platform host) "win32"
                    then "zip" else "tar.gz")), st))
    /\ (forall s1 tr1, exists r s2 rest,
          installTask host options (s1, tr1) =
          (r, (s2, (tr1 ++ [CoreLog LInfo "Starting Task installation process...";
                            CoreLog LInfo
                              ("Preparing to download Task from URL: "
                               +:+ (RELEASES_URL +:+ "/v" +:+ v +:+ "/task_"
                                    +:+ o +:+ "_" +:+ a +:+ "."
                                    +:+ (if String.eqb (process_platform host) "win32"
                                         then "zip" else "tar.gz")));
                            DownloadTool
                              (RELEASES_URL +:+ "/v" +:+ v +:+ "/task_"
                               +:+ o +:+ "_" +:+ a +:+ "."
                               +:+ (if String.eqb (process_platform host) "win32"
                                    then "zip" else "tar.gz"))]
                     ++ rest)%list))
          /\ Forall (fun e => no_request e = true) rest).
Proof.
  intros Hvf Hvi Hne Hlatest Ho Ha.
  destruct (explicit_version_options host v o a s tr Hvf Hvi Hne Hlatest Ho Ha)
    as (options & new & E & F & Hv & Hres & Hurl).
  exists options, new. repeat (split; [assumption |]).
  intros s1 tr1. rewrite <- Hv in Hlatest.
  destruct (installTask_explicit host options o a s1 tr1 Hlatest Ho Ha)
    as (r & s2 & rest & Ei & Fi).
  rewrite Hv in Ei. by exists r, s2, rest.
Qed.

(** The input [version: v3.43.1] on linux/x64: the archive is asked for
    under [vv3.43.1]. *)
Definition explicit_v3_43_1 : Host unit :=
  Demo.linux (<["version" := "v3.43.1"]> ∅) ∅.

Lemma explicit_version_verbatim_witness :
  exists options new,
    getTaskOptions explicit_v3_43_1 (tt, []) = (Ok options, (tt, ([] ++ new)%list))
    /\ Forall (fun e => is_debug e = true) new
    /\ version options = "v3.43.1"
    /\ (forall st, resolveVersion explicit_v3_43_1 options st = (Ok "v3.43.1", st))
    /\ (forall st, getDownloadUrl explicit_v3_43_1 "v3.43.1" st =
          (Ok "https://github.com/go-task/task/releases/download/vv3.43.1/task_linux_amd64.tar.gz",
           st))
    /\ (forall s1 tr1, exists r s2 rest,
          installTask explicit_v3_43_1 options (s1, tr1) =
          (r, (s2, (tr1 ++ [CoreLog LInfo "Starting Task installation process...";
                            CoreLog LInfo
                              "Preparing to download Task from URL: https://github.com/go-task/task/releases/download/vv3.43.1/task_linux_amd64.tar.gz";
                            DownloadTool
                              "https://github.com/go-task/task/releases/download/vv3.43.1/task_linux_amd64.tar.gz"]
                     ++ rest)%list))
          /\ Forall (fun e => no_request e = true) rest).
Proof.
  exact (explicit_version_verbatim explicit_v3_43_1 "v3.43.1" "linux" "amd64" tt []
           eq_refl eq_refl ltac:(discriminate) ltac:(discriminate) eq_refl eq_refl).
Defined.

(** The same run, event by event: the extracted archive of this machine is
    empty, so the installation ends with the executable-not-found error
    after the download under [vv3.43.1]. *)
Example explicit_v_prefix_download :
  events_of
    (installTask explicit_v3_43_1
       {| version := "v3.43.1"; skipCache := false; githubToken := "" |} (tt, [])) =
  [CoreLog LInfo "Starting Task installation process...";
   CoreLog LInfo
     "Preparing to download Task from URL: https://github.com/go-task/task/releases/download/vv3.43.1/task_linux_amd64.tar.gz";
   DownloadTool
     "https://github.com/go-task/task/releases/download/vv3.43.1/task_linux_amd64.tar.gz";
   CoreLog LDebug "Task downloaded successfully to: /tmp/download";
   ExtractTar "/tmp/download";
   CoreLog LDebug "Task archive extracted to: /tmp/extracted";
   CoreLog LDebug "Searching for executable: task in directory: /tmp/extracted";
   FsExistsSync "/tmp/extracted/task";
   FsReaddirSync "/tmp/extracted";
   CoreLog LWarning
     "Error encountered while searching for executable. Error: ENOENT: no such file or directory '/tmp/extracted'";
   CoreLog LWarning "Executable not found: task in directory: /tmp/extracted";
   CoreLog LError
     "Task installation failed. Error: Executable not found in extracted directory: /tmp/extracted";
   CoreSetFailed
     "Installation process terminated. Error: Executable not found in extracted directory: /tmp/extracted"].
Proof. reflexivity. Qed.

Section LatestRelease.

Context {St : Type} (host : Host St).

(** X9.  When the request of the release index itself fails, [installTask]
    fails with the fixed advice to pin a version: the cause is written to
    the error log only, and nothing is downloaded. *)
Theorem latest_lookup_failure_is_generic (options : TaskOptions) (s s1 : St)
    (tr : list Event) (cause : string) :
  version options = "latest" ->
  http_fetch host s (RELEASES_API_URL +:+ "/latest") (request_headers (githubToken options))
    = (Throw cause, s1) ->
  installTask host options (s, tr) =
  (Throw ("Installation process terminated. Error: " +:+ UNABLE_TO_RETRIEVE),
   (s1,
    (tr ++ [CoreLog LInfo "Starting Task installation process...";
            CoreLog LInfo "Retrieving latest version of Task...";
            HttpFetch (RELEASES_API_URL +:+ "/latest") (request_headers (githubToken options));
            CoreLog LError ("Failed to retrieve the latest version: "
                            +:+ FETCH_FAILED_PREFIX +:+ cause);
            CoreLog LError ("Task installation failed. Error: " +:+ UNABLE_TO_RETRIEVE);
            CoreSetFailed ("Installation process terminated. Error: "
                           +:+ UNABLE_TO_RETRIEVE)])%list)).
Proof.
  intros Hv Hf. rewrite installTask_run.
  unfold installBody, bind at 1, resolveVersion. rewrite Hv. cbn [String.eqb Ascii.eqb Bool.eqb].
  unfold bind at 1, core_info at 1, emit. cbn [fst snd].
  unfold try_catch at 1, bind at 1.
  unfold fetchLatestRelease, request_headers in *.
  unfold try_catch at 1, bind at 1, fetch, call. cbn [fst snd]. rewrite Hf. cbn [fst snd].
  unfold throw at 1. unfold bind, core_error, emit, throw. cbn [fst snd].
  rewrite <- !app_assoc. reflexivity.
Qed.

(** X10.  For the request "latest" and a tag that begins with "v", the
    download URL carries the tag as it is: the "v" that
    [cleanVersionFromTag] removes is the one [getDownloadUrl] puts
    back. *)
Theorem latest_url_carries_tag (options : TaskOptions) (s s1 : St) (tr : list Event)
    (resp : Response) (t o a : string) :
  version options = "latest" ->
  http_fetch host s (RELEASES_API_URL +:+ "/latest") (request_headers (githubToken options))
    = (Ok resp, s1) ->
  resp_ok resp = true ->
  resp_json resp = Ok (Some {| tag_name := Some t |}) ->
  JS.startsWith t "v" = true ->
  OS_MAPPING !! process_platform host = Some o ->
  ARCH_MAPPING !! process_arch host = Some a ->
  result_of ((version <- resolveVersion host options ;; getDownloadUrl host version) (s, tr))
  = Ok (RELEASES_URL +:+ "/" +:+ t +:+ "/task_" +:+ o +:+ "_" +:+ a +:+ "."
        +:+ (if String.eqb (process_platform host) "win32" then "zip" else "tar.gz")).
Proof.
  intros Hv Hf Hok Hj Ht Ho Ha.
  unfold bind at 1, resolveVersion. rewrite Hv. cbn [String.eqb Ascii.eqb Bool.eqb].
  unfold bind at 1, core_info at 1, emit. cbn [fst snd].
  unfold try_catch at 1, bind at 1.
  unfold fetchLatestRelease, request_headers in *.
  unfold try_catch at 1, bind at 1, fetch, call. cbn [fst snd]. rewrite Hf. cbn [fst snd].
  unfold bind at 1. rewrite Hok. cbn [negb]. unfold ret at 1, bind at 1, await.
  rewrite Hj. cbn [JS.truthy_opt tag_name default].
  destruct t as [|c t]; [discriminate Ht |].
  rewrite startsWith_cons in Ht. apply andb_true_iff in Ht as [Hc _].
  apply Ascii.eqb_eq in Hc. subst c.
  change (JS.truthy (String "v" t)) with true. cbn iota.
  unfold ret at 1. unfold bind at 1, core_info at 1, emit, ret at 1. cbn [fst snd].
  rewrite (getDownloadUrl_supported host _ o a _ Ho Ha).
  unfold cleanVersionFromTag, id.
  rewrite startsWith_cons, Ascii.eqb_refl, startsWith_nil.
  reflexivity.
Qed.

End LatestRelease.

Lemma latest_lookup_failure_is_generic_witness :
  installTask (Demo.linux ∅ ∅)
    {| version := "latest"; skipCache := true; githubToken := "" |} (tt, []) =
  (Throw ("Installation process terminated. Error: " +:+ UNABLE_TO_RETRIEVE),
   (tt,
    ([] ++ [CoreLog LInfo "Starting Task installation process...";
            CoreLog LInfo "Retrieving latest version of Task...";
            HttpFetch (RELEASES_API_URL +:+ "/latest") [];
            CoreLog LError ("Failed to retrieve the latest version: "
                            +:+ FETCH_FAILED_PREFIX +:+ "fetch failed");
            CoreLog LError ("Task installation failed. Error: " +:+ UNABLE_TO_RETRIEVE);
            CoreSetFailed ("Installation process terminated. Error: "
                           +:+ UNABLE_TO_RETRIEVE)])%list)).
Proof.
  exact (latest_lookup_failure_is_generic (Demo.linux ∅ ∅)
           {| version := "latest"; skipCache := true; githubToken := "" |}
           tt tt [] "fetch failed" eq_refl eq_refl).
Defined.

Lemma latest_url_carries_tag_witness :
  let host := Demo.host "linux" "x64" ∅ ∅ ∅ (Demo.release_tagged "v3.43.1")
                (Ok None) (Ok tt) Demo.absent in
  let options := {| version := "latest"; skipCache := true; githubToken := "" |} in
  result_of ((version <- resolveVersion host options ;; getDownloadUrl host version) (tt, []))
  = Ok "https://github.com/go-task/task/releases/download/v3.43.1/task_linux_amd64.tar.gz".
Proof.
  exact (latest_url_carries_tag
           (Demo.host "linux" "x64" ∅ ∅ ∅ (Demo.release_tagged "v3.43.1")
              (Ok None) (Ok tt) Demo.absent)
           {| version := "latest"; skipCache := true; githubToken := "" |}
           tt tt [] _ "v3.43.1" "linux" "amd64"
           eq_refl eq_refl eq_refl eq_refl eq_refl eq_refl eq_refl).
Defined.

(** ** The cache, beyond its failures *)

Lemma list_ascii_of_string_append (a b : string) :
  list_ascii_of_string (a +:+ b)
  = (list_ascii_of_string a ++ list_ascii_of_string b)%list.
Proof.
  induction a as [|c a IH]; [reflexivity |].
  exact (f_equal (cons c) IH).
Qed.

Lemma append_inv_tail (a b s : string) : a +:+ s = b +:+ s -> a = b.
Proof.
  intros H. apply (f_equal list_ascii_of_string) in H.
  rewrite !list_ascii_of_string_append in H. apply app_inv_tail in H.
  apply (f_equal string_of_list_ascii) in H.
  by rewrite !string_of_list_ascii_of_string in H.
Qed.

Section CacheUse.

Context {St : Type} (host : Host St).

(** X11.  On one machine two versions never share a cache key. *)
Theorem getCacheKey_injective (v1 v2 : string) :
  getCacheKey host v1 = getCacheKey host v2 -> v1 = v2.
Proof.
  unfold getCacheKey. intros H. apply append_inv_head in H.
  by apply append_inv_tail in H.
Qed.

(** X12.  With [skipCache] set, [restoreOrInstall] is [installTask]: the same
    outcome, the same machine and the same events, so the cache is
    neither consulted nor filled. *)
Theorem restoreOrInstall_skip_cache (options : TaskOptions) (st : St * list Event) :
  skipCache options = true ->
  restoreOrInstall host options st = installTask host options st.
Proof.
  intros Hskip. unfold restoreOrInstall. rewrite Hskip. cbn [negb].
  unfold bind at 1, ret at 1. unfold bind at 1.
  destruct (installTask host options st) as [[p|m] st']; reflexivity.
Qed.

(** The events of a cache hit that holds the executable. *)
Definition hit_events (version : string) : list Event :=
  [CoreLog LDebug ("Looking for Task " +:+ version +:+ " in cache with key "
                   +:+ getCacheKey host version);
   CacheRestore [getCacheDirectory host] (getCacheKey host version);
   CoreLog LInfo ("Task " +:+ version +:+ " found in cache");
   FsExistsSync (cachedTaskPath host);
   CoreLog LDebug ("Verified Task exists at " +:+ cachedTaskPath host)]
  ++ (if String.eqb (process_platform host) "win32" then []
      else [FsChmodSync (cachedTaskPath host) "755"]).

(** X13.  On a cache hit that holds the executable, [restoreOrInstall] returns
    the cached path, given mode 755 off win32, and does nothing else: no
    release is looked up, nothing is downloaded, extracted or saved. *)
Theorem restoreOrInstall_cache_hit (options : TaskOptions) (s s1 s2 : St)
    (tr : list Event) (k : string) :
  skipCache options = false ->
  cache_restoreCache host s [getCacheDirectory host] (getCacheKey host (version options))
    = (Ok (Some k), s1) ->
  k <> "" ->
  fs_existsSync host s1 (cachedTaskPath host) = true ->
  cachedTaskPath host <> "" ->
  (if String.eqb (process_platform host) "win32" then (Ok tt, s1)
   else fs_chmodSync host s1 (cachedTaskPath host) "755") = (Ok tt, s2) ->
  restoreOrInstall host options (s, tr) =
  (Ok (cachedTaskPath host), (s2, (tr ++ hit_events (version options))%list)).
Proof.
  intros Hskip Hhit Hk Hex Hne Hch. unfold cachedTaskPath, hit_events in *.
  apply truthy_true in Hk, Hne.
  unfold restoreOrInstall. rewrite Hskip. cbn [negb].
  unfold bind at 1. unfold bind at 1.
  unfold restoreCache, try_catch, bind, core_debug, core_info, core_warning,
    cache_restore, existsSync, chmodSync, emit, ask, call, ret.
  cbn [fst snd]. rewrite Hhit. cbn [fst snd JS.truthy_opt]. rewrite Hk. cbn [negb fst snd].
  rewrite Hex. cbn [negb fst snd].
  destruct (String.eqb (process_platform host) "win32"); cbn [negb fst snd].
  - injection Hch as <-. rewrite Hne. rewrite <- !app_assoc. reflexivity.
  - rewrite Hch. cbn [fst snd]. rewrite Hne. rewrite <- !app_assoc. reflexivity.
Qed.

(** X14.  On a plain miss nothing is warned about, and [restoreOrInstall] is
    [installTask] followed by [saveCache] of the installed path under the
    version that was looked up. *)
Theorem restoreOrInstall_cache_miss (options : TaskOptions) (s s1 : St)
    (tr : list Event) :
  skipCache options = false ->
  cache_restoreCache host s [getCacheDirectory host] (getCacheKey host (version options))
    = (Ok None, s1) ->
  restoreOrInstall host options (s, tr) =
  (installedPath <- installTask host options ;;
   saveCache host installedPath (version options) ;;
   ret installedPath)
    (s1,
     (tr ++ [CoreLog LDebug ("Looking for Task " +:+ version options
                             +:+ " in cache with key "
                             +:+ getCacheKey host (version options));
             CacheRestore [getCacheDirectory host] (getCacheKey host (version options));
             CoreLog LDebug ("Task " +:+ version options +:+ " not found in cache")])%list).
Proof.
  intros Hskip Hmiss. unfold restoreOrInstall. rewrite Hskip. cbn [negb].
  unfold bind at 1. unfold bind at 1.
  unfold restoreCache, try_catch, bind at 1, core_debug at 1, emit. cbn [fst snd].
  unfold bind at 1, cache_restore, call. cbn [fst snd]. rewrite Hmiss.
  cbn [fst snd JS.truthy_opt negb].
  unfold bind at 1, core_debug at 1, emit, ret at 1. cbn [fst snd].
  unfold ret at 1. cbn [JS.truthy String.eqb negb]. rewrite <- !app_assoc. reflexivity.
Qed.

(** X15.  When every step of [saveCache] succeeds, it makes the cache
    directory, copies the executable in unless it is already there, and
    saves the directory under the key that [restoreCache] looks up:
    whatever happens next, the first request of [restoreCache] for the
    same version names the same directory and the same key. *)
Theorem saveCache_success (taskPath version : string) (s s1 s2 s3 : St)
    (tr : list Event) :
  fs_mkdirSync host s (getCacheDirectory host) = (Ok tt, s1) ->
  (if String.eqb taskPath (cachedTaskPath host) then (Ok tt, s1)
   else fs_copyFileSync host s1 taskPath (cachedTaskPath host)) = (Ok tt, s2) ->
  cache_saveCache host s2 [getCacheDirectory host] (getCacheKey host version) = (Ok tt, s3) ->
  saveCache host taskPath version (s, tr) =
  (Ok tt,
   (s3,
    (tr ++ [CoreLog LDebug ("Saving Task " +:+ version +:+ " to cache with key "
                            +:+ getCacheKey host version);
            FsMkdirSync (getCacheDirectory host)]
        ++ (if String.eqb taskPath (cachedTaskPath host) then []
            else [CoreLog LDebug ("Copying " +:+ taskPath +:+ " to " +:+ cachedTaskPath host);
                  FsCopyFileSync taskPath (cachedTaskPath host)])
        ++ [CacheSave [getCacheDirectory host] (getCacheKey host version);
            CoreLog LInfo ("Task " +:+ version +:+ " saved to cache")])%list))
  /\ (forall s0 tr0, exists r s' new,
        restoreCache host version (s0, tr0) =
        (r, (s', (tr0 ++ [CoreLog LDebug ("Looking for Task " +:+ version
                                          +:+ " in cache with key "
                                          +:+ getCacheKey host version);
                          CacheRestore [getCacheDirectory host] (getCacheKey host version)]
                  ++ new)%list))).
Proof.
  unfold cachedTaskPath. intros Hmk Hcp Hsave. split.
  - unfold saveCache, try_catch, bind, core_debug, core_info, core_warning,
      cache_save, mkdirSync, copyFileSync, emit, call, ret.
    cbn [fst snd]. rewrite Hmk. cbn [fst snd].
    destruct (String.eqb taskPath _); cbn [negb fst snd].
    + injection Hcp as <-. rewrite Hsave. cbn [fst snd]. rewrite <- !app_assoc. reflexivity.
    + rewrite Hcp. cbn [fst snd]. rewrite Hsave. cbn [fst snd].
      rewrite <- !app_assoc. reflexivity.
  - intros s0 tr0.
    unfold restoreCache, try_catch, bind, core_debug, core_info, core_warning,
      cache_restore, existsSync, chmodSync, emit, ask, call, ret.
    cbn [fst snd].
    destruct (cache_restoreCache host s0 _ _) as [[hit|m] sa]; cbn [fst snd].
    + destruct (JS.truthy_opt hit); cbn [negb fst snd].
      * destruct (fs_existsSync host sa _); cbn [negb fst snd].
        -- destruct (String.eqb (process_platform host) "win32"); cbn [negb fst snd].
           ++ rewrite <- !app_assoc. eexists _, _, _. reflexivity.
           ++ destruct (fs_chmodSync host sa _ "755") as [[[]|m] sb]; cbn [fst snd];
                rewrite <- !app_assoc; eexists _, _, _; reflexivity.
        -- rewrite <- !app_assoc. eexists _, _, _. reflexivity.
      * rewrite <- !app_assoc. eexists _, _, _. reflexivity.
    + rewrite <- !app_assoc. eexists _, _, _. reflexivity.
Qed.

End CacheUse.

Lemma getCacheKey_injective_witness : "3.43.1" = "3.43.1".
Proof. exact (getCacheKey_injective (Demo.linux ∅ ∅) "3.43.1" "3.43.1" eq_refl). Defined.

Lemma restoreOrInstall_skip_cache_witness :
  restoreOrInstall nested_archive pinned_3_43_1 (tt, [])
  = installTask nested_archive pinned_3_43_1 (tt, []).
Proof. exact (restoreOrInstall_skip_cache nested_archive pinned_3_43_1 (tt, []) eq_refl). Defined.

(** A machine whose cache holds the executable of 3.43.1. *)
Definition warm_cache : Host unit :=
  Demo.host "linux" "x64" ∅ (<["/tmp/task-runner/task" := "ELF"]> ∅) ∅ Demo.offline
    (Ok (Some "task-runner-3.43.1-linux-x64")) (Ok tt) Demo.absent.

Definition cached_3_43_1 : TaskOptions :=
  {| version := "3.43.1"; skipCache := false; githubToken := "" |}.

Lemma warm_cache_path_nonempty : cachedTaskPath warm_cache <> "".
Proof. discriminate. Defined.

Lemma warm_cache_key_nonempty : "task-runner-3.43.1-linux-x64" <> "".
Proof. discriminate. Defined.

Lemma restoreOrInstall_cache_hit_witness :
  restoreOrInstall warm_cache cached_3_43_1 (tt, []) =
  (Ok "/tmp/task-runner/task",
   (tt, [CoreLog LDebug "Looking for Task 3.43.1 in cache with key task-runner-3.43.1-linux-x64";
         CacheRestore ["/tmp/task-runner"] "task-runner-3.43.1-linux-x64";
         CoreLog LInfo "Task 3.43.1 found in cache";
         FsExistsSync "/tmp/task-runner/task";
         CoreLog LDebug "Verified Task exists at /tmp/task-runner/task";
         FsChmodSync "/tmp/task-runner/task" "755"])).
Proof.
  exact (restoreOrInstall_cache_hit warm_cache cached_3_43_1 tt tt tt [] _
           eq_refl eq_refl warm_cache_key_nonempty eq_refl warm_cache_path_nonempty eq_refl).
Defined.

Lemma restoreOrInstall_cache_miss_witness :
  restoreOrInstall (Demo.linux ∅ ∅) cached_3_43_1 (tt, []) =
  (installedPath <- installTask (Demo.linux ∅ ∅) cached_3_43_1 ;;
   saveCache (Demo.linux ∅ ∅) installedPath "3.43.1" ;;
   ret installedPath)
    (tt,
     [CoreLog LDebug "Looking for Task 3.43.1 in cache with key task-runner-3.43.1-linux-x64";
      CacheRestore ["/tmp/task-runner"] "task-runner-3.43.1-linux-x64";
      CoreLog LDebug "Task 3.43.1 not found in cache"]).
Proof.
  exact (restoreOrInstall_cache_miss (Demo.linux ∅ ∅) cached_3_43_1 tt tt [] eq_refl eq_refl).
Defined.

Lemma saveCache_success_witness :
  saveCache (Demo.linux ∅ ∅) "/tmp/extracted/task" "3.43.1" (tt, []) =
  (Ok tt,
   (tt, [CoreLog LDebug "Saving Task 3.43.1 to cache with key task-runner-3.43.1-linux-x64";
         FsMkdirSync "/tmp/task-runner";
         CoreLog LDebug "Copying /tmp/extracted/task to /tmp/task-runner/task";
         FsCopyFileSync "/tmp/extracted/task" "/tmp/task-runner/task";
         CacheSave ["/tmp/task-runner"] "task-runner-3.43.1-linux-x64";
         CoreLog LInfo "Task 3.43.1 saved to cache"]))
  /\ (forall s0 tr0, exists r s' new,
        restoreCache (Demo.linux ∅ ∅) "3.43.1" (s0, tr0) =
        (r, (s', (tr0 ++ [CoreLog LDebug
                            "Looking for Task 3.43.1 in cache with key task-runner-3.43.1-linux-x64";
                          CacheRestore ["/tmp/task-runner"] "task-runner-3.43.1-linux-x64"]
                  ++ new)%list))).
Proof.
  exact (saveCache_success (Demo.linux ∅ ∅) "/tmp/extracted/task" "3.43.1" tt tt tt tt []
           eq_refl eq_refl eq_refl).
Defined.

(** ** The entry point *)

(** The events of a run that installs nothing: log lines, outputs, the
    read of the version file, the export of the variables and the
    processes that are started. *)
Definition is_fast_path (e : Event) : bool :=
  match e with
  | CoreLog _ _ | CoreSetFailed _ | CoreSetOutput _ _ | CoreAddPath _
  | ExportVars _ | FsReadFileSync _ | ExecExec _ _ | ExecGetOutput _ _ => true
  | _ => false
  end.

Lemma is_debug_is_fast_path new :
  Forall (fun e => is_debug e = true) new -> Forall (fun e => is_fast_path e = true) new.
Proof.
  intros F. eapply Forall_impl; [exact F |].
  intros e. destruct e as [lvl msg| | | | | | | | | | | | | | | | | | | ];
    try destruct lvl; simpl; congruence.
Qed.

Definition SUCCESS_LINE : Event := CoreLog LInfo "Task setup completed successfully! 🎉".

Section EntryPoint.

Context {St : Type} (host : Host St).

(** [getTaskOptions] leaves the machine as it is; it reads at most the
    version file. *)
Lemma getTaskOptions_reads_only s tr :
  exists r new,
    getTaskOptions host (s, tr) = (r, (s, (tr ++ new)%list))
    /\ Forall (fun e => is_fast_path e = true) new.
Proof.
  destruct (getTaskOptions_run host s tr) as (n1 & F1 & E1). rewrite E1.
  apply is_debug_is_fast_path in F1.
  destruct (_ && _ && _).
  - unfold bind, throw. eexists _, _. split; [reflexivity | exact F1].
  - unfold bind at 1, ret at 1. unfold bind at 1, chooseVersion.
    destruct (JS.truthy (core_getInput host "version-from-file")).
    + unfold try_catch, bind at 1, readFileSync, ask_result. cbn [fst snd].
      destruct (fs_readFileSync host s _) as [content|m].
      * destruct (JS.truthy content).
        -- match goal with
           | |- context [logger_debug host ?msg] =>
               destruct (logs_only_logger_debug host msg s
                           ((tr ++ n1) ++ [FsReadFileSync
                                             (core_getInput host "version-from-file")])%list)
                 as (n2 & E2 & F2)
           end.
           unfold bind at 1. rewrite E2. unfold ret. rewrite <- !app_assoc.
           eexists _, _. split; [reflexivity |]. apply Forall_app. split; [exact F1 |].
           constructor; [reflexivity | by apply is_debug_is_fast_path].
        -- unfold ret. rewrite <- !app_assoc. eexists _, _. split; [reflexivity |].
           apply Forall_app. split; [exact F1 | repeat constructor].
      * unfold throw. rewrite <- !app_assoc. eexists _, _. split; [reflexivity |].
        apply Forall_app. split; [exact F1 | repeat constructor].
    + destruct (JS.truthy (core_getInput host "version")).
      * match goal with
        | |- context [logger_debug host ?msg] =>
            destruct (logs_only_logger_debug host msg s (tr ++ n1)%list) as (n2 & E2 & F2)
        end.
        unfold bind at 1. rewrite E2. unfold ret. rewrite <- !app_assoc.
        eexists _, _. split; [reflexivity |]. apply Forall_app. split; [exact F1 |].
        by apply is_debug_is_fast_path.
      * unfold ret. eexists _, _. split; [reflexivity | exact F1].
Qed.

Lemma emits_only_logger_debug P msg :
  (forall lvl m, P (CoreLog lvl m) = true) -> emits_only P (logger_debug host msg).
Proof.
  intros HL. unfold logger_debug, core_debug. destruct (isVerbose host); [| emits].
  apply emits_only_emit, HL.
Qed.

Lemma emits_only_verifyInstallation :
  emits_only is_fast_path (verifyInstallation host).
Proof.
  unfold verifyInstallation, logger_info, logger_error, core_info, core_error,
    exec_getExecOutput, exec_exec.
  emits.
Qed.

(** X16.  A version read from a file begins and ends with no white space. *)
Theorem version_from_file_is_trimmed (s : St) (tr : list Event)
    (options : TaskOptions) (st1 : St * list Event) :
  core_getInput host "version-from-file" <> "" ->
  getTaskOptions host (s, tr) = (Ok options, st1) ->
  JS.trim (version options) = version options
  /\ starts_clean (version options).
Proof.
  intros Hvf Hopt.
  apply getTaskOptions_Ok in Hopt as (tr' & st0 & Hch & _).
  apply chooseVersion_Ok in Hch as [(Hvf' & _)|[(Hvf' & _)|(_ & content & _ & Hc)]];
    [done | done |].
  destruct Hc as [[_ ->]|[_ ->]]; [split; [reflexivity | reflexivity] |].
  split; [apply trim_idempotent |].
  unfold JS.trim. apply trimEnd_starts_clean, trimStart_starts_clean.
Qed.

(** X17.  A version file that cannot be read is fatal: [getTaskOptions] throws
    the cause with the name of the file, and [run] reports it without
    looking for Task. *)
Theorem version_file_unreadable (s : St) (tr : list Event) (cause : string) :
  core_getInput host "version-from-file" <> "" ->
  core_getInput host "version" = "" \/ core_getInput host "version" = "latest" ->
  fs_readFileSync host s (core_getInput host "version-from-file") = Throw cause ->
  exists new,
    run host (s, tr) =
    (Ok tt,
     (s, (tr ++ new
          ++ [FsReadFileSync (core_getInput host "version-from-file");
              CoreSetFailed ("Task setup failed: Failed to read version from file "
                             +:+ core_getInput host "version-from-file"
                             +:+ ": " +:+ cause)])%list))
    /\ Forall (fun e => is_log e = true) new.
Proof.
  intros Hvf Hvi Hread.
  unfold run, try_catch, bind at 1, logger_info at 1, core_info, emit. cbn [fst snd].
  unfold bind at 1.
  destruct (getTaskOptions_run host s (tr ++ [CoreLog LInfo "Setting up Task..."])%list)
    as (n1 & F1 & E1).
  rewrite E1.
  assert (Hc : JS.truthy (core_getInput host "version-from-file")
               && JS.truthy (core_getInput host "version")
               && negb (String.eqb (core_getInput host "version") "latest") = false)
    by (destruct Hvi as [->| ->]; by rewrite andb_false_r).
  rewrite Hc. unfold bind at 1, ret at 1. unfold bind at 1, chooseVersion.
  apply truthy_true in Hvf. rewrite Hvf.
  unfold try_catch, bind at 1, readFileSync, ask_result. cbn [fst snd]. rewrite Hread.
  unfold throw, logger_setFailed, core_setFailed, emit. cbn [fst snd].
  rewrite <- !app_assoc. exists (CoreLog LInfo "Setting up Task..." :: n1).
  split; [reflexivity |]. constructor; [reflexivity | by apply is_debug_is_log].
Qed.

(** X18.  When Task cannot be found or run, [verifyInstallation] throws the
    cause behind "Task verification failed: " and writes it to the error
    log; when it cannot be found, it is not run. *)
Theorem verification_lookup_failure (s s1 : St) (tr : list Event) (cause : string) :
  exec_run host s "which" ["task"] = (Throw cause, s1) ->
  verifyInstallation host (s, tr) =
  (Throw ("Task verification failed: " +:+ cause),
   (s1, (tr ++ [CoreLog LInfo "Verifying Task installation...";
                ExecGetOutput "which" ["task"];
                CoreLog LError ("Task verification error: " +:+ cause)])%list)).
Proof.
  intros Hwhich.
  unfold verifyInstallation, try_catch, bind, logger_info, logger_error, core_info,
    core_error, exec_getExecOutput, exec_exec, emit, call, ret, throw.
  cbn [fst snd]. rewrite Hwhich. cbn [fst snd]. rewrite <- !app_assoc. reflexivity.
Qed.

End EntryPoint.

Section Run.

Context {St : Type} (host : Host St).

(** X19.  [run] never throws, and its last event tells how it went: the line
    of success, or one report of failure that carries the cause. *)
Theorem run_ends_with_verdict (s : St) (tr : list Event) :
  exists s' tr',
    run host (s, tr) = (Ok tt, (s', tr'))
    /\ (last tr' = Some SUCCESS_LINE
        \/ exists cause, last tr' = Some (CoreSetFailed ("Task setup failed: " +:+ cause))).
Proof.
  unfold run, try_catch.
  match goal with
  | |- context [match ?body (s, tr) with _ => _ end] =>
      destruct (body (s, tr)) as [[[]|m] [s' tr']] eqn:E
  end.
  - exists s', tr'. split; [reflexivity |]. left.
    apply bind_Ok_inv in E as (? & ? & _ & E).
    apply bind_Ok_inv in E as (? & ? & _ & E).
    apply bind_Ok_inv in E as (? & ? & _ & E).
    apply bind_Ok_inv in E as (? & ? & _ & E).
    apply bind_Ok_inv in E as (? & ? & _ & E).
    apply bind_Ok_inv in E as (? & ? & _ & E).
    apply bind_Ok_inv in E as (? & ? & _ & E).
    apply bind_Ok_inv in E as (? & st8 & _ & E).
    unfold logger_info, core_info in E. apply emit_Ok_inv in E.
    injection E as -> ->. apply last_snoc.
  - unfold logger_setFailed, core_setFailed, emit. cbn [fst snd].
    eexists _, _. split; [reflexivity |]. right. exists m. apply last_snoc.
Qed.

(** When [which task] succeeds, [isTaskInstalled] answers [true]. *)
Lemma isTaskInstalled_found {A} (k : bool -> M St A) (s0 s1 : St) (t : list Event)
    (out : string) :
  exec_run host s0 "which" ["task"] = (Ok out, s1) ->
  exists n,
    Forall (fun e => is_fast_path e = true) n
    /\ bind (isTaskInstalled host) k (s0, t) = k true (s1, (t ++ n)%list).
Proof.
  intros Hwhich. unfold bind at 1, isTaskInstalled.
  destruct (logs_only_logger_debug host "Checking if Task is already installed..." s0 t)
    as (n3 & E3 & F3).
  unfold bind at 1. rewrite E3.
  unfold try_catch, bind at 1, exec_exec at 1, call. cbn [fst snd]. rewrite Hwhich.
  cbn [fst snd]. unfold bind at 1, logger_info at 1, core_info at 1, emit, ret at 1.
  cbn [fst snd]. rewrite <- !app_assoc. eexists. split; [| reflexivity].
  apply Forall_app. split; [by apply is_debug_is_fast_path | repeat constructor].
Qed.

(** What [run] does with a path it has: it exports it and verifies
    it. *)
Lemma emits_only_export_and_verify (c : M St string) :
  emits_only is_fast_path c ->
  emits_only is_fast_path
    (taskPath <- c ;;
     let taskDir := path_dirname host taskPath in
     logger_addPath host taskDir ;;
     logger_setOutput "task-path" taskPath ;;
     verifyInstallation host ;;
     logger_info "Task setup completed successfully! 🎉").
Proof.
  intros Hc. unfold logger_info, logger_addPath, logger_setOutput,
    core_info, core_addPath, core_setOutput.
  apply emits_only_bind; [exact Hc |]. intros taskPath.
  apply emits_only_bind; [emits |]. intros _.
  apply emits_only_bind; [emits |]. intros _.
  apply emits_only_bind; [apply emits_only_verifyInstallation |]. intros _.
  emits.
Qed.

(** X20.  When Task is already on the search path, [run] installs nothing: it
    never throws, and beyond log lines and outputs it only reads the
    version file, exports the variables and starts processes; no request
    is sent, no cache is consulted, no file is written, whatever version
    was asked for. *)
Theorem run_already_installed (s s1 : St) (tr : list Event) (out : string) :
  exec_run host
    (if JS.truthy (core_getInput host "vars")
     then exportVars_st host s (core_getInput host "vars") else s)
    "which" ["task"] = (Ok out, s1) ->
  exists s2 new,
    run host (s, tr) = (Ok tt, (s2, (tr ++ new)%list))
    /\ Forall (fun e => is_fast_path e = true) new.
Proof.
  intros Hwhich.
  unfold run, try_catch, bind at 1, logger_info at 1, core_info, emit. cbn [fst snd].
  unfold bind at 1.
  destruct (getTaskOptions_reads_only host s
              (tr ++ [CoreLog LInfo "Setting up Task..."])%list) as (r & n1 & E1 & F1).
  rewrite E1. destruct r as [options|m].
  - unfold bind at 1, logger_getInput.
    assert (Hrest : emits_only is_fast_path
      (taskPath <-
         (stdout <- exec_getExecOutput host "which" ["task"] ;;
          let taskPath := JS.trim stdout in
          logger_info ("Using existing Task installation at: " +:+ taskPath) ;;
          ret taskPath) ;;
       let taskDir := path_dirname host taskPath in
       logger_addPath host taskDir ;;
       logger_setOutput "task-path" taskPath ;;
       verifyInstallation host ;;
       logger_info "Task setup completed successfully! 🎉")).
    { apply emits_only_export_and_verify.
      unfold exec_getExecOutput, logger_info, core_info. emits. }
    destruct (JS.truthy (core_getInput host "vars"));
      [unfold processEnvVars, update | unfold ret at 1]; cbn [fst snd];
      (match goal with
       | |- context [bind (isTaskInstalled host) ?k (?s0, ?t)] =>
           destruct (isTaskInstalled_found k s0 s1 t out Hwhich) as (n3 & F3 & E3)
       end;
       rewrite E3; cbn [negb];
       match goal with
       | |- context [(s1, ?t)] => destruct (Hrest s1 t) as (n4 & E4 & F4)
       end;
       match goal with
       | |- context [match ?c (s1, ?t) with _ => _ end] =>
           destruct (c (s1, t)) as [[[]|m] [s2 t2]]
       end; cbn [fst snd] in E4; subst t2;
       unfold logger_setFailed, core_setFailed, emit; cbn [fst snd];
       rewrite <- !app_assoc; eexists _, _; (split; [reflexivity |]);
       repeat first
         [ assumption
         | apply List.Forall_nil
         | apply List.Forall_cons; [reflexivity |]
         | apply Forall_app; split ]).
  - unfold logger_setFailed, core_setFailed, emit. cbn [fst snd].
    rewrite <- !app_assoc. eexists _, _. split; [reflexivity |].
    constructor; [reflexivity |]. apply Forall_app. split; [exact F1 |].
    repeat constructor.
Qed.

End Run.

(** A version file padded with blanks and ended by a line feed. *)
Definition padded_version_file : Host unit :=
  Demo.linux (<["version-from-file" := ".task-version"]> ∅)
    (<[".task-version" := "  v3.42.0 " +:+ LF]> ∅).

Lemma padded_version_file_set :
  core_getInput padded_version_file "version-from-file" <> "".
Proof. discriminate. Defined.

Lemma version_from_file_is_trimmed_witness :
  JS.trim "v3.42.0" = "v3.42.0" /\ starts_clean "v3.42.0".
Proof.
  exact (version_from_file_is_trimmed padded_version_file tt []
           {| version := "v3.42.0"; skipCache := false; githubToken := "" |} _
           padded_version_file_set eq_refl).
Defined.

(** The version file is named and does not exist. *)
Definition missing_version_file : Host unit :=
  Demo.linux (<["version-from-file" := ".task-version"]> ∅) ∅.

Lemma missing_version_file_set :
  core_getInput missing_version_file "version-from-file" <> "".
Proof. discriminate. Defined.

Lemma version_file_unreadable_witness :
  exists new,
    run missing_version_file (tt, []) =
    (Ok tt,
     (tt, ([] ++ new
           ++ [FsReadFileSync ".task-version";
               CoreSetFailed "Task setup failed: Failed to read version from file .task-version: ENOENT: no such file or directory '.task-version'"])%list))
    /\ Forall (fun e => is_log e = true) new.
Proof.
  exact (version_file_unreadable missing_version_file tt []
           (Demo.enoent ".task-version") missing_version_file_set
           (or_introl eq_refl) eq_refl).
Defined.

Lemma verification_lookup_failure_witness :
  verifyInstallation (Demo.linux ∅ ∅) (tt, []) =
  (Throw "Task verification failed: not found",
   (tt, [CoreLog LInfo "Verifying Task installation...";
         ExecGetOutput "which" ["task"];
         CoreLog LError "Task verification error: not found"])).
Proof.
  exact (verification_lookup_failure (Demo.linux ∅ ∅) tt tt [] "not found" eq_refl).
Defined.

(** Task installed at /usr/local/bin/task, with a request for a pinned
    version and a cold cache. *)
Definition already_installed : Host unit :=
  Demo.host "linux" "x64" (<["version" := "3.0.0"]> ∅) ∅ ∅ Demo.offline (Ok None) (Ok tt)
    (fun cmd => if String.eqb cmd "which"
                then Ok ("/usr/local/bin/task" +:+ LF)
                else Ok ("Task version: v3.43.1" +:+ LF)).

Lemma run_already_installed_witness :
  exists s2 new,
    run already_installed (tt, []) = (Ok tt, (s2, ([] ++ new)%list))
    /\ Forall (fun e => is_fast_path e = true) new.
Proof.
  exact (run_already_installed already_installed tt tt []
           ("/usr/local/bin/task" +:+ LF) eq_refl).
Defined.

(** ** [copyDirRecursive] *)

Section CopyDir.

Context {St : Type} (host : Host St) (fsx : FsHost St).

(** X21.  A source that does not exist is refused before anything is read or
    written, whatever the destination. *)
Theorem copyDirRecursive_missing_source (fuel : nat) (src dest : string)
    (s : St) (tr : list Event) :
  fs_existsSync host s src = false ->
  copyDirRecursive host fsx fuel src dest (s, tr) =
  (Throw ("Source directory does not exist: " +:+ src),
   (s, (tr ++ [FsExistsSync src])%list)).
Proof.
  intros H. unfold copyDirRecursive, bind, existsSync, ask. cbn [fst snd].
  rewrite H. reflexivity.
Qed.

(** X22.  A source that is a file is copied to the destination, or into it
    under its own name when the destination is an existing directory,
    and is then given the mode of the source; the loop is not entered,
    so every fuel will do. *)
Theorem copyDirRecursive_file (fuel : nat) (src dest : string) (stats : Stats)
    (destIsDir : bool) (s s1 s2 s3 : St) (tr : list Event) :
  fs_existsSync host s src = true ->
  fs_statSync fsx s src = Ok stats ->
  stats_isFile stats = true ->
  (if fs_existsSync host s (path_dirname host dest) then (Ok tt, s)
   else fs_mkdirSync host s (path_dirname host dest)) = (Ok tt, s1) ->
  (if fs_existsSync host s1 dest
   then match fs_statSync fsx s1 dest with
        | Ok destStats => Ok (stats_isDirectory destStats)
        | Throw m => Throw m
        end
   else Ok false) = Ok destIsDir ->
  fs_copyFileSync host s1 src
    (if destIsDir then path_join host dest (path_basename fsx src) else dest)
    = (Ok tt, s2) ->
  fs_chmodSync_mode fsx s2
    (if destIsDir then path_join host dest (path_basename fsx src) else dest)
    (stats_mode stats) = (Ok tt, s3) ->
  exists pre,
    copyDirRecursive host fsx fuel src dest (s, tr) =
    (Ok (Some tt),
     (s3,
      (tr ++ pre
       ++ [FsCopyFileSync src
             (if destIsDir then path_join host dest (path_basename fsx src) else dest);
           FsChmodSync
             (if destIsDir then path_join host dest (path_basename fsx src) else dest)
             (pretty (stats_mode stats))])%list))
    /\ Forall (fun e => not_chmod e = true) pre
    /\ (forall a b, ~ In (FsCopyFileSync a b) pre).
Proof.
  intros Hex Hst Hfile Hmk Hdir Hcp Hch.
  unfold copyDirRecursive, bind at 1, existsSync at 1, ask. cbn [fst snd]. rewrite Hex.
  cbn [negb]. unfold bind at 1, statSync at 1, ask_result. cbn [fst snd]. rewrite Hst.
  rewrite Hfile. unfold bind at 1, ensureDir, bind at 1, existsSync at 1, ask.
  cbn [fst snd].
  destruct (fs_existsSync host s (path_dirname host dest)); cbn [negb].
  - injection Hmk as <-. unfold ret at 1.
    unfold bind at 1, existsSync at 1, ask. cbn [fst snd].
    destruct (fs_existsSync host s dest).
    + unfold bind at 1, bind at 1, statSync, ask_result. cbn [fst snd].
      destruct (fs_statSync fsx s dest) as [destStats|m]; [| discriminate Hdir].
      injection Hdir as <-. unfold ret at 1.
      unfold bind, copyFileSync, chmodSync_mode, call, ret. cbn [fst snd].
      rewrite Hcp. cbn [fst snd]. rewrite Hch. cbn [fst snd]. rewrite <- !app_assoc.
      eexists [_; _; _; _; _]. split; [reflexivity | split; [repeat constructor |]].
      intros a b Hin. cbn in Hin. intuition discriminate.
    + injection Hdir as <-. unfold bind at 1, ret at 1.
      unfold bind, copyFileSync, chmodSync_mode, call, ret. cbn [fst snd].
      rewrite Hcp. cbn [fst snd]. rewrite Hch. cbn [fst snd]. rewrite <- !app_assoc.
      eexists [_; _; _; _]. split; [reflexivity | split; [repeat constructor |]].
      intros a b Hin. cbn in Hin. intuition discriminate.
  - unfold mkdirSync, call. cbn [fst snd]. rewrite Hmk. cbn [fst snd].
    unfold bind at 1, existsSync at 1, ask. cbn [fst snd].
    destruct (fs_existsSync host s1 dest).
    + unfold bind at 1, bind at 1, statSync, ask_result. cbn [fst snd].
      destruct (fs_statSync fsx s1 dest) as [destStats|m]; [| discriminate Hdir].
      injection Hdir as <-. unfold ret at 1.
      unfold bind, copyFileSync, chmodSync_mode, call, ret. cbn [fst snd].
      rewrite Hcp. cbn [fst snd]. rewrite Hch. cbn [fst snd]. rewrite <- !app_assoc.
      eexists [_; _; _; _; _; _]. split; [reflexivity | split; [repeat constructor |]].
      intros a b Hin. cbn in Hin. intuition discriminate.
    + injection Hdir as <-. unfold bind at 1, ret at 1.
      unfold bind, copyFileSync, chmodSync_mode, call, ret. cbn [fst snd].
      rewrite Hcp. cbn [fst snd]. rewrite Hch. cbn [fst snd]. rewrite <- !app_assoc.
      eexists [_; _; _; _; _]. split; [reflexivity | split; [repeat constructor |]].
      intros a b Hin. cbn in Hin. intuition discriminate.
Qed.

End CopyDir.

Section CopyTree.

Context {St : Type} (host : Host St) (fsx : FsHost St).

(** The path reached from [root] by going down through [names]. *)
Definition descend (root : string) (names : list string) : string :=
  fold_left (path_join host) names root.

(** [a] under the source and [b] under the destination at the same
    relative place. *)
Definition mirrored (src dest a b : string) : Prop :=
  exists names, a = descend src names /\ b = descend dest names.

(** What a copy of the tree [src] to [dest] may do: read under [src],
    write under [dest], copy a file to the place that mirrors it. *)
Definition copy_event_ok (src dest : string) (e : Event) : Prop :=
  match e with
  | FsReaddirSync a | FsStatSync a => exists names, a = descend src names
  | FsExistsSync b | FsMkdirSync b | FsChmodSync b _ => exists names, b = descend dest names
  | FsCopyFileSync a b => mirrored src dest a b
  | _ => False
  end.

Lemma mirrored_join src dest a b name :
  mirrored src dest a b ->
  mirrored src dest (path_join host a name) (path_join host b name).
Proof.
  intros (names & -> & ->). exists (names ++ [name])%list.
  unfold descend. by rewrite !fold_left_app.
Qed.

Lemma ensureDir_ok src dest b s tr :
  (exists names, b = descend dest names) ->
  exists r s' new,
    ensureDir host b (s, tr) = (r, (s', (tr ++ new)%list))
    /\ Forall (copy_event_ok src dest) new.
Proof.
  intros Hb. unfold ensureDir, bind, existsSync, ask, mkdirSync, call, ret. cbn [fst snd].
  destruct (fs_existsSync host s b); cbn [negb fst snd].
  - eexists _, _, _. split; [reflexivity | by repeat constructor].
  - rewrite <- app_assoc. eexists _, _, _. split; [reflexivity | by repeat constructor].
Qed.

Lemma copyEntries_ok src dest cs cd entries queue s tr :
  mirrored src dest cs cd ->
  Forall (fun ab => mirrored src dest (fst ab) (snd ab)) queue ->
  exists r s' new,
    copyEntries host fsx cs cd entries queue (s, tr) = (r, (s', (tr ++ new)%list))
    /\ Forall (copy_event_ok src dest) new
    /\ (forall queue', r = Ok queue' ->
          Forall (fun ab => mirrored src dest (fst ab) (snd ab)) queue').
Proof.
  intros Hm. revert queue s tr. induction entries as [|entry rest IH]; intros queue s tr Hq.
  - exists (Ok queue), s, []. rewrite app_nil_r.
    split; [reflexivity | split; [constructor |]]. by intros ? [= <-].
  - cbn [copyEntries].
    pose proof (mirrored_join src dest cs cd (dirent_name entry) Hm) as Hme.
    assert (Hb : exists names, path_join host cd (dirent_name entry) = descend dest names)
      by (destruct Hme as (names & _ & E); by exists names).
    assert (Ha : exists names, path_join host cs (dirent_name entry) = descend src names)
      by (destruct Hme as (names & E & _); by exists names).
    destruct (dirent_isDirectory entry).
    + destruct (ensureDir_ok src dest _ s tr Hb) as (r1 & s1 & n1 & E1 & F1).
      unfold bind at 1. rewrite E1. destruct r1 as [[]|m].
      * destruct (IH (queue ++ [(path_join host cs (dirent_name entry),
                                 path_join host cd (dirent_name entry))])%list
                    s1 (tr ++ n1)%list) as (r & s' & n2 & E2 & F2 & H2).
        { apply Forall_app. split; [exact Hq | by repeat constructor]. }
        rewrite E2, <- app_assoc. eexists _, _, _.
        split; [reflexivity | split; [by apply Forall_app | exact H2]].
      * eexists _, _, _. split; [reflexivity | split; [exact F1 | discriminate]].
    + unfold bind at 1, copyFileSync, call. cbn [fst snd].
      destruct (fs_copyFileSync host s _ _) as [[[]|m] s1]; cbn [fst snd].
      * unfold bind at 1, statSync, ask_result. cbn [fst snd].
        destruct (fs_statSync fsx s1 _) as [stats|m]; cbn [fst snd].
        -- unfold bind at 1, chmodSync_mode, call. cbn [fst snd].
           destruct (fs_chmodSync_mode fsx s1 _ _) as [[[]|m] s2]; cbn [fst snd].
           ++ match goal with
              | |- context [copyEntries host fsx cs cd rest queue (s2, ?t)] =>
                  destruct (IH queue s2 t Hq) as (r & s' & n2 & E2 & F2 & H2)
              end.
              rewrite E2, <- !app_assoc. eexists _, _, _.
              split; [reflexivity | split; [| exact H2]].
              repeat (constructor; [done |]). exact F2.
           ++ rewrite <- !app_assoc. eexists _, _, _.
              split; [reflexivity | split; [by repeat constructor | discriminate]].
        -- rewrite <- !app_assoc. eexists _, _, _.
           split; [reflexivity | split; [by repeat constructor | discriminate]].
      * eexists _, _, _.
        split; [reflexivity | split; [by repeat constructor | discriminate]].
Qed.

Lemma copyLoop_ok src dest fuel queue s tr :
  Forall (fun ab => mirrored src dest (fst ab) (snd ab)) queue ->
  exists r s' new,
    copyLoop host fsx fuel queue (s, tr) = (r, (s', (tr ++ new)%list))
    /\ Forall (copy_event_ok src dest) new.
Proof.
  revert queue s tr. induction fuel as [|fuel IH]; intros queue s tr Hq.
  - destruct queue as [|[cs cd] queue].
    + exists (Ok (Some tt)), s, []. rewrite app_nil_r. split; [reflexivity | constructor].
    + exists (Ok None), s, []. rewrite app_nil_r. split; [reflexivity | constructor].
  - destruct queue as [|[cs cd] queue].
    + exists (Ok (Some tt)), s, []. rewrite app_nil_r. split; [reflexivity | constructor].
    + apply Forall_cons in Hq as [Hm Hq]. cbn [fst snd] in Hm.
      cbn [copyLoop]. unfold bind at 1, readdirSync_withFileTypes, ask_result.
      cbn [fst snd].
      assert (Ha : copy_event_ok src dest (FsReaddirSync cs))
        by (destruct Hm as (names & E & _); by exists names).
      destruct (fs_readdirSync_withFileTypes fsx s cs) as [entries|m].
      * destruct (copyEntries_ok src dest cs cd entries queue s
                    (tr ++ [FsReaddirSync cs])%list Hm Hq)
          as (r1 & s1 & n1 & E1 & F1 & H1).
        unfold bind at 1. rewrite E1. destruct r1 as [queue'|m].
        -- destruct (IH queue' s1 ((tr ++ [FsReaddirSync cs]) ++ n1)%list (H1 _ eq_refl))
             as (r & s' & n2 & E2 & F2).
           rewrite E2, <- !app_assoc. eexists _, _, _. split; [reflexivity |].
           constructor; [exact Ha |]. by apply Forall_app.
        -- rewrite <- !app_assoc. eexists _, _, _. split; [reflexivity |].
           by constructor.
      * eexists _, _, _. split; [reflexivity | by repeat constructor].
Qed.

(** X23.  Copying a directory keeps to the two trees: after the look at the
    source, every read is under the source, every write is under the
    destination, and every file is copied to the place under the
    destination that mirrors its place under the source. *)
Theorem copyDirRecursive_mirrors (fuel : nat) (src dest : string) (stats : Stats)
    (s : St) (tr : list Event) :
  fs_existsSync host s src = true ->
  fs_statSync fsx s src = Ok stats ->
  stats_isFile stats = false ->
  exists r s' new,
    copyDirRecursive host fsx fuel src dest (s, tr) =
    (r, (s', (tr ++ [FsExistsSync src; FsStatSync src] ++ new)%list))
    /\ Forall (copy_event_ok src dest) new.
Proof.
  intros Hex Hst Hfile.
  unfold copyDirRecursive, bind at 1, existsSync at 1, ask. cbn [fst snd]. rewrite Hex.
  cbn [negb]. unfold bind at 1, statSync at 1, ask_result. cbn [fst snd]. rewrite Hst.
  rewrite Hfile.
  assert (Hd : exists names, dest = descend dest names) by (by exists []).
  destruct (ensureDir_ok src dest dest s ((tr ++ [FsExistsSync src]) ++ [FsStatSync src])%list Hd)
    as (r1 & s1 & n1 & E1 & F1).
  unfold bind at 1. rewrite E1. destruct r1 as [[]|m].
  - destruct (copyLoop_ok src dest fuel [(src, dest)] s1
                ((((tr ++ [FsExistsSync src]) ++ [FsStatSync src]) ++ n1))%list)
      as (r & s' & n2 & E2 & F2).
    { constructor; [| constructor]. by exists []. }
    rewrite E2, <- !app_assoc. eexists _, _, _. split; [reflexivity |].
    by apply Forall_app.
  - rewrite <- !app_assoc. eexists _, _, _. split; [reflexivity | exact F1].
Qed.

(** Entries that are all files leave the queue as it is. *)
Lemma copyEntries_flat cs cd entries queue s tr :
  Forall (fun entry => dirent_isDirectory entry = false) entries ->
  forall queue' st', copyEntries host fsx cs cd entries queue (s, tr) = (Ok queue', st') ->
  queue' = queue.
Proof.
  intros Hflat. revert s tr. induction Hflat as [|entry rest He Hrest IH]; intros s tr queue' st'.
  - cbn [copyEntries]. unfold ret. by intros [= <- _].
  - cbn [copyEntries]. rewrite He. intros H.
    apply bind_Ok_inv in H as (? & [s1 t1] & _ & H).
    apply bind_Ok_inv in H as (? & [s2 t2] & _ & H).
    apply bind_Ok_inv in H as (? & [s3 t3] & _ & H).
    by apply IH in H.
Qed.

(** X24.  A directory that lists no sub-directory is copied in one turn of the
    loop: with any fuel but zero the copy never stops for lack of it. *)
Theorem copyLoop_flat_directory (fuel : nat) (src dest : string) (entries : list Dirent)
    (s : St) (tr : list Event) :
  fs_readdirSync_withFileTypes fsx s src = Ok entries ->
  Forall (fun entry => dirent_isDirectory entry = false) entries ->
  result_of (copyLoop host fsx (S fuel) [(src, dest)] (s, tr)) <> Ok None.
Proof.
  intros Hread Hflat. cbn [copyLoop].
  unfold bind at 1, readdirSync_withFileTypes, ask_result. cbn [fst snd]. rewrite Hread.
  unfold bind.
  destruct (copyEntries host fsx src dest entries [] (s, (tr ++ [FsReaddirSync src])%list))
    as [[queue'|m] st'] eqn:E; [| discriminate].
  apply (copyEntries_flat _ _ _ _ _ _ Hflat) in E. subst queue'.
  destruct fuel; discriminate.
Qed.

(** The fuel only bounds the turns of the loop: a copy that ends within
    some fuel ends in the same way with more. *)
Lemma copyLoop_more_fuel (fuel extra : nat) (queue : list (string * string))
    (st : St * list Event) :
  result_of (copyLoop host fsx fuel queue st) <> Ok None ->
  copyLoop host fsx (fuel + extra) queue st = copyLoop host fsx fuel queue st.
Proof.
  revert queue st. induction fuel as [|fuel IH]; intros queue st H.
  - destruct queue as [|[cs cd] queue]; [by destruct extra | by destruct H].
  - destruct queue as [|[cs cd] queue]; [reflexivity |].
    cbn [copyLoop Nat.add] in *. unfold bind in *.
    destruct (readdirSync_withFileTypes fsx cs st) as [[entries|m] st1]; [| reflexivity].
    destruct (copyEntries host fsx cs cd entries queue st1) as [[queue'|m] st2];
      [| reflexivity].
    by apply IH.
Qed.

End CopyTree.

(** A concrete file system for [copyDirRecursive]: a table of [stat]
    answers and a table of typed listings. *)
Definition demo_fsx (stats : gmap string Stats) (dirents : gmap string (list Dirent))
    : FsHost unit :=
  {| path_basename := fun p => default p (last (split_char "/" p));
     fs_statSync := fun _ p =>
       match stats !! p with
       | Some st => Ok st
       | None => Throw (Demo.enoent p)
       end;
     fs_readdirSync_withFileTypes := fun _ p =>
       match dirents !! p with
       | Some entries => Ok entries
       | None => Throw (Demo.enoent p)
       end;
     fs_chmodSync_mode := fun s _ _ => (Ok tt, s) |}.

Definition a_file (mode : N) : Stats :=
  {| stats_isFile := true; stats_isDirectory := false; stats_mode := mode |}.
Definition a_directory : Stats :=
  {| stats_isFile := false; stats_isDirectory := true; stats_mode := 493%N |}.

(** /src holds a.txt and the directory sub, which holds b.txt; /dest
    does not exist. *)
Definition tree_host : Host unit :=
  Demo.host "linux" "x64" ∅
    (<["/src/a.txt" := "a"]> (<["/src/sub/b.txt" := "b"]> ∅))
    (<["/src" := ["a.txt"; "sub"]]> (<["/src/sub" := ["b.txt"]]> ∅))
    Demo.offline (Ok None) (Ok tt) Demo.absent.

Definition tree_fsx : FsHost unit :=
  demo_fsx
    (<["/src" := a_directory]>
       (<["/src/sub" := a_directory]>
          (<["/src/a.txt" := a_file 420]> (<["/src/sub/b.txt" := a_file 493]> ∅))))
    (<["/src" := [{| dirent_name := "sub"; dirent_isDirectory := true |};
                  {| dirent_name := "a.txt"; dirent_isDirectory := false |}]]>
       (<["/src/sub" := [{| dirent_name := "b.txt"; dirent_isDirectory := false |}]]> ∅)).

(** The whole copy of that tree, breadth first. *)
Example copyDirRecursive_tree :
  copyDirRecursive tree_host tree_fsx 2 "/src" "/dest" (tt, []) =
  (Ok (Some tt),
   (tt, [FsExistsSync "/src"; FsStatSync "/src";
         FsExistsSync "/dest"; FsMkdirSync "/dest";
         FsReaddirSync "/src";
         FsExistsSync "/dest/sub"; FsMkdirSync "/dest/sub";
         FsCopyFileSync "/src/a.txt" "/dest/a.txt"; FsStatSync "/src/a.txt";
         FsChmodSync "/dest/a.txt" "420";
         FsReaddirSync "/src/sub";
         FsCopyFileSync "/src/sub/b.txt" "/dest/sub/b.txt"; FsStatSync "/src/sub/b.txt";
         FsChmodSync "/dest/sub/b.txt" "493"])).
Proof. reflexivity. Qed.

Example copyDirRecursive_tree_out_of_fuel :
  result_of (copyDirRecursive tree_host tree_fsx 1 "/src" "/dest" (tt, [])) = Ok None.
Proof. reflexivity. Qed.

Lemma copyDirRecursive_missing_source_witness :
  copyDirRecursive tree_host tree_fsx 2 "/nonexistent" "/dest" (tt, []) =
  (Throw "Source directory does not exist: /nonexistent",
   (tt, ([] ++ [FsExistsSync "/nonexistent"])%list)).
Proof.
  exact (copyDirRecursive_missing_source tree_host tree_fsx 2 "/nonexistent" "/dest"
           tt [] eq_refl).
Defined.

Lemma copyDirRecursive_file_witness :
  exists pre,
    copyDirRecursive tree_host tree_fsx 0 "/src/a.txt" "/src/sub" (tt, []) =
    (Ok (Some tt),
     (tt, ([] ++ pre ++ [FsCopyFileSync "/src/a.txt" "/src/sub/a.txt";
                         FsChmodSync "/src/sub/a.txt" "420"])%list))
    /\ Forall (fun e => not_chmod e = true) pre
    /\ (forall a b, ~ In (FsCopyFileSync a b) pre).
Proof.
  exact (copyDirRecursive_file tree_host tree_fsx 0 "/src/a.txt" "/src/sub" (a_file 420)
           true tt tt tt tt [] eq_refl eq_refl eq_refl eq_refl eq_refl eq_refl eq_refl).
Defined.

Lemma copyDirRecursive_mirrors_witness :
  exists r s' new,
    copyDirRecursive tree_host tree_fsx 2 "/src" "/dest" (tt, []) =
    (r, (s', ([] ++ [FsExistsSync "/src"; FsStatSync "/src"] ++ new)%list))
    /\ Forall (copy_event_ok tree_host "/src" "/dest") new.
Proof.
  exact (copyDirRecursive_mirrors tree_host tree_fsx 2 "/src" "/dest" a_directory tt []
           eq_refl eq_refl eq_refl).
Defined.

Lemma copyLoop_flat_directory_witness :
  result_of (copyLoop tree_host tree_fsx 1 [("/src/sub", "/dest/sub")] (tt, [])) <> Ok None.
Proof.
  apply (copyLoop_flat_directory tree_host tree_fsx 0 "/src/sub" "/dest/sub"
           [{| dirent_name := "b.txt"; dirent_isDirectory := false |}] tt []).
  - reflexivity.
  - repeat constructor.
Defined.
